(** * Recon.py: a front-end that drives nmap and classifies its output

    A shallow embedding of [src/Recon.py].  Python values are modelled as
    follows.

    - A [str] is a [string] whose characters are the code points U+0000 to
      U+00FF; [str.strip], [str.lower] and the pattern [\d] are Python's on
      these code points.  The arrow of the detail line and the box-drawing
      characters of the banner lie outside this range: they are written as
      their UTF-8 bytes and only ever travel to the console.
    - A call that can raise returns a [result]; [Raise e] is the exception
      leaving the function.
    - A [float] is an IEEE 754 binary64 number, a [spec_float] with 53 bits
      of precision.
    - The working directory is a finite map from file names to nodes, the
      console is the list of renderables handed to [rich], the clock is the
      sequence of its readings.  The locale is a UTF-8 one on a POSIX
      system: every string can be written to a file and shown on the
      terminal, and a line feed is written as it is.
    - [rich] is not part of the repository.  Its markup parser accepts the
      program's own tags around text without brackets; what else it accepts
      is a parameter of the development. *)

From Stdlib Require Import ZArith QArith Lia Ascii String DecimalString HexadecimalString.
From Stdlib Require Import SpecFloat.
From Stdlib Require Import DecimalZ DecimalPos.
From stdpp Require Import gmap strings list.

Set Default Proof Using "Type".

(** ** Exceptions *)

Inductive exn :=
| ValueError
| AddressValueError
| NetmaskValueError
| UnicodeDecodeError
| OSError
| EOFError
| SystemExit
| MarkupError.                (* rich.errors.MarkupError *)

(** [issubclass(e, ValueError)]: the two [ipaddress] exceptions and
    [UnicodeDecodeError] derive from [ValueError]. *)
Definition is_ValueError (e : exn) : bool :=
  match e with
  | ValueError | AddressValueError | NetmaskValueError | UnicodeDecodeError => true
  | _ => false
  end.

Inductive result (A : Type) :=
| Ok (a : A)
| Raise (e : exn).
Arguments Ok {A} a.
Arguments Raise {A} e.

Definition bind {A B} (r : result A) (k : A → result B) : result B :=
  match r with
  | Ok a => k a
  | Raise e => Raise e
  end.

Notation "'let*' x ':=' r 'in' k" := (bind r (fun x => k))
  (at level 10, x name, r at level 100, k at level 200).

(** ** Python string methods *)

Module Str.

Definition LF : string := String "010"%char "".

Definition code (c : ascii) : N := N_of_ascii c.

(** [c.isspace()]: TAB LF VT FF CR, FS GS RS US, the space, NEL
    (U+0085) and the no-break space (U+00A0). *)
Definition isspace (c : ascii) : bool :=
  let n := code c in
  ((9 <=? n) && (n <=? 13) || (28 <=? n) && (n <=? 32)
   || (n =? 133) || (n =? 160))%N.

(** A decimal digit, the class [\d]: below U+0100 these are [0] to [9]. *)
Definition isdigit (c : ascii) : bool :=
  let n := code c in ((48 <=? n) && (n <=? 57))%N.

Fixpoint lstrip (s : string) : string :=
  match s with
  | String c s' => if isspace c then lstrip s' else s
  | EmptyString => EmptyString
  end.

Fixpoint rstrip (s : string) : string :=
  match s with
  | String c s' =>
      match rstrip s' with
      | EmptyString => if isspace c then EmptyString else String c EmptyString
      | r => String c r
      end
  | EmptyString => EmptyString
  end.

(** [s.strip()] *)
Definition strip (s : string) : string := rstrip (lstrip s).

(** [s.startswith(p)] *)
Definition startswith (s p : string) : bool := String.prefix p s.

(** [sub in s] *)
Fixpoint contains (sub s : string) : bool :=
  String.prefix sub s ||
  match s with
  | String _ s' => contains sub s'
  | EmptyString => false
  end.

(** [c.lower()]: the capitals [A] to [Z] and U+00C0 to U+00DE, the
    multiplication sign U+00D7 apart. *)
Definition lower_char (c : ascii) : ascii :=
  let n := code c in
  if ((65 <=? n) && (n <=? 90)
      || (192 <=? n) && (n <=? 222) && negb (n =? 215))%N
  then ascii_of_N (n + 32) else c.

(** [s.lower()] *)
Fixpoint lower (s : string) : string :=
  match s with
  | String c s' => String (lower_char c) (lower s')
  | EmptyString => EmptyString
  end.

(** [s.replace(a, b)] for one-character [a] and [b]. *)
Fixpoint replace (a b : ascii) (s : string) : string :=
  match s with
  | String c s' => String (if Ascii.eqb c a then b else c) (replace a b s')
  | EmptyString => EmptyString
  end.

(** [sep.join(l)] *)
Fixpoint join (sep : string) (l : list string) : string :=
  match l with
  | [] => ""
  | [x] => x
  | x :: l' => x +:+ sep +:+ join sep l'
  end.

(** [s.split(sep)] for a one-character separator. *)
Fixpoint split (sep : ascii) (s : string) : list string :=
  match s with
  | EmptyString => [""]
  | String c s' =>
      if Ascii.eqb c sep then "" :: split sep s'
      else match split sep s' with
           | p :: ps => String c p :: ps
           | [] => [String c ""]
           end
  end.

(** [str(n)] for an integer. *)
Definition of_Z (n : Z) : string :=
  DecimalString.NilZero.string_of_int (Z.to_int n).

(** The first [n] characters, [s[:n]]. *)
Fixpoint take (n : nat) (s : string) : string :=
  match n, s with
  | S n', String c s' => String c (take n' s')
  | _, _ => EmptyString
  end.

(** Every character of [s] is a decimal digit. *)
Fixpoint all_digits (s : string) : bool :=
  match s with
  | String c s' => isdigit c && all_digits s'
  | EmptyString => true
  end.

(** [int(s, 10)] on a string of digits. *)
Fixpoint int_acc (acc : Z) (s : string) : Z :=
  match s with
  | String c s' => int_acc (10 * acc + (Z.of_N (code c) - 48))%Z s'
  | EmptyString => acc
  end.
Definition int (s : string) : Z := int_acc 0%Z s.

(** [s.isascii() and s.isdigit()]; false on the empty string. *)
Definition isdecimal (s : string) : bool :=
  negb (String.eqb s "") && all_digits s.

Definition ishex (c : ascii) : bool :=
  let n := code c in
  (isdigit c || (65 <=? n) && (n <=? 70) || (97 <=? n) && (n <=? 102))%N.

Fixpoint all_hex (s : string) : bool :=
  match s with
  | String c s' => ishex c && all_hex s'
  | EmptyString => true
  end.

Definition hex_val (c : ascii) : Z :=
  let n := Z.of_N (code c) in
  (if isdigit c then n - 48 else if n <? 97 then n - 55 else n - 87)%Z.

(** [int(s, 16)] on a string of hexadecimal digits. *)
Fixpoint int16_acc (acc : Z) (s : string) : Z :=
  match s with
  | String c s' => int16_acc (16 * acc + hex_val c)%Z s'
  | EmptyString => acc
  end.
Definition int16 (s : string) : Z := int16_acc 0%Z s.

(** ['%x' % n] *)
Definition hex (n : Z) : string :=
  HexadecimalString.NilZero.string_of_uint (N.to_hex_uint (Z.to_N n)).

(** [s.partition(sep)]: the text before the first [sep] and, when there
    is one, the text after it. *)
Fixpoint partition (sep : ascii) (s : string) : string * option string :=
  match s with
  | EmptyString => ("", None)
  | String c s' =>
      if Ascii.eqb c sep then ("", Some s')
      else let '(a, b) := partition sep s' in (String c a, b)
  end.

End Str.

(** ** The [re] module: a backtracking matcher

    The two patterns of [run_scan] use literals, [\d], [+] on one
    character class, alternation, one capturing group and [^].  [matches]
    lists the ways a pattern can match at a cursor in the order in which a
    backtracking engine tries them (greedy repetition: longest run first;
    alternation: left branch first), so the first element is the match
    [re] reports. *)

Module Re.

Inductive cclass :=
| Exactly (c : ascii)
| AnyDigit.

Inductive regex :=
| Eps
| Bol                       (* ^ *)
| One (k : cclass)
| Many1 (k : cclass)        (* k+ *)
| Seq (r1 r2 : regex)
| Alt (r1 r2 : regex)       (* r1|r2 *)
| Group (r : regex).        (* (r) *)

Definition in_class (k : cclass) (c : ascii) : bool :=
  match k with
  | Exactly a => Ascii.eqb c a
  | AnyDigit => Str.isdigit c
  end.

(** A literal piece of a pattern. *)
Fixpoint lit (s : string) : regex :=
  match s with
  | String c s' => Seq (One (Exactly c)) (lit s')
  | EmptyString => Eps
  end.

(** A cursor: the offset in the subject and the text still to read. *)
Definition cursor : Type := nat * string.

Fixpoint many1 (k : cclass) (pos : nat) (s : string) : list cursor :=
  match s with
  | String c s' =>
      if in_class k c then many1 k (S pos) s' ++ [(S pos, s')] else []
  | EmptyString => []
  end.

Fixpoint matches (r : regex) (cur : cursor) : list (cursor * list string) :=
  match r with
  | Eps => [(cur, [])]
  | Bol => if Nat.eqb (fst cur) 0 then [(cur, [])] else []
  | One k =>
      match snd cur with
      | String c s' => if in_class k c then [((S (fst cur), s'), [])] else []
      | EmptyString => []
      end
  | Many1 k => map (fun c => (c, [])) (many1 k (fst cur) (snd cur))
  | Seq r1 r2 =>
      flat_map (fun m1 =>
                  map (fun m2 => (fst m2, snd m1 ++ snd m2))
                      (matches r2 (fst m1)))
               (matches r1 cur)
  | Alt r1 r2 => matches r1 cur ++ matches r2 cur
  | Group r0 =>
      map (fun m => (fst m, Str.take (fst (fst m) - fst cur) (snd cur) :: snd m))
          (matches r0 cur)
  end.

(** A match object: where the match ends and the text of its groups. *)
Record Match := { m_end : nat; groups : list string }.

(** [m.group(i)] for [i >= 1]. *)
Definition group (m : Match) (i : nat) : string := nth (i - 1) (groups m) "".

Definition match_at (r : regex) (cur : cursor) : option Match :=
  match matches r cur with
  | m :: _ => Some {| m_end := fst (fst m); groups := snd m |}
  | [] => None
  end.

(** The truth value of what [re.match] and [re.search] return. *)
Definition found (m : option Match) : bool :=
  match m with
  | Some _ => true
  | None => false
  end.

(** [re.match(r, s)] *)
Definition match_ (r : regex) (s : string) : option Match := match_at r (0, s).

Fixpoint search_from (r : regex) (pos : nat) (s : string) : option Match :=
  match match_at r (pos, s) with
  | Some m => Some m
  | None =>
      match s with
      | String _ s' => search_from r (S pos) s'
      | EmptyString => None
      end
  end.

(** [re.search(r, s)]: the match at the leftmost offset that has one. *)
Definition search (r : regex) (s : string) : option Match := search_from r 0 s.

End Re.

(** ** Numbers

    The count of the progress task is the [int] it is created and closed
    with, or the [float] a marker carried. *)

Inductive number :=
| Int (n : Z)
| Float (x : spec_float).

(** The binary64 operations. *)
Definition prec : Z := 53.
Definition emax : Z := 1024.

(** An integer as an exact numerator or denominator. *)
Definition exact (n : Z) : spec_float :=
  match n with
  | Z0 => S754_zero false
  | Zpos p => S754_finite false p 0
  | Zneg p => S754_finite true p 0
  end.

(** The binary64 number nearest to the decimal [i.f], ties to even, and
    infinity beyond the largest finite one: the quotient of the integer
    [if] by the power of ten, rounded once. *)
Definition nearest_binary64 (i f : string) : spec_float :=
  SFdiv prec emax (exact (Str.int (i +:+ f))) (exact (10 ^ Z.of_nat (String.length f))).

(** [float(s)] for the literals [\d+\.\d+], the only ones [run_scan] passes
    to it.  Other spellings that Python accepts are not modelled and answer
    [ValueError] here. *)
Definition float (s : string) : result spec_float :=
  match Str.split "." s with
  | [i; f] =>
      if Str.all_digits i && Str.all_digits f
         && negb (String.eqb i "") && negb (String.eqb f "")
      then Ok (nearest_binary64 i f)
      else Raise ValueError
  | _ => Raise ValueError
  end.

(** ** run_scan: the read loop *)

(** [r"(\d+\.\d+)% done"] *)
Definition progress_re : Re.regex :=
  Re.Seq (Re.Group (Re.Seq (Re.Many1 Re.AnyDigit)
                   (Re.Seq (Re.One (Re.Exactly ".")) (Re.Many1 Re.AnyDigit))))
         (Re.lit "% done").

(** [r"^\d+/(tcp|udp)"] *)
Definition port_re : Re.regex :=
  Re.Seq Re.Bol
    (Re.Seq (Re.Many1 Re.AnyDigit)
       (Re.Seq (Re.One (Re.Exactly "/")) (Re.Group (Re.Alt (Re.lit "tcp") (Re.lit "udp"))))).

(** ** The [ipaddress] module of the Python standard library

    [validate_ip] is decided by [ipaddress.ip_address] and
    [ipaddress.ip_network], which are not part of the repository.  This is
    their parsing of a [str] argument as CPython's [Lib/ipaddress.py] (3.11)
    does it; an address is kept as its integer. *)

Module Ipaddress.

Inductive address :=
| IPv4Address (ip : Z)
| IPv6Address (ip : Z) (scope_id : option string).

Inductive network :=
| IPv4Network (network_address : Z) (prefixlen : Z)
| IPv6Network (network_address : Z) (scope_id : option string) (prefixlen : Z).

(** [except exc: raise AddressValueError] and the like. *)
Definition reraise {A} (caught : exn → bool) (e' : exn) (r : result A) : result A :=
  match r with
  | Ok a => Ok a
  | Raise e => if caught e then Raise e' else Raise e
  end.

Definition is_AddressValueError (e : exn) : bool :=
  match e with AddressValueError => true | _ => false end.
Definition is_NetmaskValueError (e : exn) : bool :=
  match e with NetmaskValueError => true | _ => false end.
Definition is_Address_or_Netmask (e : exn) : bool :=
  is_AddressValueError e || is_NetmaskValueError e.

(** [_split_optional_netmask] and [_split_addr_prefix]: the address text
    and the text after the slash ([None]: no slash, the prefix is the
    full length). *)
Definition split_addr_prefix (address : string) : result (string * option string) :=
  match Str.split "/" address with
  | [a] => Ok (a, None)
  | [a; m] => Ok (a, Some m)
  | _ => Raise AddressValueError
  end.

(** [_count_righthand_zero_bits] *)
Definition bit_length (n : Z) : Z :=
  (if n =? 0 then 0 else Z.log2 n + 1)%Z.
Definition count_righthand_zero_bits (number bits : Z) : Z :=
  (if number =? 0 then bits
   else Z.min bits (bit_length (Z.land (Z.lnot number) (number - 1))))%Z.

Section Version.
(** [_max_prefixlen]: 32 or 128. *)
Variable max_prefixlen : Z.

Definition ALL_ONES : Z := (2 ^ max_prefixlen - 1)%Z.

Definition ip_int_from_prefix (prefixlen : Z) : Z :=
  Z.lxor ALL_ONES (Z.shiftr ALL_ONES prefixlen).

(** [_prefix_from_ip_int]; raises [ValueError]. *)
Definition prefix_from_ip_int (ip_int : Z) : result Z :=
  let trailing_zeroes := count_righthand_zero_bits ip_int max_prefixlen in
  let prefixlen := (max_prefixlen - trailing_zeroes)%Z in
  let leading_ones := Z.shiftr ip_int trailing_zeroes in
  let all_ones := (Z.shiftl 1 prefixlen - 1)%Z in
  if negb (leading_ones =? all_ones)%Z then Raise ValueError else Ok prefixlen.

(** [_prefix_from_prefix_string] *)
Definition prefix_from_prefix_string (prefixlen_str : string) : result Z :=
  if negb (Str.isdecimal prefixlen_str) then Raise NetmaskValueError
  else
    let prefixlen := Str.int prefixlen_str in
    if negb ((0 <=? prefixlen) && (prefixlen <=? max_prefixlen))%Z
    then Raise NetmaskValueError
    else Ok prefixlen.
End Version.

(** *** IPv4 *)

(** [IPv4Address._parse_octet] *)
Definition parse_octet (octet_str : string) : result Z :=
  if String.eqb octet_str "" then Raise ValueError
  else if negb (Str.isdecimal octet_str) then Raise ValueError
  else if (3 <? String.length octet_str)%nat then Raise ValueError
  else if negb (String.eqb octet_str "0") && Str.startswith octet_str "0"
  then Raise ValueError
  else
    let octet_int := Str.int octet_str in
    if (255 <? octet_int)%Z then Raise ValueError else Ok octet_int.

(** [int.from_bytes(map(cls._parse_octet, octets), 'big')] *)
Fixpoint from_octets (acc : Z) (octets : list string) : result Z :=
  match octets with
  | [] => Ok acc
  | o :: rest =>
      let* b := parse_octet o in
      from_octets (256 * acc + b)%Z rest
  end.

(** [IPv4Address._ip_int_from_string] *)
Definition v4_ip_int_from_string (ip_str : string) : result Z :=
  if String.eqb ip_str "" then Raise AddressValueError
  else
    let octets := Str.split "." ip_str in
    if negb (length octets =? 4)%nat then Raise AddressValueError
    else reraise is_ValueError AddressValueError (from_octets 0 octets).

(** [IPv4Address(address)] on a string: the integer of the address. *)
Definition v4_address (addr_str : string) : result Z :=
  if Str.contains "/" addr_str then Raise AddressValueError
  else v4_ip_int_from_string addr_str.

(** [IPv4Network._prefix_from_ip_string]: a netmask or a hostmask in
    dotted-quad form. *)
Definition v4_prefix_from_ip_string (ip_str : string) : result Z :=
  let* ip_int :=
    reraise is_AddressValueError NetmaskValueError (v4_ip_int_from_string ip_str) in
  match prefix_from_ip_int 32 ip_int with
  | Ok p => Ok p
  | Raise e =>
      if is_ValueError e then
        let ip_int := Z.lxor ip_int (ALL_ONES 32) in
        reraise is_ValueError NetmaskValueError (prefix_from_ip_int 32 ip_int)
      else Raise e
  end.

(** [IPv4Network._make_netmask]: the netmask and the prefix length. *)
Definition v4_make_netmask (arg : option string) : result (Z * Z) :=
  let* prefixlen :=
    match arg with
    | None => Ok 32%Z
    | Some arg =>
        match prefix_from_prefix_string 32 arg with
        | Ok p => Ok p
        | Raise e =>
            if is_NetmaskValueError e then v4_prefix_from_ip_string arg else Raise e
        end
    end in
  Ok (ip_int_from_prefix 32 prefixlen, prefixlen).

(** [IPv4Network(address, strict)] *)
Definition v4_network (address : string) (strict : bool) : result network :=
  let* am := split_addr_prefix address in
  let* network_address := v4_address (fst am) in
  let* nm := v4_make_netmask (snd am) in
  let packed := network_address in
  if negb (Z.land packed (fst nm) =? packed)%Z then
    if strict then Raise ValueError
    else Ok (IPv4Network (Z.land packed (fst nm)) (snd nm))
  else Ok (IPv4Network network_address (snd nm)).

(** *** IPv6 *)

(** [IPv6Address._parse_hextet] *)
Definition parse_hextet (hextet_str : string) : result Z :=
  if negb (Str.all_hex hextet_str) then Raise ValueError
  else if (4 <? String.length hextet_str)%nat then Raise ValueError
  else if String.eqb hextet_str "" then Raise ValueError
  else Ok (Str.int16 hextet_str).

(** [for i in range(1, len(parts) - 1)]: the index of the empty part that
    stands for [::], looked for away from both ends. *)
Fixpoint find_skip (i : nat) (middle : list string) (skip_index : option nat)
  : result (option nat) :=
  match middle with
  | [] => Ok skip_index
  | p :: rest =>
      if String.eqb p "" then
        match skip_index with
        | Some _ => Raise AddressValueError
        | None => find_skip (S i) rest (Some i)
        end
      else find_skip (S i) rest skip_index
  end.

(** [ip_int <<= 16; ip_int |= cls._parse_hextet(parts[i])] over [parts]. *)
Fixpoint from_hextets (ip_int : Z) (parts : list string) : result Z :=
  match parts with
  | [] => Ok ip_int
  | p :: rest =>
      let* h := parse_hextet p in
      from_hextets (Z.lor (Z.shiftl ip_int 16) h) rest
  end.

(** [IPv6Address._ip_int_from_string] *)
Definition v6_ip_int_from_string (ip_str : string) : result Z :=
  if String.eqb ip_str "" then Raise AddressValueError
  else
    let parts := Str.split ":" ip_str in
    if (length parts <? 3)%nat then Raise AddressValueError
    else
      let* parts :=
        if Str.contains "." (List.last parts "") then
          let* ipv4_int :=
            reraise is_AddressValueError AddressValueError
                    (v4_address (List.last parts "")) in
          Ok (removelast parts
                ++ [Str.hex (Z.land (Z.shiftr ipv4_int 16) 65535);
                    Str.hex (Z.land ipv4_int 65535)])
        else Ok parts in
      if (9 <? length parts)%nat then Raise AddressValueError
      else
        let* skip_index := find_skip 1 (removelast (tl parts)) None in
        let first_empty := String.eqb (hd "" parts) "" in
        let last_empty := String.eqb (List.last parts "") "" in
        let* counts :=
          match skip_index with
          | Some skip_index =>
              let parts_hi := skip_index in
              let parts_lo := (length parts - skip_index - 1)%nat in
              let* parts_hi :=
                if first_empty then
                  if negb (parts_hi - 1 =? 0)%nat then Raise AddressValueError
                  else Ok (parts_hi - 1)%nat
                else Ok parts_hi in
              let* parts_lo :=
                if last_empty then
                  if negb (parts_lo - 1 =? 0)%nat then Raise AddressValueError
                  else Ok (parts_lo - 1)%nat
                else Ok parts_lo in
              if (8 <? parts_hi + parts_lo + 1)%nat then Raise AddressValueError
              else Ok (parts_hi, parts_lo, (8 - (parts_hi + parts_lo))%nat)
          | None =>
              if negb (length parts =? 8)%nat then Raise AddressValueError
              else if first_empty then Raise AddressValueError
              else if last_empty then Raise AddressValueError
              else Ok (length parts, 0%nat, 0%nat)
          end in
        let '(parts_hi, parts_lo, parts_skipped) := counts in
        reraise is_ValueError AddressValueError
          (let* ip_int := from_hextets 0 (firstn parts_hi parts) in
           let ip_int := Z.shiftl ip_int (16 * Z.of_nat parts_skipped) in
           from_hextets ip_int (skipn (length parts - parts_lo) parts)).

(** [IPv6Address._split_scope_id] *)
Definition split_scope_id (ip_str : string) : result (string * option string) :=
  match Str.partition "%" ip_str with
  | (addr, None) => Ok (addr, None)
  | (addr, Some scope_id) =>
      if String.eqb scope_id "" || Str.contains "%" scope_id
      then Raise AddressValueError
      else Ok (addr, Some scope_id)
  end.

(** [IPv6Address(address)] on a string. *)
Definition v6_address (addr_str : string) : result (Z * option string) :=
  if Str.contains "/" addr_str then Raise AddressValueError
  else
    let* as_ := split_scope_id addr_str in
    let* ip := v6_ip_int_from_string (fst as_) in
    Ok (ip, snd as_).

(** [IPv6Network._make_netmask] *)
Definition v6_make_netmask (arg : option string) : result (Z * Z) :=
  let* prefixlen :=
    match arg with
    | None => Ok 128%Z
    | Some arg => prefix_from_prefix_string 128 arg
    end in
  Ok (ip_int_from_prefix 128 prefixlen, prefixlen).

(** [IPv6Network(address, strict)] *)
Definition v6_network (address : string) (strict : bool) : result network :=
  let* am := split_addr_prefix address in
  let* network_address := v6_address (fst am) in
  let* nm := v6_make_netmask (snd am) in
  let packed := fst network_address in
  if negb (Z.land packed (fst nm) =? packed)%Z then
    if strict then Raise ValueError
    else Ok (IPv6Network (Z.land packed (fst nm)) None (snd nm))
  else Ok (IPv6Network packed (snd network_address) (snd nm)).

(** *** The two factory functions *)

(** [ipaddress.ip_address(address)] *)
Definition ip_address (addr : string) : result address :=
  match v4_address addr with
  | Ok ip => Ok (IPv4Address ip)
  | Raise e =>
      if is_Address_or_Netmask e then
        match v6_address addr with
        | Ok (ip, scope_id) => Ok (IPv6Address ip scope_id)
        | Raise e' => if is_Address_or_Netmask e' then Raise ValueError else Raise e'
        end
      else Raise e
  end.

(** [ipaddress.ip_network(address, strict)] *)
Definition ip_network (address : string) (strict : bool) : result network :=
  match v4_network address strict with
  | Ok n => Ok n
  | Raise e =>
      if is_Address_or_Netmask e then
        match v6_network address strict with
        | Ok n => Ok n
        | Raise e' => if is_Address_or_Netmask e' then Raise ValueError else Raise e'
        end
      else Raise e
  end.

End Ipaddress.

(** ** Sample data *)

(** A [rich] that renders the plain strings of the next section and refuses
    every other one: the console of the examples, which print plain strings,
    or strings with a closing tag that nothing opens. *)
Definition plain_console : string → bool := fun _ => false.

Section Recon.

(** ** rich: markup

    [console.print] and [Prompt.ask] read their string as markup and raise
    [MarkupError] when it is malformed, for instance on a closing tag with
    no open tag to match.  A string is plain when every opening bracket in
    it starts one of the program's own tags, every closing tag closes a tag
    that is open, and it holds no backslash: [rich] accepts every plain
    string.  Which of the other strings it accepts is [rich_accepts]. *)

Variable rich_accepts : string → bool.

(** The style names of the program's own tags. *)
Definition own_styles : list string :=
  ["bold cyan"; "white"; "dim"; "bold yellow"; "bold green"; "bold magenta";
   "cyan"; "bold red"; "bold white"; "bold blue"; "yellow"; "red"].

(** Close the tag [name] opened last. *)
Fixpoint close_tag (name : string) (open_tags : list string) : option (list string) :=
  match open_tags with
  | [] => None
  | t :: rest =>
      if String.eqb t name then Some rest
      else option_map (cons t) (close_tag name rest)
  end.

(** A tag has been read up to its closing bracket. *)
Definition end_tag (tag : string) (open_tags : list string) : option (list string) :=
  match tag with
  | String "/" name =>
      if existsb (String.eqb name) own_styles then close_tag name open_tags else None
  | _ =>
      if existsb (String.eqb tag) own_styles then Some (tag :: open_tags) else None
  end.

(** Read [s] with [open_tags] open; [tag] is the text of the tag being
    read, if any. *)
Fixpoint plain_run (open_tags : list string) (tag : option string) (s : string)
  : option (list string * option string) :=
  match s with
  | EmptyString => Some (open_tags, tag)
  | String c s' =>
      if Ascii.eqb c "\" then None
      else
        match tag with
        | None =>
            if Ascii.eqb c "[" then plain_run open_tags (Some "") s'
            else plain_run open_tags None s'
        | Some t =>
            if Ascii.eqb c "]" then
              match end_tag t open_tags with
              | Some open_tags' => plain_run open_tags' None s'
              | None => None
              end
            else if Ascii.eqb c "[" then None
            else plain_run open_tags (Some (t +:+ String c "")) s'
        end
  end.

Definition plain_markup (s : string) : bool :=
  match plain_run [] None s with
  | Some (_, None) => true
  | _ => false
  end.

(** [rich] renders the markup without raising. *)
Definition accepts (markup : string) : bool :=
  plain_markup markup || rich_accepts markup.

(** ** run_scan: the read loop *)

(** What reaches the terminal: [console.print] of a markup string or of a
    [Panel], [console.clear()], the prompt of [input] and the prompt of
    [Prompt.ask]. *)
Inductive shown :=
| Print (markup : string)
| PrintPanel (body border_style : string)
| Clear
| Ask (prompt : string)
| PromptAsk (markup : string).

(** What the loop of [run_scan] changes: the [completed] count of the
    progress task, the text written to [log_file] and the renderables handed
    to [console.print]. *)
Record Live := {
  completed : number;
  log_file : string;
  console : list shown;
}.

Definition log_write (s : string) (st : Live) : Live :=
  {| completed := completed st; log_file := log_file st +:+ s; console := console st |}.

Definition console_print (s : string) (st : Live) : result Live :=
  if accepts s then
    Ok {| completed := completed st; log_file := log_file st;
          console := console st ++ [Print s] |}
  else Raise MarkupError.

Definition progress_update (n : number) (st : Live) : Live :=
  {| completed := n; log_file := log_file st; console := console st |}.

(** The body of [for line in process.stdout] (lines 119-149). *)
Definition process_line (st : Live) (line : string) : result Live :=
  let clean_line := Str.strip line in
  if String.eqb clean_line "" then Ok st
  else
    let st := log_write (clean_line +:+ Str.LF) st in
    match Re.search progress_re clean_line with
    | Some m =>
        let* percent := float (Re.group m 1) in
        Ok (progress_update (Float percent) st)
    | None =>
        if Re.found (Re.match_ port_re clean_line) then
          console_print ("[bold green]PORT FOUND: " +:+ clean_line +:+ "[/bold green]") st
        else if Str.contains "OS details:" clean_line || Str.contains "Service Info:" clean_line then
          console_print ("[bold magenta]➔ " +:+ clean_line +:+ "[/bold magenta]") st
        else if Str.startswith clean_line "|" then
          console_print ("  [cyan]" +:+ clean_line +:+ "[/cyan]") st
        else if negb (Str.contains "Stats:" clean_line) then
          console_print ("  [dim]" +:+ clean_line +:+ "[/dim]") st
        else Ok st
    end.

(** The state in which an exception leaves the body: the write to the log
    (line 123) comes before every call that can raise, and nothing else has
    changed by then. *)
Definition written (st : Live) (line : string) : Live :=
  let clean_line := Str.strip line in
  if String.eqb clean_line "" then st
  else log_write (clean_line +:+ Str.LF) st.

(** [for line in process.stdout]: the lines the stream delivers, then its
    end ([decodes = true]) or bytes that are not text, on which the iterator
    raises.  The loop stops at the first exception; the state it has reached
    and the exception are returned. *)
Fixpoint read_loop (st : Live) (lines : list string) (decodes : bool)
  : Live * option exn :=
  match lines with
  | [] => (st, if decodes then None else Some UnicodeDecodeError)
  | line :: rest =>
      match process_line st line with
      | Ok st' => read_loop st' rest decodes
      | Raise e => (written st line, Some e)
      end
  end.

Definition live0 : Live := {| completed := Int 0; log_file := ""; console := [] |}.

(** ** The world around the program *)

(** A name in the working directory is a file that can be read and written
    and holds text, such a file whose bytes are not text in the encoding of
    the locale (it opens, reading it raises), or something whose [open]
    fails (a directory, a file without permission).  A name that is not
    there can be created. *)
Inductive node :=
| File (content : string)
| Garbled
| Locked.

(** What a child process does: the text read from its stdout and stderr up
    to the end of the stream or to the first bytes read that are not text
    ([decodes] tells which), and its exit status. *)
Record child := {
  stdout : string;
  decodes : bool;
  returncode : Z;
}.

(** An executable on the search path, from its arguments. *)
Abbreviation program := (list string → child)%type (only parsing).

Record World := {
  w_fs : gmap string node;            (* the working directory *)
  w_console : list shown;             (* the terminal so far *)
  w_stdin : list string;              (* the lines the user will type *)
  w_clock : nat → Z;                  (* int(time.time()) at each reading *)
  w_ticks : nat;                      (* the readings made so far *)
  w_path : gmap string program;       (* what the search path resolves *)
  w_spawned : list (list string);     (* the argument lists given to Popen *)
  w_task : number;                    (* completed count of the last progress task *)
}.

Definition set_fs (fs : gmap string node) (w : World) : World :=
  {| w_fs := fs; w_console := w_console w; w_stdin := w_stdin w; w_clock := w_clock w;
     w_ticks := w_ticks w; w_path := w_path w; w_spawned := w_spawned w; w_task := w_task w |}.

Definition set_console (c : list shown) (w : World) : World :=
  {| w_fs := w_fs w; w_console := c; w_stdin := w_stdin w; w_clock := w_clock w;
     w_ticks := w_ticks w; w_path := w_path w; w_spawned := w_spawned w; w_task := w_task w |}.

Definition set_stdin (i : list string) (w : World) : World :=
  {| w_fs := w_fs w; w_console := w_console w; w_stdin := i; w_clock := w_clock w;
     w_ticks := w_ticks w; w_path := w_path w; w_spawned := w_spawned w; w_task := w_task w |}.

Definition set_ticks (n : nat) (w : World) : World :=
  {| w_fs := w_fs w; w_console := w_console w; w_stdin := w_stdin w; w_clock := w_clock w;
     w_ticks := n; w_path := w_path w; w_spawned := w_spawned w; w_task := w_task w |}.

Definition set_spawned (l : list (list string)) (w : World) : World :=
  {| w_fs := w_fs w; w_console := w_console w; w_stdin := w_stdin w; w_clock := w_clock w;
     w_ticks := w_ticks w; w_path := w_path w; w_spawned := l; w_task := w_task w |}.

Definition set_task (n : number) (w : World) : World :=
  {| w_fs := w_fs w; w_console := w_console w; w_stdin := w_stdin w; w_clock := w_clock w;
     w_ticks := w_ticks w; w_path := w_path w; w_spawned := w_spawned w; w_task := n |}.

Definition show (e : shown) (w : World) : World :=
  set_console (w_console w ++ [e]) w.

(** [console.print(markup)] *)
Definition print (markup : string) (w : World) : result World :=
  if accepts markup then Ok (show (Print markup) w) else Raise MarkupError.

(** [input(prompt)]: show the prompt as it is, read a line. *)
Definition input (prompt : string) (w : World) : result (string * World) :=
  match w_stdin w with
  | [] => Raise EOFError
  | reply :: rest => Ok (reply, set_stdin rest (show (Ask prompt) w))
  end.

(** [Prompt.ask(prompt)]: read the prompt as markup, show it, read a line;
    the answer is the line, stripped. *)
Definition ask (prompt : string) (w : World) : result (string * World) :=
  if accepts prompt then
    match w_stdin w with
    | [] => Raise EOFError
    | reply :: rest => Ok (Str.strip reply, set_stdin rest (show (PromptAsk prompt) w))
    end
  else Raise MarkupError.

(** [int(time.time())]: the next reading of the clock. *)
Definition now (w : World) : Z := w_clock w (w_ticks w).

Definition time_time (w : World) : Z * World := (now w, set_ticks (S (w_ticks w)) w).

(** Reading a text file translates every line ending to a line feed. *)
Fixpoint universal_newlines (s : string) : string :=
  match s with
  | EmptyString => EmptyString
  | String c s' =>
      if Ascii.eqb c "013" then
        String "010"
          match s' with
          | String c' s'' =>
              if Ascii.eqb c' "010" then universal_newlines s'' else universal_newlines s'
          | EmptyString => EmptyString
          end
      else String c (universal_newlines s')
  end.

(** The lines of a text, each with the line feed that ends it. *)
Fixpoint readlines (s : string) : list string :=
  match s with
  | EmptyString => []
  | String c s' =>
      if Ascii.eqb c "010" then String c "" :: readlines s'
      else match readlines s' with
           | l :: ls => String c l :: ls
           | [] => [String c ""]
           end
  end.

(** The line is ended by a line feed. *)
Fixpoint ends_with_LF (s : string) : bool :=
  match s with
  | EmptyString => false
  | String c EmptyString => Ascii.eqb c "010"
  | String _ s' => ends_with_LF s'
  end.

(** The text without a carriage return at its very end. *)
Fixpoint without_last_cr (s : string) : string :=
  match s with
  | EmptyString => EmptyString
  | String c EmptyString => if Ascii.eqb c "013" then EmptyString else s
  | String c s' => String c (without_last_cr s')
  end.

(** What iterating over [process.stdout] delivers, in text mode.  At the
    end of the stream the text left over is the last line, with or without
    a line feed.  Before bytes that are not text only the lines already
    ended are delivered: a carriage return at the very end still waits for
    the character after it, and the line being read is lost with the
    exception. *)
Definition stdout_lines (c : child) : list string :=
  if decodes c then readlines (universal_newlines (stdout c))
  else filter ends_with_LF (readlines (universal_newlines (without_last_cr (stdout c)))).

(** A string with a NUL character is no file name and no argument. *)
Definition has_nul (s : string) : bool := Str.contains (String "000" "") s.

(** [os.path.exists(name)] *)
Definition path_exists (name : string) (w : World) : bool :=
  match w_fs w !! name with
  | Some _ => true
  | None => false
  end.

(** [with open(name, "r") as f: f.read()] *)
Definition read_file (name : string) (w : World) : result string :=
  match w_fs w !! name with
  | Some (File content) => Ok (universal_newlines content)
  | Some Garbled => Raise UnicodeDecodeError
  | Some Locked => Raise OSError
  | None => Raise OSError
  end.

(** [with open(name, "w") as f: f.write(text)], where line feeds are
    written as they are. *)
Definition write_file (name text : string) (w : World) : result World :=
  if has_nul name then Raise ValueError
  else
    match w_fs w !! name with
    | Some Locked => Raise OSError
    | _ => Ok (set_fs (<[name := File text]> (w_fs w)) w)
    end.

(** [subprocess.Popen(command, stdout=PIPE, stderr=STDOUT, text=True)]: what
    the child will do. *)
Definition Popen (command : list string) (w : World) : result (child * World) :=
  if existsb has_nul command then Raise ValueError
  else
    match w_path w !! hd "" command with
    | Some prog => Ok (prog (tl command), set_spawned (w_spawned w ++ [command]) w)
    | None => Raise OSError
    end.

(** [for x in l: f(x)] *)
Fixpoint for_each {A} (f : A → World → result World) (l : list A) (w : World)
  : result World :=
  match l with
  | [] => Ok w
  | x :: l' =>
      let* w := f x w in
      for_each f l' w
  end.

(** ** Utility functions *)

Definition LAST_IP_FILE : string := ".last_target".

Definition load_last_ip (w : World) : result (option string) :=
  if path_exists LAST_IP_FILE w then
    let* text := read_file LAST_IP_FILE w in
    Ok (Some (Str.strip text))
  else Ok None.

Definition save_last_ip (ip : string) (w : World) : result World :=
  write_file LAST_IP_FILE ip w.

Definition validate_ip (ip : string) : result bool :=
  match
    (if Str.contains "/" ip
     then let* _ := Ipaddress.ip_network ip false in Ok tt
     else let* _ := Ipaddress.ip_address ip in Ok tt)
  with
  | Ok _ => Ok true
  | Raise e => if is_ValueError e then Ok false else Raise e
  end.

(** [shutil.which("nmap")] and the message when it finds nothing. *)
Definition check_nmap (w : World) : result (bool * World) :=
  match w_path w !! "nmap" with
  | Some _ => Ok (true, w)
  | None =>
      let* w := print "[bold red]Error:[/bold red] nmap is not installed." w in
      Ok (false, w)
  end.

(** ** Scan definitions *)

Record Scan := {
  name : string;
  command : list string;
  description : string;
}.

(** The dictionary [SCANS], in insertion order. *)
Definition SCANS : list (string * Scan) := [
  ("1", {| name := "Host Discovery (Ping Scan)";
           command := ["nmap"; "-sn"];
           description := "Checks which hosts are alive without scanning ports." |});
  ("2", {| name := "Quick Port Scan";
           command := ["nmap"];
           description := "Scans the most common 1000 TCP ports." |});
  ("3", {| name := "Full Port Scan";
           command := ["nmap"; "-p-"];
           description := "Scans all 65535 TCP ports." |});
  ("4", {| name := "Service & Version Detection";
           command := ["nmap"; "-sV"; "-sC"];
           description := "Detects service versions and runs default scripts." |});
  ("5", {| name := "OS Detection";
           command := ["nmap"; "-O"];
           description := "Attempts to identify the target operating system." |});
  ("6", {| name := "Stealth Mode (SYN Scan)";
           command := ["nmap"; "-sS"; "-Pn"];
           description := "Scans without completing TCP connections. (Usually requires sudo/root)" |})
].

(** [SCANS[key]], [None] when [key not in SCANS]. *)
Fixpoint scans_get (key : string) (scans : list (string * Scan)) : option Scan :=
  match scans with
  | [] => None
  | (k, v) :: rest => if String.eqb k key then Some v else scans_get key rest
  end.

(** ** run_scan *)

Definition scan_failed : string :=
  Str.LF +:+ "[bold red]Scan failed.[/bold red] Run as sudo/admin for advanced scans.".

Definition scan_complete : string :=
  Str.LF +:+ "[bold green]Scan complete![/bold green]".

Definition report_saved (log_filename : string) : string :=
  "Detailed report saved to: [bold white]" +:+ log_filename +:+ "[/bold white]" +:+ Str.LF.

Definition log_name (target : string) (seconds : Z) : string :=
  "scan_" +:+ Str.replace "/" "_" target +:+ "_" +:+ Str.of_Z seconds +:+ ".txt".

Definition scan_argv (scan_command : list string) (target : string) : list string :=
  scan_command ++ ["--stats-every"; "3s"; target].

Definition run_scan (scan_command : list string) (target : string) (w : World)
  : result World :=
  let tw := time_time w in
  let log_filename := log_name target (fst tw) in
  let w := snd tw in
  let command := scan_argv scan_command target in
  let* w := print (Str.LF +:+ "[bold cyan]Targeting:[/bold cyan] [white]" +:+ target +:+ "[/white]") w in
  let* w := print ("[bold cyan]Command:[/bold cyan] [dim]" +:+ Str.join " " command +:+ "[/dim]" +:+ Str.LF) w in
  (* task = progress.add_task("Scanning...", total=100) *)
  let w := set_task (Int 0) w in
  let* pw := Popen command w in
  let process := fst pw in
  let w := snd pw in
  let* w := print (Str.LF +:+ "[bold yellow]--- Live Scan Results ---[/bold yellow]") w in
  (* open(log_filename, "w") creates or empties the file *)
  let* w := write_file log_filename "" w in
  let loop :=
    read_loop {| completed := w_task w; log_file := ""; console := w_console w |}
              (stdout_lines process) (decodes process) in
  let st := fst loop in
  (* leaving the with block, by its end or by an exception: what was
     written is in the file *)
  let w := set_fs (<[log_filename := File (log_file st)]> (w_fs w)) w in
  let w := set_console (console st) w in
  let w := set_task (completed st) w in
  match snd loop with
  | Some e => Raise e
  | None =>
      (* process.wait(); progress.update(task, completed=100) *)
      let w := set_task (Int 100) w in
      if negb (returncode process =? 0)%Z then
        print scan_failed w
      else
        let* w := print scan_complete w in
        print (report_saved log_filename) w
  end.

(** ** Explanation and menu *)

Definition explain_scans (w : World) : result World :=
  let* w := print (Str.LF +:+ "[bold blue]Scan Explanations[/bold blue]" +:+ Str.LF) w in
  let* w :=
    for_each
      (fun kv w =>
         let key := fst kv in
         let data := snd kv in
         let* w := print ("[yellow]" +:+ key +:+ ". " +:+ name data +:+ "[/yellow]") w in
         let* w := print ("   Command: " +:+ Str.join " " (command data)) w in
         print ("   What it does: " +:+ description data +:+ Str.LF) w)
      SCANS w in
  let* rw := input "Press Enter to return to menu..." w in
  Ok (snd rw).

Definition banner : string :=
  Str.LF +:+
  " ██████╗ ███████╗ ██████╗ ██████╗ ███╗  ██╗" +:+ Str.LF +:+
  " ██╔══██╗██╔════╝██╔════╝██╔═══██╗████╗  ██║" +:+ Str.LF +:+
  " ██████╔╝█████╗  ██║     ██║   ██║██╔██╗ ██║" +:+ Str.LF +:+
  " ██╔══██╗██╔══╝  ██║     ██║   ██║██║╚██╗██║" +:+ Str.LF +:+
  " ██║  ██║███████╗╚██████╗╚██████╔╝██║ ╚████║" +:+ Str.LF +:+
  " ╚═╝  ╚═╝╚══════╝ ╚═════╝ ╚═════╝ ╚═╝  ╚═══╝" +:+ Str.LF +:+
  Str.LF +:+
  "=============================================" +:+ Str.LF +:+
  "Simplified Nmap Interface for Beginners" +:+ Str.LF +:+
  "=============================================" +:+ Str.LF.

(** [console.print(Panel(banner, border_style="bright_blue"))]; the body of
    the panel is read as markup too. *)
Definition print_banner (w : World) : result World :=
  if accepts banner then Ok (show (PrintPanel banner "bright_blue") w)
  else Raise MarkupError.

(** The truth value of [last_ip]: [None] and the empty string are false. *)
Definition truthy (last_ip : option string) : bool :=
  match last_ip with
  | Some s => negb (String.eqb s "")
  | None => false
  end.

Definition menu (w : World) : result World :=
  let w := show Clear w in
  let* w := print_banner w in
  let* w :=
    for_each
      (fun kv w => print ("[yellow]" +:+ fst kv +:+ ".[/yellow] " +:+ name (snd kv)) w)
      SCANS w in
  let* w := print "[cyan]E.[/cyan] Explain Scan Types" w in
  let* w := print "[red]X.[/red] Exit" w in
  let* rw := ask (Str.LF +:+ "Select a scan option") w in
  let choice := Str.lower (Str.strip (fst rw)) in
  let w := snd rw in
  if String.eqb choice "x" then
    let* w := print "[bold red]Exiting...[/bold red]" w in
    (* exit() *)
    Raise SystemExit
  else if String.eqb choice "e" then
    explain_scans w
  else
    match scans_get choice SCANS with
    | Some scan =>
        let* last_ip := load_last_ip w in
        let prompt_msg :=
          if truthy last_ip
          then "Enter target IP (or 'r' for " +:+ default "" last_ip +:+ ")"
          else "Enter target IP" in
        let* rw := ask prompt_msg w in
        let target_input := Str.strip (fst rw) in
        let w := snd rw in
        let ip :=
          if String.eqb (Str.lower target_input) "r" && truthy last_ip
          then default "" last_ip
          else target_input in
        let* valid := validate_ip ip in
        if negb valid then
          (* time.sleep(2) *)
          print "[bold red]Invalid IP format.[/bold red]" w
        else
          let* w := save_last_ip ip w in
          let* nw := check_nmap w in
          let w := snd nw in
          if fst nw then
            let* w := run_scan (command scan) ip w in
            let* rw := input (Str.LF +:+ "Press Enter to return to menu...") w in
            Ok (snd rw)
          else Ok w
    | None =>
        (* time.sleep(1.5) *)
        print "[bold red]Invalid selection.[/bold red]" w
    end.


(** ** Vocabulary of the statements *)

(** A decimal literal [digits.digits], the shape of [\d+\.\d+]. *)
Definition decimal_literal (g : string) : Prop :=
  ∃ i f, g = i +:+ "." +:+ f ∧ Str.isdecimal i = true ∧ Str.isdecimal f = true.

(** The number a count stands for, when it is finite. *)
Definition value (n : number) : option Q :=
  match n with
  | Int k => Some (inject_Z k)
  | Float (S754_zero _) => Some 0%Q
  | Float (S754_finite s m e) =>
      Some (Qred ((if s then -1 else 1) * inject_Z (Z.pos m) * Qpower 2 e))
  | Float _ => None
  end.

(** [n >= 0] *)
Definition is_nonneg (n : number) : bool :=
  match n with
  | Int k => (0 <=? k)%Z
  | Float (S754_zero _) => true
  | Float (S754_infinity s) | Float (S754_finite s _ _) => negb s
  | Float S754_nan => false
  end.


(** [sub] occurs in [s]: [s = pre + sub + post]. *)
Definition occurs_in (sub s : string) : Prop :=
  ∃ pre post, s = pre +:+ sub +:+ post.

(** The lines of a stream that are not blank, trimmed and ended by a line
    feed: what the log holds of that stream. *)
Fixpoint logged (lines : list string) : string :=
  match lines with
  | [] => ""
  | line :: rest =>
      (if String.eqb (Str.strip line) "" then "" else Str.strip line +:+ Str.LF)
      +:+ logged rest
  end.

(** The words a pattern stands for, read off its syntax ([^] takes no
    character; where it may stand is left to the matcher). *)
Fixpoint all_in (k : Re.cclass) (u : string) : bool :=
  match u with
  | String c u' => Re.in_class k c && all_in k u'
  | EmptyString => true
  end.

Fixpoint denotes (r : Re.regex) (u : string) : Prop :=
  match r with
  | Re.Eps => u = ""
  | Re.Bol => u = ""
  | Re.One k => ∃ c, u = String c "" ∧ Re.in_class k c = true
  | Re.Many1 k => u ≠ "" ∧ all_in k u = true
  | Re.Seq r1 r2 => ∃ u1 u2, u = u1 +:+ u2 ∧ denotes r1 u1 ∧ denotes r2 u2
  | Re.Alt r1 r2 => denotes r1 u ∨ denotes r2 u
  | Re.Group r0 => denotes r0 u
  end.

Fixpoint group_free (r : Re.regex) : bool :=
  match r with
  | Re.Seq r1 r2 | Re.Alt r1 r2 => group_free r1 && group_free r2
  | Re.Group _ => false
  | _ => true
  end.

Fixpoint anchor_free (r : Re.regex) : bool :=
  match r with
  | Re.Seq r1 r2 | Re.Alt r1 r2 => anchor_free r1 && anchor_free r2
  | Re.Group r0 => anchor_free r0
  | Re.Bol => false
  | _ => true
  end.

(** The line holds a progress marker: a decimal literal directly followed
    by [% done]. *)
Definition has_marker (s : string) : Prop :=
  ∃ pre num post, s = pre +:+ num +:+ "% done" +:+ post ∧ decimal_literal num.

(** The line begins like a port line: digits, a slash, [tcp] or [udp]. *)
Definition port_prefix (s : string) : Prop :=
  ∃ d proto rest,
    s = d +:+ "/" +:+ proto +:+ rest
    ∧ Str.isdecimal d = true ∧ (proto = "tcp" ∨ proto = "udp").

(** The four ways the loop prints a trimmed line. *)
Definition as_port (clean : string) : shown :=
  Print ("[bold green]PORT FOUND: " +:+ clean +:+ "[/bold green]").
Definition as_detail (clean : string) : shown :=
  Print ("[bold magenta]➔ " +:+ clean +:+ "[/bold magenta]").
Definition as_script (clean : string) : shown :=
  Print ("  [cyan]" +:+ clean +:+ "[/cyan]").
Definition as_plain (clean : string) : shown :=
  Print ("  [dim]" +:+ clean +:+ "[/dim]").

(** [rich] renders the entry without raising. *)
Definition accepted (e : shown) : bool :=
  match e with
  | Print markup | PromptAsk markup => accepts markup
  | PrintPanel body _ => accepts body
  | Clear | Ask _ => true
  end.

(** What the loop prints for a trimmed line without marker, if anything. *)
Definition shown_for (clean : string) : option shown :=
  if Re.found (Re.match_ port_re clean) then Some (as_port clean)
  else if Str.contains "OS details:" clean || Str.contains "Service Info:" clean
  then Some (as_detail clean)
  else if Str.startswith clean "|" then Some (as_script clean)
  else if negb (Str.contains "Stats:" clean) then Some (as_plain clean)
  else None.

(** Whichever way the loop prints the line, [rich] renders it. *)
Definition line_shown (line : string) : bool :=
  let clean := Str.strip line in
  forallb accepted [as_port clean; as_detail clean; as_script clean; as_plain clean].

(** [e] is a rendering of a line of [lines] that is not blank and holds no
    progress marker. *)
Definition rendered_from (lines : list string) (e : shown) : Prop :=
  ∃ line,
    In line lines ∧ Str.strip line ≠ ""
    ∧ Re.search progress_re (Str.strip line) = None
    ∧ (e = as_port (Str.strip line) ∨ e = as_detail (Str.strip line)
       ∨ e = as_script (Str.strip line) ∨ e = as_plain (Str.strip line)).

(** A text without opening bracket and without backslash. *)
Fixpoint plain_text (s : string) : bool :=
  match s with
  | EmptyString => true
  | String c s' => negb (Ascii.eqb c "[") && negb (Ascii.eqb c "\") && plain_text s'
  end.

(** What [run_scan] prints before it reads the first line. *)
Definition scan_header (scan_command : list string) (target : string) : list shown :=
  [ Print (Str.LF +:+ "[bold cyan]Targeting:[/bold cyan] [white]" +:+ target +:+ "[/white]");
    Print ("[bold cyan]Command:[/bold cyan] [dim]"
           +:+ Str.join " " (scan_argv scan_command target) +:+ "[/dim]" +:+ Str.LF);
    Print (Str.LF +:+ "[bold yellow]--- Live Scan Results ---[/bold yellow]") ].

(** What [run_scan] prints after the loop, for an exit status. *)
Definition scan_report (log_filename : string) (status : Z) : list shown :=
  if (status =? 0)%Z
  then [Print scan_complete; Print (report_saved log_filename)]
  else [Print scan_failed].

(** Nothing stands in the way of a scan: no argument holds a NUL, the first
    word of the command resolves to [prog], the log file can be opened, the
    output of the child is text, and [rich] renders what [run_scan] prints
    before, for and after it. *)
Definition scan_runs (scan_command : list string) (target : string) (w : World)
           (prog : program) : Prop :=
  let argv := scan_argv scan_command target in
  existsb has_nul argv = false
  ∧ w_path w !! hd "" argv = Some prog
  ∧ w_fs w !! log_name target (now w) ≠ Some Locked
  ∧ decodes (prog (tl argv)) = true
  ∧ forallb accepted (scan_header scan_command target) = true
  ∧ forallb line_shown (stdout_lines (prog (tl argv))) = true
  ∧ forallb accepted (scan_report (log_name target (now w)) (returncode (prog (tl argv)))) = true.

(** The prompt for the target. *)
Definition target_prompt (last_ip : option string) : string :=
  if truthy last_ip
  then "Enter target IP (or 'r' for " +:+ default "" last_ip +:+ ")"
  else "Enter target IP".

(** The target [menu] settles on: the stored one when the user answers [r]
    and there is one, what was typed otherwise. *)
Definition chosen_target (last_ip : option string) (target_line : string) : string :=
  if String.eqb (Str.lower (Str.strip target_line)) "r" && truthy last_ip
  then default "" last_ip
  else Str.strip target_line.

(** What [menu] shows up to the prompt for the choice. *)
Definition menu_screen : list shown :=
  [Clear; PrintPanel banner "bright_blue"]
  ++ map (λ kv, Print ("[yellow]" +:+ fst kv +:+ ".[/yellow] " +:+ name (snd kv))) SCANS
  ++ [Print "[cyan]E.[/cyan] Explain Scan Types";
      Print "[red]X.[/red] Exit";
      PromptAsk (Str.LF +:+ "Select a scan option")].

(** What [explain_scans] shows. *)
Definition explanations : list shown :=
  [Print (Str.LF +:+ "[bold blue]Scan Explanations[/bold blue]" +:+ Str.LF)]
  ++ flat_map
       (λ kv, [Print ("[yellow]" +:+ fst kv +:+ ". " +:+ name (snd kv) +:+ "[/yellow]");
               Print ("   Command: " +:+ Str.join " " (command (snd kv)));
               Print ("   What it does: " +:+ description (snd kv) +:+ Str.LF)])
       SCANS
  ++ [Ask "Press Enter to return to menu..."].

(** The world of a round once the choice is read, [rest] being the lines
    still to be typed. *)
Definition at_choice (w : World) (rest : list string) : World :=
  set_stdin rest (set_console (w_console w ++ menu_screen) w).

(** The world of a round once the target is read. *)
Definition at_target (w : World) (last_ip : option string) (rest : list string) : World :=
  set_stdin rest
    (set_console (w_console w ++ menu_screen ++ [PromptAsk (target_prompt last_ip)]) w).

(** The world of a round once the target is saved. *)
Definition at_scan (w : World) (last_ip : option string) (target : string)
           (rest : list string) : World :=
  set_fs (<[LAST_IP_FILE := File target]> (w_fs w)) (at_target w last_ip rest).

(** What [menu] does once the choice is read (lines 200-224). *)
Definition menu_body (choice : string) (w : World) : result World :=
  if String.eqb choice "x" then
    let* w := print "[bold red]Exiting...[/bold red]" w in
    Raise SystemExit
  else if String.eqb choice "e" then
    explain_scans w
  else
    match scans_get choice SCANS with
    | Some scan =>
        let* last_ip := load_last_ip w in
        let prompt_msg :=
          if truthy last_ip
          then "Enter target IP (or 'r' for " +:+ default "" last_ip +:+ ")"
          else "Enter target IP" in
        let* rw := ask prompt_msg w in
        let target_input := Str.strip (fst rw) in
        let w := snd rw in
        let ip :=
          if String.eqb (Str.lower target_input) "r" && truthy last_ip
          then default "" last_ip
          else target_input in
        let* valid := validate_ip ip in
        if negb valid then
          print "[bold red]Invalid IP format.[/bold red]" w
        else
          let* w := save_last_ip ip w in
          let* nw := check_nmap w in
          let w := snd nw in
          if fst nw then
            let* w := run_scan (command scan) ip w in
            let* rw := input (Str.LF +:+ "Press Enter to return to menu...") w in
            Ok (snd rw)
          else Ok w
    | None =>
        print "[bold red]Invalid selection.[/bold red]" w
    end.

(** ** Sample worlds *)

(** An nmap that reports progress, a port and a statistics line, and
    succeeds. *)
Definition nmap_ok : program :=
  fun _ =>
    {| stdout :=
         "Starting Nmap 7.94" +:+ Str.LF +:+
         Str.LF +:+
         "Stats: 0:00:03 elapsed; 0 hosts completed (1 up)" +:+ Str.LF +:+
         "SYN Stealth Scan Timing: About 45.00% done; ETC: 12:00" +:+ Str.LF +:+
         "80/tcp open  http" +:+ Str.LF +:+
         "Nmap done: 1 IP address (1 host up)" +:+ Str.LF;
       decodes := true;
       returncode := 0 |}.

(** An nmap that refuses to run without privileges. *)
Definition nmap_denied : program :=
  fun _ =>
    {| stdout :=
         "You requested a scan type which requires root privileges." +:+ Str.LF +:+
         "QUITTING!" +:+ Str.LF;
       decodes := true;
       returncode := 1 |}.

(** An nmap that echoes a banner with a closing tag in it. *)
Definition nmap_tagged : program :=
  fun _ =>
    {| stdout :=
         "Starting Nmap 7.94" +:+ Str.LF +:+
         "80/tcp open  http  [/bold]" +:+ Str.LF +:+
         "Nmap done: 1 IP address (1 host up)" +:+ Str.LF;
       decodes := true;
       returncode := 0 |}.

(** An nmap whose output stops being text after its first line. *)
Definition nmap_garbled : program :=
  fun _ =>
    {| stdout := "Starting Nmap 7.94" +:+ Str.LF;
       decodes := false;
       returncode := 0 |}.

(** A clock that reads one second more at every reading. *)
Definition clock_from (start : Z) : nat → Z := λ n, (start + Z.of_nat n)%Z.

Definition world_with (nmap : program) (typed : list string) : World :=
  {| w_fs := ∅;
     w_console := [];
     w_stdin := typed;
     w_clock := clock_from 1700000000;
     w_ticks := 0;
     w_path := {[ "nmap" := nmap ]};
     w_spawned := [];
     w_task := Int 0 |}.

(** A working directory in which [.last_target] cannot be opened. *)
Definition world_locked : World :=
  {| w_fs := {[ LAST_IP_FILE := Locked ]};
     w_console := [];
     w_stdin := [];
     w_clock := clock_from 1700000000;
     w_ticks := 0;
     w_path := ∅;
     w_spawned := [];
     w_task := Int 0 |}.

(** A working directory in which [.last_target] does not hold text. *)
Definition world_garbled : World :=
  {| w_fs := {[ LAST_IP_FILE := Garbled ]};
     w_console := [];
     w_stdin := [];
     w_clock := clock_from 1700000000;
     w_ticks := 0;
     w_path := ∅;
     w_spawned := [];
     w_task := Int 0 |}.



(** * Sanity checks of the embedding *)

Example strip_line : Str.strip ("  80/tcp open  http " +:+ Str.LF) = "80/tcp open  http".
Proof. reflexivity. Qed.
Example strip_blank : Str.strip (" " +:+ Str.LF) = "".
Proof. reflexivity. Qed.
Example split_dots : Str.split "." "10.0..1" = ["10"; "0"; ""; "1"].
Proof. reflexivity. Qed.
Example str_of_Z : Str.of_Z 1700000000%Z = "1700000000".
Proof. reflexivity. Qed.
Example join_cmd : Str.join " " ["nmap"; "-sn"; "10.0.0.1"] = "nmap -sn 10.0.0.1".
Proof. reflexivity. Qed.
Example lines_of_text :
  readlines (universal_newlines ("a" +:+ String "013" (String "010" "b") +:+ String "013" "c"))
  = ["a" +:+ Str.LF; "b" +:+ Str.LF; "c"].
Proof. reflexivity. Qed.
Example float_45 : float "45.00" = Ok (S754_finite false 6333186975989760 (-47)).
Proof. vm_compute. reflexivity. Qed.
Example float_tenth : float "0.10" = Ok (S754_finite false 7205759403792794 (-56)).
Proof. vm_compute. reflexivity. Qed.
Example float_overflow :
  float ("1797693134862315807937289714053034150799341327100378269361737789804449682927647509466490179775872070963302864166928879109465555478519404026306574886715058206819089020007083836762738548458177115317644757302700698555713669596228429148198608349364752927190741684443655107043427115596995080930428801779041744977920" +:+ ".0")
  = Ok (S754_infinity false).
Proof. vm_compute. reflexivity. Qed.
Example plain_menu_line : plain_markup "[yellow]1.[/yellow] Host Discovery (Ping Scan)" = true.
Proof. reflexivity. Qed.
Example plain_unmatched : plain_markup "  [dim]done [/x][/dim]" = false.
Proof. reflexivity. Qed.
Example ex_progress :
  process_line live0 ("45.00% done" +:+ Str.LF)
  = Ok {| completed := Float (S754_finite false 6333186975989760 (-47));
          log_file := "45.00% done" +:+ Str.LF; console := [] |}.
Proof. vm_compute. reflexivity. Qed.
Example ex_search_leftmost :
  Re.search progress_re "SYN Stealth Scan Timing: About 1.2.35% done; ETC: 12:00"
  = Some {| Re.m_end := 43; Re.groups := ["2.35"] |}.
Proof. vm_compute. reflexivity. Qed.
Example ex_port :
  process_line live0 ("80/tcp open  http" +:+ Str.LF)
  = Ok {| completed := Int 0; log_file := "80/tcp open  http" +:+ Str.LF;
          console := [Print "[bold green]PORT FOUND: 80/tcp open  http[/bold green]"] |}.
Proof. vm_compute. reflexivity. Qed.
Example ex_stats :
  process_line live0 ("Stats: 10 hosts" +:+ Str.LF)
  = Ok {| completed := Int 0; log_file := "Stats: 10 hosts" +:+ Str.LF; console := [] |}.
Proof. vm_compute. reflexivity. Qed.
Example ex_stream_garbled :
  read_loop live0 ["Starting Nmap 7.94" +:+ Str.LF] false
  = ({| completed := Int 0; log_file := "Starting Nmap 7.94" +:+ Str.LF;
        console := [Print "  [dim]Starting Nmap 7.94[/dim]"] |},
     Some UnicodeDecodeError).
Proof. vm_compute. reflexivity. Qed.
Example ex_stream_cut :
  stdout_lines {| stdout := "Starting Nmap 7.94" +:+ Str.LF +:+ "80/tcp op";
                  decodes := true; returncode := 0 |}
  = ["Starting Nmap 7.94" +:+ Str.LF; "80/tcp op"]
  ∧ stdout_lines {| stdout := "Starting Nmap 7.94" +:+ Str.LF +:+ "80/tcp op";
                    decodes := false; returncode := 0 |}
    = ["Starting Nmap 7.94" +:+ Str.LF]
  ∧ stdout_lines {| stdout := "Starting Nmap 7.94" +:+ String "013" "";
                    decodes := true; returncode := 0 |}
    = ["Starting Nmap 7.94" +:+ Str.LF]
  ∧ stdout_lines {| stdout := "Starting Nmap 7.94" +:+ String "013" "";
                    decodes := false; returncode := 0 |}
    = [].
Proof. repeat split. Qed.
Example v4_addr : Ipaddress.v4_address "192.168.1.1" = Ok 3232235777%Z.
Proof. vm_compute. reflexivity. Qed.
Example v4_bad_octet : Ipaddress.v4_address "999.1.1.1" = Raise AddressValueError.
Proof. vm_compute. reflexivity. Qed.
Example v4_net : Ipaddress.v4_network "10.0.0.0/24" true = Ok (Ipaddress.IPv4Network 167772160 24).
Proof. vm_compute. reflexivity. Qed.
Example v4_net_mask :
  Ipaddress.v4_network "10.0.0.0/255.255.255.0" true = Ok (Ipaddress.IPv4Network 167772160 24).
Proof. vm_compute. reflexivity. Qed.
Example v4_net_hostmask :
  Ipaddress.v4_network "10.0.0.0/0.0.0.255" true = Ok (Ipaddress.IPv4Network 167772160 24).
Proof. vm_compute. reflexivity. Qed.
Example v4_net_mixed : Ipaddress.v4_network "10.0.0.0/255.0.255.0" true = Raise NetmaskValueError.
Proof. vm_compute. reflexivity. Qed.
Example v4_net_33 : Ipaddress.v4_network "10.0.0.0/33" false = Raise NetmaskValueError.
Proof. vm_compute. reflexivity. Qed.
Example v6_loopback : Ipaddress.ip_address "::1" = Ok (Ipaddress.IPv6Address 1 None).
Proof. vm_compute. reflexivity. Qed.
Example v6_mapped :
  Ipaddress.ip_address "::ffff:10.0.0.1" = Ok (Ipaddress.IPv6Address 281470849515521 None).
Proof. vm_compute. reflexivity. Qed.
Example v6_full :
  Ipaddress.ip_address "2001:db8:0:0:0:0:0:1"
  = Ok (Ipaddress.IPv6Address 42540766411282592856903984951653826561 None).
Proof. vm_compute. reflexivity. Qed.
Example v6_two_gaps : Ipaddress.ip_address "1::2::3" = Raise ValueError.
Proof. vm_compute. reflexivity. Qed.
Example v6_scoped :
  Ipaddress.ip_address "fe80::1%eth0"
  = Ok (Ipaddress.IPv6Address 338288524927261089654018896841347694593 (Some "eth0")).
Proof. vm_compute. reflexivity. Qed.
Example v6_net : Ipaddress.ip_network "2001:db8::/32" true
  = Ok (Ipaddress.IPv6Network 42540766411282592856903984951653826560 None 32).
Proof. vm_compute. reflexivity. Qed.
Example net_strict : Ipaddress.ip_network "192.168.1.5/24" true = Raise ValueError.
Proof. vm_compute. reflexivity. Qed.
Example net_lax :
  Ipaddress.ip_network "192.168.1.5/24" false = Ok (Ipaddress.IPv4Network 3232235776 24).
Proof. vm_compute. reflexivity. Qed.
Example host_name : Ipaddress.ip_address "not-an-ip" = Raise ValueError.
Proof. vm_compute. reflexivity. Qed.
Example ex_run_scan_denied :
  match run_scan ["nmap"; "-sS"; "-Pn"] "10.0.0.0/24" (world_with nmap_denied []) with
  | Ok w' =>
      w_console w' =
        scan_header ["nmap"; "-sS"; "-Pn"] "10.0.0.0/24"
        ++ [Print "  [dim]You requested a scan type which requires root privileges.[/dim]";
            Print "  [dim]QUITTING![/dim]";
            Print scan_failed]
      ∧ w_fs w' !! "scan_10.0.0.0_24_1700000000.txt"
        = Some (File ("You requested a scan type which requires root privileges." +:+ Str.LF
                      +:+ "QUITTING!" +:+ Str.LF))
      ∧ w_spawned w' = [["nmap"; "-sS"; "-Pn"; "--stats-every"; "3s"; "10.0.0.0/24"]]
      ∧ w_ticks w' = 1%nat
  | Raise _ => False
  end.
Proof. vm_compute. repeat split; reflexivity. Qed.

Example ex_menu_exit : menu (world_with nmap_ok [" X "]) = Raise SystemExit.
Proof. vm_compute. reflexivity. Qed.

Example ex_menu_invalid_target :
  match menu (world_with nmap_ok ["2"; "example.org"]) with
  | Ok w' => w_spawned w' = [] ∧ w_fs w' = ∅
             ∧ List.last (w_console w') Clear = Print "[bold red]Invalid IP format.[/bold red]"
  | Raise _ => False
  end.
Proof. vm_compute. repeat split; reflexivity. Qed.

(** * Facts about strings *)

#[local] Arguments String.append !s1 s2 : simpl nomatch.

Section StrFacts.

Lemma str_app_nil_r (s : string) : s +:+ "" = s.
Proof. induction s as [|c s IH]; simpl; [reflexivity | f_equal; exact IH]. Qed.

Lemma str_app_assoc (s t u : string) : (s +:+ t) +:+ u = s +:+ t +:+ u.
Proof. induction s as [|c s IH]; simpl; [reflexivity | f_equal; exact IH]. Qed.

Lemma str_length_app (s t : string) :
  String.length (s +:+ t) = (String.length s + String.length t)%nat.
Proof. induction s as [|c s IH]; simpl; [reflexivity | f_equal; exact IH]. Qed.

Lemma take_app (u rest : string) : Str.take (String.length u) (u +:+ rest) = u.
Proof.
  induction u as [|c u IH]; simpl.
  - now destruct rest.
  - f_equal; exact IH.
Qed.

Lemma eqb_empty (s : string) : String.eqb s "" = true ↔ s = "".
Proof. apply String.eqb_eq. Qed.

Lemma all_digits_app (s t : string) :
  Str.all_digits (s +:+ t) = Str.all_digits s && Str.all_digits t.
Proof.
  induction s as [|c s IH]; simpl; [reflexivity |].
  rewrite IH. now rewrite andb_assoc.
Qed.

Lemma isdigit_bounds (c : ascii) :
  Str.isdigit c = true → (48 <= Z.of_N (Str.code c) <= 57)%Z.
Proof.
  unfold Str.isdigit. intros H.
  apply andb_true_iff in H as [H1 H2].
  apply N.leb_le in H1, H2. lia.
Qed.

Lemma isdigit_not_dot (c : ascii) : Str.isdigit c = true → Ascii.eqb c "." = false.
Proof.
  intros H. apply Ascii.eqb_neq. intros ->. discriminate H.
Qed.

Lemma int_acc_nonneg (s : string) (acc : Z) :
  Str.all_digits s = true → (0 <= acc)%Z → (0 <= Str.int_acc acc s)%Z.
Proof.
  revert acc. induction s as [|c s IH]; simpl; intros acc Hd Hacc; [assumption |].
  apply andb_true_iff in Hd as [Hc Hs].
  apply IH; [assumption |].
  pose proof (isdigit_bounds c Hc). lia.
Qed.

Lemma split_digits (s : string) :
  Str.all_digits s = true → Str.split "." s = [s].
Proof.
  induction s as [|c s IH]; simpl; intros Hd; [reflexivity |].
  apply andb_true_iff in Hd as [Hc Hs].
  rewrite (isdigit_not_dot c Hc), (IH Hs). reflexivity.
Qed.

Lemma split_digits_dot (i rest : string) :
  Str.all_digits i = true →
  Str.split "." (i +:+ String "." rest) = i :: Str.split "." rest.
Proof.
  induction i as [|c i IH]; simpl; intros Hd; [reflexivity |].
  apply andb_true_iff in Hd as [Hc Hi].
  rewrite (isdigit_not_dot c Hc), (IH Hi). reflexivity.
Qed.

(** A run of digits ends where the first character that is no digit
    stands. *)
Lemma digit_run_unique (a : string) :
  ∀ (a' r r' : string) (c c' : ascii),
    Str.all_digits a = true → Str.all_digits a' = true →
    Str.isdigit c = false → Str.isdigit c' = false →
    a +:+ String c r = a' +:+ String c' r' →
    a = a' ∧ String c r = String c' r'.
Proof.
  induction a as [|d a IH]; intros [|d' a'] r r' c c' Ha Ha' Hc Hc' Heq;
    cbn [append] in Heq.
  - auto.
  - injection Heq as -> _. cbn [Str.all_digits] in Ha'.
    apply andb_true_iff in Ha' as [Hd _]. congruence.
  - injection Heq as -> _. cbn [Str.all_digits] in Ha.
    apply andb_true_iff in Ha as [Hd _]. congruence.
  - injection Heq as -> Heq. cbn [Str.all_digits] in Ha, Ha'.
    apply andb_true_iff in Ha as [_ Ha]. apply andb_true_iff in Ha' as [_ Ha'].
    destruct (IH a' r r' c c' Ha Ha' Hc Hc' Heq) as [-> Hrest]. auto.
Qed.

Lemma isdecimal_inv (s : string) :
  Str.isdecimal s = true → s ≠ "" ∧ Str.all_digits s = true.
Proof.
  unfold Str.isdecimal. intros H.
  apply andb_true_iff in H as [H1 H2]. split; [|assumption].
  intros ->. discriminate H1.
Qed.

End StrFacts.

(** * [float] on the literals of the progress pattern *)

Lemma float_decimal (i f : string) :
  Str.isdecimal i = true → Str.isdecimal f = true →
  float (i +:+ "." +:+ f) = Ok (nearest_binary64 i f).
Proof.
  intros Hi Hf.
  destruct (isdecimal_inv i Hi) as [Hni Hdi].
  destruct (isdecimal_inv f Hf) as [Hnf Hdf].
  unfold float.
  change (i +:+ "." +:+ f) with (i +:+ String "." f).
  rewrite (split_digits_dot i f Hdi), (split_digits f Hdf).
  rewrite Hdi, Hdf. simpl.
  apply eqb_neq in Hni, Hnf. rewrite Hni, Hnf. reflexivity.
Qed.

(** Rounding keeps the sign: the quotient of two non-negative integers is
    zero, a positive number or plus infinity. *)
Section Binary64.

Lemma shr_1_nonneg (mrs : shr_record) :
  (0 <= shr_m mrs)%Z → (0 <= shr_m (shr_1 mrs))%Z.
Proof.
  destruct mrs as [m r s]. destruct m as [|p|p]; simpl; try lia.
  destruct p; simpl; lia.
Qed.

Lemma iter_shr_1_nonneg (p : positive) :
  ∀ mrs, (0 <= shr_m mrs)%Z → (0 <= shr_m (SpecFloat.iter_pos shr_1 p mrs))%Z.
Proof.
  induction p as [p IH | p IH |]; simpl; intros mrs H;
    auto using shr_1_nonneg.
Qed.

Lemma shr_fexp_nonneg (m e : Z) (l : location) :
  (0 <= m)%Z → (0 <= shr_m (fst (shr_fexp prec emax m e l)))%Z.
Proof.
  intros H. unfold shr_fexp, shr.
  assert (H0 : (0 <= shr_m (shr_record_of_loc m l))%Z).
  { destruct l as [|[]]; exact H. }
  destruct (fexp prec emax (Zdigits2 m + e) - e)%Z; simpl; auto using iter_shr_1_nonneg.
Qed.

Lemma round_nearest_even_nonneg (m : Z) (l : location) :
  (0 <= m)%Z → (0 <= round_nearest_even m l)%Z.
Proof.
  intros H. destruct l as [|[]]; simpl; try lia. destruct (Z.even m); lia.
Qed.

Lemma binary_round_aux_nonneg (m e : Z) (l : location) :
  (0 <= m)%Z → is_nonneg (Float (binary_round_aux prec emax false m e l)) = true.
Proof.
  intros H. unfold binary_round_aux.
  pose proof (shr_fexp_nonneg m e l H) as H1.
  destruct (shr_fexp prec emax m e l) as [mrs' e']. cbn [fst] in H1.
  pose proof (shr_fexp_nonneg _ e' loc_Exact
                (round_nearest_even_nonneg _ (loc_of_shr_record mrs') H1)) as H2.
  destruct (shr_fexp prec emax
              (round_nearest_even (shr_m mrs') (loc_of_shr_record mrs')) e' loc_Exact)
    as [mrs'' e''].
  cbn [fst] in H2. destruct (shr_m mrs'') as [|p|p]; [reflexivity | | lia].
  destruct (e'' <=? emax - prec)%Z; reflexivity.
Qed.

Lemma SFdiv_nonneg (n d : positive) :
  is_nonneg (Float (SFdiv prec emax (S754_finite false n 0) (S754_finite false d 0))) = true.
Proof.
  unfold SFdiv, SFdiv_core_binary.
  match goal with
  | |- context [Z.div_eucl ?a ?b] =>
      pose proof (Z.div_eucl_eq a b ltac:(lia)) as Heq;
      pose proof (Z.mod_pos_bound a b ltac:(lia)) as Hmod;
      assert (Ha : (0 <= a)%Z);
      [| unfold Z.modulo in Hmod; destruct (Z.div_eucl a b) as [q r] eqn:Hqr]
  end.
  - match goal with
    | |- (0 <= match ?s with _ => _ end)%Z => destruct s
    end; try lia.
    rewrite Z.shiftl_mul_pow2 by lia. lia.
  - simpl xorb. apply binary_round_aux_nonneg. nia.
Qed.

End Binary64.

Lemma nearest_nonneg (i f : string) :
  Str.isdecimal i = true → Str.isdecimal f = true →
  is_nonneg (Float (nearest_binary64 i f)) = true.
Proof.
  intros Hi Hf.
  destruct (isdecimal_inv i Hi) as [_ Hdi].
  destruct (isdecimal_inv f Hf) as [_ Hdf].
  assert (Hn : (0 <= Str.int (i +:+ f))%Z).
  { apply int_acc_nonneg; [| lia]. rewrite all_digits_app, Hdi, Hdf. reflexivity. }
  assert (Hd : (0 < 10 ^ Z.of_nat (String.length f))%Z) by (apply Z.pow_pos_nonneg; lia).
  unfold nearest_binary64.
  destruct (10 ^ Z.of_nat (String.length f))%Z as [|d|d]; try lia.
  destruct (Str.int (i +:+ f)) as [|n|n]; try lia.
  - reflexivity.
  - apply SFdiv_nonneg.
Qed.

(** * The matcher against the words of a pattern *)

Section Matcher.

Lemma many1_sound (k : Re.cclass) (s : string) :
  ∀ (p p' : nat) (rest : string),
    In (p', rest) (Re.many1 k p s) →
    ∃ u, u ≠ "" ∧ s = u +:+ rest ∧ p' = (p + String.length u)%nat ∧ all_in k u = true.
Proof.
  induction s as [|c s IH]; simpl; intros p p' rest Hin; [contradiction |].
  destruct (Re.in_class k c) eqn:Hc; [| contradiction].
  apply in_app_or in Hin as [Hin | [Heq | []]].
  - destruct (IH _ _ _ Hin) as (u & Hu & -> & -> & Hall).
    exists (String c u). simpl. rewrite Hc, Hall.
    repeat split; [discriminate | lia].
  - inversion Heq; subst. exists (String c ""). simpl. rewrite Hc.
    repeat split; [discriminate | lia].
Qed.

Lemma many1_complete (k : Re.cclass) (u : string) :
  ∀ (p : nat) (rest : string),
    u ≠ "" → all_in k u = true →
    In ((p + String.length u)%nat, rest) (Re.many1 k p (u +:+ rest)).
Proof.
  induction u as [|c u IH]; intros p rest Hne Hall; [congruence |].
  simpl in Hall. apply andb_true_iff in Hall as [Hc Hall].
  simpl. rewrite Hc. apply in_or_app.
  destruct u as [|c' u'].
  - right. left. simpl. f_equal. lia.
  - left. replace (p + S (String.length (String c' u')))%nat
      with (S p + String.length (String c' u'))%nat by lia.
    apply IH; [discriminate | assumption].
Qed.

Lemma matches_sound (r : Re.regex) :
  ∀ (p : nat) (s : string) (p' : nat) (rest : string) (gs : list string),
    In ((p', rest), gs) (Re.matches r (p, s)) →
    ∃ u, s = u +:+ rest ∧ p' = (p + String.length u)%nat ∧ denotes r u.
Proof.
  induction r as [| |k|k|r1 IH1 r2 IH2|r1 IH1 r2 IH2|r0 IH]; simpl; intros p s p' rest gs Hin.
  - destruct Hin as [Heq | []]. inversion Heq; subst.
    exists "". repeat split. simpl. lia.
  - destruct (p =? 0)%nat; [| contradiction].
    destruct Hin as [Heq | []]. inversion Heq; subst.
    exists "". repeat split. simpl. lia.
  - destruct s as [|c s]; [contradiction |].
    destruct (Re.in_class k c) eqn:Hc; [| contradiction].
    destruct Hin as [Heq | []]. inversion Heq; subst.
    exists (String c ""). repeat split; [simpl; lia | eauto].
  - apply in_map_iff in Hin as ([p0 s0] & Heq & Hin). inversion Heq; subst.
    destruct (many1_sound _ _ _ _ _ Hin) as (u & Hu & -> & -> & Hall).
    exists u. repeat split; assumption.
  - apply in_flat_map in Hin as ([[p1 s1] g1] & Hin1 & Hin2).
    apply in_map_iff in Hin2 as ([[p2 s2] g2] & Heq & Hin2).
    simpl in *. inversion Heq; subst.
    destruct (IH1 _ _ _ _ _ Hin1) as (u1 & -> & -> & Hd1).
    destruct (IH2 _ _ _ _ _ Hin2) as (u2 & -> & -> & Hd2).
    exists (u1 +:+ u2). rewrite str_app_assoc, str_length_app.
    repeat split; [lia | eauto].
  - apply in_app_or in Hin as [Hin | Hin].
    + destruct (IH1 _ _ _ _ _ Hin) as (u & -> & -> & Hd). eauto 6.
    + destruct (IH2 _ _ _ _ _ Hin) as (u & -> & -> & Hd). eauto 6.
  - apply in_map_iff in Hin as ([[p0 s0] g0] & Heq & Hin).
    simpl in *. inversion Heq; subst.
    destruct (IH _ _ _ _ _ Hin) as (u & -> & -> & Hd). eauto.
Qed.

Lemma matches_group_free (r : Re.regex) :
  group_free r = true →
  ∀ (cur c' : Re.cursor) (gs : list string),
    In (c', gs) (Re.matches r cur) → gs = [].
Proof.
  induction r as [| |k|k|r1 IH1 r2 IH2|r1 IH1 r2 IH2|r0 IH]; simpl; intros Hgf cur c' gs Hin.
  - destruct Hin as [Heq | []]. now inversion Heq.
  - destruct (fst cur =? 0)%nat; [| contradiction].
    destruct Hin as [Heq | []]. now inversion Heq.
  - destruct (snd cur) as [|c s]; [contradiction |].
    destruct (Re.in_class k c); [| contradiction].
    destruct Hin as [Heq | []]. now inversion Heq.
  - apply in_map_iff in Hin as (c0 & Heq & _). now inversion Heq.
  - apply andb_true_iff in Hgf as [H1 H2].
    apply in_flat_map in Hin as ([c1 g1] & Hin1 & Hin2).
    apply in_map_iff in Hin2 as ([c2 g2] & Heq & Hin2).
    simpl in *. inversion Heq; subst.
    rewrite (IH1 H1 _ _ _ Hin1), (IH2 H2 _ _ _ Hin2). reflexivity.
  - apply andb_true_iff in Hgf as [H1 H2].
    apply in_app_or in Hin as [Hin | Hin]; eauto.
  - discriminate.
Qed.

Lemma matches_complete (r : Re.regex) :
  anchor_free r = true →
  ∀ (u : string) (p : nat) (rest : string),
    denotes r u →
    ∃ gs, In (((p + String.length u)%nat, rest), gs) (Re.matches r (p, u +:+ rest)).
Proof.
  induction r as [| |k|k|r1 IH1 r2 IH2|r1 IH1 r2 IH2|r0 IH]; simpl; intros Haf u p rest Hd.
  - subst. exists []. left. simpl. do 2 f_equal. lia.
  - discriminate.
  - destruct Hd as (c & -> & Hc). simpl. rewrite Hc.
    exists []. left. do 2 f_equal. lia.
  - destruct Hd as [Hne Hall]. exists [].
    apply in_map_iff. eexists. split; [reflexivity |].
    now apply many1_complete.
  - apply andb_true_iff in Haf as [H1 H2].
    destruct Hd as (u1 & u2 & -> & Hd1 & Hd2).
    destruct (IH1 H1 u1 p (u2 +:+ rest) Hd1) as [g1 Hin1].
    destruct (IH2 H2 u2 (p + String.length u1)%nat rest Hd2) as [g2 Hin2].
    exists (g1 ++ g2). apply in_flat_map.
    rewrite str_app_assoc. eexists. split; [exact Hin1 |].
    apply in_map_iff. eexists. split; [| exact Hin2].
    simpl. rewrite str_length_app. do 2 f_equal. lia.
  - apply andb_true_iff in Haf as [H1 H2].
    destruct Hd as [Hd | Hd].
    + destruct (IH1 H1 u p rest Hd) as [g Hin]. exists g. apply in_or_app. now left.
    + destruct (IH2 H2 u p rest Hd) as [g Hin]. exists g. apply in_or_app. now right.
  - destruct (IH Haf u p rest Hd) as [g Hin].
    exists (Str.take (p + String.length u - p) (u +:+ rest) :: g).
    apply in_map_iff. exists ((p + String.length u)%nat, rest, g).
    split; [reflexivity | exact Hin].
Qed.

Lemma denotes_lit (t u : string) : denotes (Re.lit t) u ↔ u = t.
Proof.
  revert u. induction t as [|c t IH]; simpl; intros u; [reflexivity |].
  split.
  - intros (u1 & u2 & -> & (c' & -> & Hc) & Hd).
    apply IH in Hd. apply Ascii.eqb_eq in Hc. now subst.
  - intros ->. exists (String c ""), t. repeat split.
    + exists c. split; [reflexivity | apply Ascii.eqb_refl].
    + now apply IH.
Qed.

Lemma all_in_digit (u : string) : all_in Re.AnyDigit u = Str.all_digits u.
Proof. induction u as [|c u IH]; simpl; [reflexivity | now rewrite IH]. Qed.

End Matcher.

(** * The progress pattern *)

Section ProgressPattern.

Lemma search_from_leftmost (r : Re.regex) (s : string) :
  ∀ (p : nat) (m : Re.Match),
    Re.search_from r p s = Some m →
    ∃ pre s',
      s = pre +:+ s'
      ∧ Re.match_at r ((p + String.length pre)%nat, s') = Some m
      ∧ ∀ pre2 s2,
          s = pre2 +:+ s2 → (String.length pre2 < String.length pre)%nat →
          Re.match_at r ((p + String.length pre2)%nat, s2) = None.
Proof.
  induction s as [|c s IH]; intros p m Hs; simpl in Hs.
  - destruct (Re.match_at r (p, "")) eqn:Hm; [| discriminate].
    exists "", "". simpl. rewrite Nat.add_0_r. repeat split; [congruence |].
    intros pre2 s2 _ Hlt. lia.
  - destruct (Re.match_at r (p, String c s)) eqn:Hm.
    + exists "", (String c s). simpl. rewrite Nat.add_0_r.
      repeat split; [congruence |]. intros pre2 s2 _ Hlt. lia.
    + destruct (IH _ _ Hs) as (pre & s' & -> & Hat & Hleft).
      exists (String c pre), s'. simpl.
      replace (p + S (String.length pre))%nat with (S p + String.length pre)%nat by lia.
      repeat split; [assumption |].
      intros pre2 s2 Heq Hlt.
      destruct pre2 as [|c2 pre2]; simpl in *.
      * subst s2. now rewrite Nat.add_0_r.
      * inversion Heq; subst.
        replace (p + S (String.length pre2))%nat with (S p + String.length pre2)%nat by lia.
        apply Hleft; [assumption | lia].
Qed.

Lemma search_from_found (r : Re.regex) (pre : string) :
  ∀ (p : nat) (s' : string),
    Re.match_at r ((p + String.length pre)%nat, s') ≠ None →
    Re.search_from r p (pre +:+ s') ≠ None.
Proof.
  induction pre as [|c pre IH]; intros p s' Hat; simpl in *.
  - rewrite Nat.add_0_r in Hat.
    destruct s' as [|c s']; simpl; destruct (Re.match_at r _); congruence.
  - destruct (Re.match_at r (p, String c (pre +:+ s'))); [congruence |].
    apply IH. now replace (S p + String.length pre)%nat
      with (p + S (String.length pre))%nat by lia.
Qed.

(** The words of [\d+\.\d+] are the decimal literals. *)
Lemma denotes_number (u : string) :
  denotes (Re.Seq (Re.Many1 Re.AnyDigit)
             (Re.Seq (Re.One (Re.Exactly ".")) (Re.Many1 Re.AnyDigit))) u
  ↔ decimal_literal u.
Proof.
  simpl. unfold decimal_literal, Str.isdecimal. split.
  - intros (i & t & -> & [Hi Hdi] & d & f & -> & (c & -> & Hc) & [Hf Hdf]).
    apply Ascii.eqb_eq in Hc. subst c.
    rewrite all_in_digit in Hdi, Hdf.
    exists i, f. apply eqb_neq in Hi, Hf. rewrite Hi, Hf, Hdi, Hdf. auto.
  - intros (i & f & -> & Hi & Hf).
    apply andb_true_iff in Hi as [Hi Hdi], Hf as [Hf Hdf].
    apply negb_true_iff, eqb_neq in Hi, Hf.
    exists i, ("." +:+ f). repeat split; [assumption | now rewrite all_in_digit |].
    exists ".", f. repeat split; [| assumption | now rewrite all_in_digit].
    exists "."%char. auto.
Qed.

Lemma matches_seq_group (G L : Re.regex) (cur : Re.cursor) (m0 : Re.cursor * list string) :
  In m0 (Re.matches (Re.Seq (Re.Group G) L) cur) →
  ∃ c1 g1 c2 g2,
    In (c1, g1) (Re.matches G cur) ∧ In (c2, g2) (Re.matches L c1)
    ∧ m0 = (c2, (Str.take (fst c1 - fst cur) (snd cur) :: g1) ++ g2).
Proof.
  simpl. intros Hin.
  apply in_flat_map in Hin as ([c1 g1] & Hin1 & Hin2).
  apply in_map_iff in Hin2 as ([c2 g2] & Heq & Hin2).
  apply in_map_iff in Hin1 as ([c0 g0] & Heq1 & Hin1).
  simpl in *. inversion Heq1; subst. eauto 10.
Qed.

Lemma progress_match_at (p : nat) (s : string) (m : Re.Match) :
  Re.match_at progress_re (p, s) = Some m →
  ∃ g post, decimal_literal g ∧ s = g +:+ "% done" +:+ post ∧ Re.groups m = [g].
Proof.
  unfold Re.match_at.
  destruct (Re.matches progress_re (p, s)) as [|m0 l] eqn:Hms; [discriminate |].
  intros Heq. inversion Heq; subst m; clear Heq. simpl.
  assert (Hin : In m0 (Re.matches progress_re (p, s))) by (rewrite Hms; now left).
  clear Hms l.
  apply matches_seq_group in Hin
    as ([p1 s1] & g1 & [p2 s2] & g2 & Hin1 & Hin2 & ->).
  assert (g1 = []) as -> by (eapply matches_group_free; [| exact Hin1]; reflexivity).
  assert (g2 = []) as -> by (eapply matches_group_free; [| exact Hin2]; reflexivity).
  apply matches_sound in Hin1 as (u & -> & -> & Hu).
  apply matches_sound in Hin2 as (v & -> & -> & Hv).
  apply denotes_lit in Hv. subst v.
  apply denotes_number in Hu.
  exists u, s2. simpl. repeat split; [assumption |].
  replace (p + String.length u - p)%nat with (String.length u) by lia.
  now rewrite take_app.
Qed.

Lemma progress_match_at_complete (p : nat) (g post : string) :
  decimal_literal g →
  Re.match_at progress_re (p, g +:+ "% done" +:+ post) ≠ None.
Proof.
  intros Hg. apply denotes_number in Hg.
  assert (Hd : denotes progress_re (g +:+ "% done")).
  { exists g, "% done". repeat split; [exact Hg | now apply denotes_lit]. }
  destruct (matches_complete progress_re eq_refl _ p post Hd) as [gs Hin].
  rewrite str_app_assoc in Hin.
  unfold Re.match_at.
  destruct (Re.matches progress_re (p, g +:+ "% done" +:+ post)); [contradiction | discriminate].
Qed.

(** [re.search] with the progress pattern finds a marker exactly when the
    line holds one; the marker found is the leftmost. *)
Lemma progress_search (s : string) (m : Re.Match) :
  Re.search progress_re s = Some m →
  ∃ pre g post,
    decimal_literal g ∧ s = pre +:+ g +:+ "% done" +:+ post ∧ Re.group m 1 = g
    ∧ ∀ pre2 g2 post2,
        decimal_literal g2 → s = pre2 +:+ g2 +:+ "% done" +:+ post2 →
        (String.length pre <= String.length pre2)%nat.
Proof.
  intros Hs. apply search_from_leftmost in Hs as (pre & s' & -> & Hat & Hleft).
  apply progress_match_at in Hat as (g & post & Hg & -> & Hgs).
  exists pre, g, post. unfold Re.group. rewrite Hgs. repeat split; [assumption |].
  intros pre2 g2 post2 Hg2 Heq.
  destruct (Nat.le_gt_cases (String.length pre) (String.length pre2)) as [|Hlt]; [assumption |].
  specialize (Hleft _ _ Heq Hlt).
  now apply progress_match_at_complete in Hleft.
Qed.

Lemma progress_search_complete (pre g post : string) :
  decimal_literal g →
  ∃ m, Re.search progress_re (pre +:+ g +:+ "% done" +:+ post) = Some m.
Proof.
  intros Hg.
  pose proof (search_from_found progress_re pre 0 (g +:+ "% done" +:+ post)
                (progress_match_at_complete _ g post Hg)) as H.
  unfold Re.search.
  destruct (Re.search_from progress_re 0 (pre +:+ g +:+ "% done" +:+ post)); [eauto | congruence].
Qed.

(** A marker at the very start of the line is the one found, and its
    number is the whole literal. *)
Lemma marker_at_start (i f post : string) :
  Str.isdecimal i = true → Str.isdecimal f = true →
  ∃ m, Re.search progress_re (i +:+ "." +:+ f +:+ "% done" +:+ post) = Some m
       ∧ Re.group m 1 = i +:+ "." +:+ f.
Proof.
  intros Hi Hf.
  assert (Hlit : decimal_literal (i +:+ "." +:+ f)) by (exists i, f; auto).
  destruct (progress_search_complete "" _ post Hlit) as [m Hm].
  cbn [append] in Hm. rewrite !str_app_assoc in Hm. cbn [append] in Hm.
  exists m. split; [exact Hm |].
  destruct (progress_search _ _ Hm)
    as (pre & g & post' & (i' & f' & -> & Hi' & Hf') & Heq & -> & Hleft).
  assert (Hpre : pre = "").
  { specialize (Hleft "" (i +:+ "." +:+ f) post Hlit).
    rewrite !str_app_assoc in Hleft. cbn [append] in Hleft.
    specialize (Hleft eq_refl). destruct pre; [reflexivity | simpl in Hleft; lia]. }
  subst pre. cbn [append] in Heq. rewrite !str_app_assoc in Heq. cbn [append] in Heq.
  destruct (isdecimal_inv i Hi) as [_ Hdi]. destruct (isdecimal_inv f Hf) as [_ Hdf].
  destruct (isdecimal_inv i' Hi') as [_ Hdi']. destruct (isdecimal_inv f' Hf') as [_ Hdf'].
  destruct (digit_run_unique i i' _ _ "." "." Hdi Hdi' eq_refl eq_refl Heq) as [-> Hrest].
  injection Hrest as Hrest.
  destruct (digit_run_unique f f' _ _ "%" "%" Hdf Hdf' eq_refl eq_refl Hrest) as [-> _].
  reflexivity.
Qed.

End ProgressPattern.

(** * Which exceptions the [ipaddress] functions raise *)

Section IpaddressFacts.
Import Ipaddress.

(** Split a hypothesis [H : e = Raise x] along the tests and binds of [e]. *)
Ltac raise_cases H :=
  repeat match type of H with
    | Raise _ = Raise _ => inversion H; subst; clear H
    | Ok _ = Raise _ => discriminate H
    | context [if ?b then _ else _] => destruct b eqn:?
    | context [bind ?r _] => let E := fresh "E" in destruct r eqn:E; simpl in H
    | context [match ?x with _ => _ end] => let E := fresh "E" in destruct x eqn:E; simpl in H
    end.

Lemma reraise_raises {A} (caught : exn → bool) (e' e : exn) (r : result A) :
  reraise caught e' r = Raise e →
  (∀ e0, r = Raise e0 → caught e0 = true) → e = e'.
Proof.
  unfold reraise. destruct r as [a | e0]; [discriminate |].
  intros H Hc. rewrite (Hc e0 eq_refl) in H. now inversion H.
Qed.

Lemma parse_octet_raises (o : string) (e : exn) :
  parse_octet o = Raise e → e = ValueError.
Proof. unfold parse_octet. intros H. raise_cases H; reflexivity. Qed.

Lemma from_octets_raises (l : list string) :
  ∀ (acc : Z) (e : exn), from_octets acc l = Raise e → e = ValueError.
Proof.
  induction l as [|o l IH]; simpl; intros acc e H; [discriminate |].
  destruct (parse_octet o) eqn:Ho; simpl in H.
  - eauto.
  - inversion H; subst. eauto using parse_octet_raises.
Qed.

Lemma v4_ip_int_from_string_raises (s : string) (e : exn) :
  v4_ip_int_from_string s = Raise e → e = AddressValueError.
Proof.
  unfold v4_ip_int_from_string. intros H.
  destruct (String.eqb s ""); [now inversion H |].
  destruct (negb _); [now inversion H |].
  eapply reraise_raises; [exact H |].
  intros e0 H0. now rewrite (from_octets_raises _ _ _ H0).
Qed.

Lemma v4_address_raises (s : string) (e : exn) :
  v4_address s = Raise e → e = AddressValueError.
Proof.
  unfold v4_address. intros H.
  destruct (Str.contains "/" s); [now inversion H |].
  eauto using v4_ip_int_from_string_raises.
Qed.

Lemma parse_hextet_raises (h : string) (e : exn) :
  parse_hextet h = Raise e → e = ValueError.
Proof. unfold parse_hextet. intros H. raise_cases H; reflexivity. Qed.

Lemma from_hextets_raises (l : list string) :
  ∀ (acc : Z) (e : exn), from_hextets acc l = Raise e → e = ValueError.
Proof.
  induction l as [|h l IH]; simpl; intros acc e H; [discriminate |].
  destruct (parse_hextet h) eqn:Hh; simpl in H.
  - eauto.
  - inversion H; subst. eauto using parse_hextet_raises.
Qed.

Lemma find_skip_raises (l : list string) :
  ∀ (i : nat) (k : option nat) (e : exn),
    find_skip i l k = Raise e → e = AddressValueError.
Proof.
  induction l as [|p l IH]; simpl; intros i k e H; [discriminate |].
  destruct (String.eqb p ""); [| eauto].
  destruct k; [now inversion H | eauto].
Qed.

Lemma v6_ip_int_from_string_raises (s : string) (e : exn) :
  v6_ip_int_from_string s = Raise e → e = AddressValueError.
Proof.
  unfold v6_ip_int_from_string. intros H.
  destruct (String.eqb s ""); [now inversion H |].
  destruct (_ <? 3)%nat; [now inversion H |].
  match type of H with bind ?r _ = _ => destruct r as [parts | e0] eqn:Hparts end; simpl in H.
  2: { inversion H; subst.
       destruct (Str.contains _ _); [| discriminate].
       destruct (reraise _ _ _) eqn:Hr; simpl in Hparts; [discriminate |].
       inversion Hparts; subst.
       eapply reraise_raises; [exact Hr |].
       intros e0 H0. now rewrite (v4_address_raises _ _ H0). }
  destruct (_ <? _)%nat; [now inversion H |].
  destruct (find_skip _ _ _) as [skip | e0] eqn:Hskip; simpl in H.
  2: { inversion H; subst. eauto using find_skip_raises. }
  match type of H with bind ?r _ = _ => destruct r as [[[hi lo] sk] | e0] eqn:Hcounts end;
    simpl in H.
  2: { inversion H; subst. clear H. raise_cases Hcounts; congruence. }
  eapply reraise_raises; [exact H |].
  intros e0 H0.
  destruct (from_hextets 0 _) eqn:Hhi; simpl in H0.
  - now rewrite (from_hextets_raises _ _ _ H0).
  - inversion H0; subst. now rewrite (from_hextets_raises _ _ _ Hhi).
Qed.

Lemma split_scope_id_raises (s : string) (e : exn) :
  split_scope_id s = Raise e → e = AddressValueError.
Proof. unfold split_scope_id. intros H. raise_cases H; reflexivity. Qed.

Lemma v6_address_raises (s : string) (e : exn) :
  v6_address s = Raise e → e = AddressValueError.
Proof.
  unfold v6_address. intros H.
  destruct (Str.contains "/" s); [now inversion H |].
  destruct (split_scope_id s) eqn:Hs; simpl in H.
  - destruct (v6_ip_int_from_string _) eqn:Hi; simpl in H; [discriminate |].
    inversion H; subst. eauto using v6_ip_int_from_string_raises.
  - inversion H; subst. eauto using split_scope_id_raises.
Qed.

Lemma split_addr_prefix_raises (s : string) (e : exn) :
  split_addr_prefix s = Raise e → e = AddressValueError.
Proof. unfold split_addr_prefix. intros H. raise_cases H; reflexivity. Qed.

Lemma prefix_from_prefix_string_raises (n : Z) (s : string) (e : exn) :
  prefix_from_prefix_string n s = Raise e → e = NetmaskValueError.
Proof. unfold prefix_from_prefix_string. intros H. raise_cases H; reflexivity. Qed.

Lemma prefix_from_ip_int_raises (n ip : Z) (e : exn) :
  prefix_from_ip_int n ip = Raise e → e = ValueError.
Proof. unfold prefix_from_ip_int. intros H. raise_cases H; reflexivity. Qed.

Lemma v4_prefix_from_ip_string_raises (s : string) (e : exn) :
  v4_prefix_from_ip_string s = Raise e → e = NetmaskValueError.
Proof.
  unfold v4_prefix_from_ip_string. intros H.
  destruct (reraise _ _ (v4_ip_int_from_string s)) eqn:Hr; simpl in H.
  - destruct (prefix_from_ip_int 32 a) eqn:Hp; [discriminate |].
    rewrite (prefix_from_ip_int_raises _ _ _ Hp) in H. simpl in H.
    eapply reraise_raises; [exact H |].
    intros e1 H1. now rewrite (prefix_from_ip_int_raises _ _ _ H1).
  - inversion H; subst.
    eapply reraise_raises; [exact Hr |].
    intros e1 H1. now rewrite (v4_ip_int_from_string_raises _ _ H1).
Qed.

Lemma v4_make_netmask_raises (arg : option string) (e : exn) :
  v4_make_netmask arg = Raise e → e = NetmaskValueError.
Proof.
  unfold v4_make_netmask. intros H.
  destruct arg as [arg|]; simpl in H; [| discriminate].
  destruct (prefix_from_prefix_string 32 arg) eqn:Hp; simpl in H; [discriminate |].
  rewrite (prefix_from_prefix_string_raises _ _ _ Hp) in H. simpl in H.
  destruct (v4_prefix_from_ip_string arg) eqn:Hq; simpl in H; [discriminate |].
  inversion H; subst. eauto using v4_prefix_from_ip_string_raises.
Qed.

Lemma v6_make_netmask_raises (arg : option string) (e : exn) :
  v6_make_netmask arg = Raise e → e = NetmaskValueError.
Proof.
  unfold v6_make_netmask. intros H.
  destruct arg as [arg|]; simpl in H; [| discriminate].
  destruct (prefix_from_prefix_string 128 arg) eqn:Hp; simpl in H; [discriminate |].
  inversion H; subst. eauto using prefix_from_prefix_string_raises.
Qed.

(** Without [strict], a network constructor raises one of the two
    exceptions that [ip_network] catches. *)
Lemma v4_network_lax_raises (s : string) (e : exn) :
  v4_network s false = Raise e → is_Address_or_Netmask e = true.
Proof.
  unfold v4_network. intros H.
  destruct (split_addr_prefix s) as [[a m] | e0] eqn:Hs; simpl in H.
  2: { inversion H; subst. now rewrite (split_addr_prefix_raises _ _ Hs). }
  destruct (v4_address a) eqn:Ha; simpl in H.
  2: { inversion H; subst. now rewrite (v4_address_raises _ _ Ha). }
  destruct (v4_make_netmask m) eqn:Hm; simpl in H.
  2: { inversion H; subst. now rewrite (v4_make_netmask_raises _ _ Hm). }
  destruct (negb _); discriminate.
Qed.

Lemma v6_network_lax_raises (s : string) (e : exn) :
  v6_network s false = Raise e → is_Address_or_Netmask e = true.
Proof.
  unfold v6_network. intros H.
  destruct (split_addr_prefix s) as [[a m] | e0] eqn:Hs; simpl in H.
  2: { inversion H; subst. now rewrite (split_addr_prefix_raises _ _ Hs). }
  destruct (v6_address a) eqn:Ha; simpl in H.
  2: { inversion H; subst. now rewrite (v6_address_raises _ _ Ha). }
  destruct (v6_make_netmask m) eqn:Hm; simpl in H.
  2: { inversion H; subst. now rewrite (v6_make_netmask_raises _ _ Hm). }
  destruct (negb _); discriminate.
Qed.

Lemma ip_address_raises (s : string) (e : exn) :
  ip_address s = Raise e → e = ValueError.
Proof.
  unfold ip_address. intros H.
  destruct (v4_address s) eqn:H4; [discriminate |].
  rewrite (v4_address_raises _ _ H4) in H. simpl in H.
  destruct (v6_address s) as [[ip sc] | e6] eqn:H6; [discriminate |].
  rewrite (v6_address_raises _ _ H6) in H. simpl in H. now inversion H.
Qed.

Lemma ip_network_lax_raises (s : string) (e : exn) :
  ip_network s false = Raise e → e = ValueError.
Proof.
  unfold ip_network. intros H.
  destruct (v4_network s false) eqn:H4; [discriminate |].
  rewrite (v4_network_lax_raises _ _ H4) in H.
  destruct (v6_network s false) eqn:H6; [discriminate |].
  rewrite (v6_network_lax_raises _ _ H6) in H. now inversion H.
Qed.

End IpaddressFacts.

(** * Substrings *)

Section Substrings.

Lemma prefix_occurs (sub s : string) :
  String.prefix sub s = true ↔ ∃ post, s = sub +:+ post.
Proof.
  revert s. induction sub as [|a sub IH]; intros s; simpl.
  - split; [intros _; now exists s | intros _; now destruct s].
  - destruct s as [|c s]; simpl.
    + split; [discriminate | intros [post H]; discriminate H].
    + destruct (ascii_dec a c) as [-> | Hne].
      * rewrite IH. split; intros [post H]; exists post; [now rewrite H | now inversion H].
      * split; [discriminate | intros [post H]; inversion H; congruence].
Qed.

Lemma contains_occurs (sub s : string) :
  Str.contains sub s = true ↔ occurs_in sub s.
Proof.
  unfold occurs_in. induction s as [|c s IH]; cbn [Str.contains].
  - rewrite orb_false_r, prefix_occurs. split.
    + intros [post H]. now exists "", post.
    + intros (pre & post & H). destruct pre; simpl in H; [eauto |discriminate].
  - rewrite orb_true_iff, prefix_occurs, IH. split.
    + intros [[post H] | (pre & post & H)].
      * now exists "", post.
      * exists (String c pre), post. simpl. now rewrite H.
    + intros (pre & post & H). destruct pre as [|c' pre]; simpl in H.
      * left. eauto.
      * right. inversion H. eauto.
Qed.

Lemma contains_char (a c : ascii) (s : string) :
  Str.contains (String a "") (String c s)
  = Ascii.eqb c a || Str.contains (String a "") s.
Proof.
  cbn. destruct (ascii_dec a c) as [-> | Hne].
  - rewrite Ascii.eqb_refl. now destruct s.
  - apply not_eq_sym, Ascii.eqb_neq in Hne. now rewrite Hne.
Qed.

Lemma split_without (a : ascii) (s : string) :
  Str.contains (String a "") s = false → Str.split a s = [s].
Proof.
  induction s as [|c s IH]; [reflexivity |].
  rewrite contains_char. intros H. apply orb_false_iff in H as [Hc Hs].
  simpl. rewrite Hc, (IH Hs). reflexivity.
Qed.

Lemma split_at_sep (a : ascii) (u v : string) :
  Str.contains (String a "") u = false →
  Str.split a (u +:+ String a v) = u :: Str.split a v.
Proof.
  induction u as [|c u IH]; intros H.
  - simpl. now rewrite Ascii.eqb_refl.
  - rewrite contains_char in H. apply orb_false_iff in H as [Hc Hu].
    simpl. rewrite Hc, (IH Hu). reflexivity.
Qed.

Lemma digits_without_slash (s : string) :
  Str.all_digits s = true → Str.contains "/" s = false.
Proof.
  induction s as [|c s IH]; [reflexivity |].
  simpl Str.all_digits. intros H. apply andb_true_iff in H as [Hc Hs].
  rewrite contains_char, (IH Hs), orb_false_r.
  apply Ascii.eqb_neq. intros ->. discriminate Hc.
Qed.

End Substrings.

(** * validate_ip *)

Section Validate.
Import Ipaddress.

Lemma ip_address_no_slash (s : string) (a : address) :
  ip_address s = Ok a → Str.contains "/" s = false.
Proof.
  unfold ip_address, v4_address, v6_address.
  destruct (Str.contains "/" s); [discriminate | reflexivity].
Qed.

Lemma ip_network_no_slash (s : string) (n : network) :
  Str.contains "/" s = false → ip_network s false = Ok n →
  ∃ a, ip_address s = Ok a.
Proof.
  intros Hs Hn.
  assert (Hsplit : split_addr_prefix s = Ok (s, None)).
  { unfold split_addr_prefix. now rewrite (split_without "/" s Hs). }
  unfold ip_address.
  destruct (v4_address s) as [ip | e4] eqn:H4; [eauto |].
  rewrite (v4_address_raises _ _ H4). simpl.
  destruct (v6_address s) as [[ip sc] | e6] eqn:H6; [eauto |].
  exfalso. unfold ip_network, v4_network, v6_network in Hn.
  rewrite Hsplit in Hn. simpl in Hn. rewrite H4, H6 in Hn. simpl in Hn.
  rewrite (v4_address_raises _ _ H4), (v6_address_raises _ _ H6) in Hn.
  discriminate Hn.
Qed.

(** What [validate_ip] answers, by the presence of a slash. *)
Lemma validate_ip_cases (s : string) :
  validate_ip s =
    Ok (if Str.contains "/" s
        then match ip_network s false with Ok _ => true | Raise _ => false end
        else match ip_address s with Ok _ => true | Raise _ => false end).
Proof.
  unfold validate_ip. destruct (Str.contains "/" s).
  - destruct (ip_network s false) eqn:Hn; [reflexivity |].
    now rewrite (ip_network_lax_raises _ _ Hn).
  - destruct (ip_address s) eqn:Ha; [reflexivity |].
    now rewrite (ip_address_raises _ _ Ha).
Qed.

End Validate.


(** * Markup that [rich] accepts *)

Section Markup.

Lemma plain_run_app (a b : string) :
  ∀ open_tags tag,
    plain_run open_tags tag (a +:+ b) =
      match plain_run open_tags tag a with
      | Some (o, t) => plain_run o t b
      | None => None
      end.
Proof.
  induction a as [|c a IH]; intros open_tags tag; [reflexivity |].
  change (String c a +:+ b) with (String c (a +:+ b)). cbn [plain_run].
  destruct (Ascii.eqb c "\"); [reflexivity |].
  destruct tag as [t|].
  - destruct (Ascii.eqb c "]").
    + destruct (end_tag t open_tags); [apply IH | reflexivity].
    + destruct (Ascii.eqb c "["); [reflexivity | apply IH].
  - destruct (Ascii.eqb c "["); apply IH.
Qed.

Lemma plain_run_text (t : string) :
  plain_text t = true → ∀ o, plain_run o None t = Some (o, None).
Proof.
  induction t as [|c t IH]; intros H o; [reflexivity |].
  cbn [plain_text] in H. apply andb_true_iff in H as [H Ht].
  apply andb_true_iff in H as [Hb Hs].
  cbn [plain_run].
  destruct (Ascii.eqb c "\"); [discriminate Hs |].
  destruct (Ascii.eqb c "["); [discriminate Hb |].
  now apply IH.
Qed.

(** The program's own tags around a text without brackets. *)
Lemma wrapped_plain (pre t post : string) (o o' : list string) :
  plain_run [] None pre = Some (o, None) →
  plain_text t = true →
  plain_run o None post = Some (o', None) →
  accepts (pre +:+ t +:+ post) = true.
Proof.
  intros Hpre Ht Hpost. unfold accepts, plain_markup.
  rewrite plain_run_app, Hpre, plain_run_app, (plain_run_text t Ht), Hpost. reflexivity.
Qed.

Lemma plain_text_app (s t : string) :
  plain_text (s +:+ t) = plain_text s && plain_text t.
Proof.
  induction s as [|c s IH]; [reflexivity |].
  change (String c s +:+ t) with (String c (s +:+ t)). cbn [plain_text].
  rewrite IH. now rewrite !andb_assoc.
Qed.

Lemma plain_text_join (l : list string) :
  forallb plain_text l = true → plain_text (Str.join " " l) = true.
Proof.
  induction l as [|x l IH]; [reflexivity |].
  cbn [forallb]. intros H. apply andb_true_iff in H as [Hx Hl].
  destruct l as [|y l]; [exact Hx |].
  change (Str.join " " (x :: y :: l)) with (x +:+ " " +:+ Str.join " " (y :: l)).
  rewrite !plain_text_app, Hx, (IH Hl). reflexivity.
Qed.

Lemma plain_text_replace (a b : ascii) (s : string) :
  negb (Ascii.eqb b "[") && negb (Ascii.eqb b "\") = true →
  plain_text s = true → plain_text (Str.replace a b s) = true.
Proof.
  intros Hb. induction s as [|c s IH]; [reflexivity |].
  cbn [plain_text Str.replace]. intros H.
  apply andb_true_iff in H as [Hc Hs]. rewrite (IH Hs), andb_true_r.
  destruct (Ascii.eqb c a); assumption.
Qed.

(** A line without brackets is rendered, whichever way it is printed. *)
Lemma plain_line_shown (line : string) :
  plain_text (Str.strip line) = true → line_shown line = true.
Proof.
  intros H. unfold line_shown, as_port, as_detail, as_script, as_plain.
  cbn [forallb accepted].
  rewrite (wrapped_plain "[bold green]PORT FOUND: " _ "[/bold green]"
             ["bold green"] [] eq_refl H eq_refl).
  rewrite (wrapped_plain "[bold magenta]➔ " _ "[/bold magenta]"
             ["bold magenta"] [] eq_refl H eq_refl).
  rewrite (wrapped_plain "  [cyan]" _ "[/cyan]" ["cyan"] [] eq_refl H eq_refl).
  rewrite (wrapped_plain "  [dim]" _ "[/dim]" ["dim"] [] eq_refl H eq_refl).
  reflexivity.
Qed.

End Markup.

(** * The tests of the loop body *)

Section Classification.

Lemma search_none_iff (s : string) :
  Re.search progress_re s = None ↔ ¬ has_marker s.
Proof.
  split.
  - intros Hs (pre & num & post & -> & Hnum).
    destruct (progress_search_complete pre num post Hnum) as [m Hm]. congruence.
  - intros Hno. destruct (Re.search progress_re s) as [m|] eqn:Hs; [| reflexivity].
    exfalso. apply Hno.
    destruct (progress_search _ _ Hs) as (pre & g & post & Hg & -> & _).
    now exists pre, g, post.
Qed.

Lemma matches_at_start (r : Re.regex) (s : string) (m : Re.cursor * list string) :
  In m (Re.matches r (0%nat, s)) → Re.matches (Re.Seq Re.Bol r) (0%nat, s) ≠ [].
Proof.
  simpl. rewrite app_nil_r.
  destruct (Re.matches r (0%nat, s)); [contradiction | discriminate].
Qed.

Lemma port_match_iff (s : string) :
  Re.found (Re.match_ port_re s) = true ↔ port_prefix s.
Proof.
  unfold Re.match_, Re.match_at, port_prefix. split.
  - destruct (Re.matches port_re (0%nat, s)) as [|[[p' rest] gs] l] eqn:Hms; [discriminate |].
    intros _.
    assert (Hin : In (p', rest, gs) (Re.matches port_re (0%nat, s))) by (rewrite Hms; now left).
    apply matches_sound in Hin as (u & -> & _ & Hd).
    unfold port_re in Hd. cbn [denotes] in Hd.
    destruct Hd as (u0 & u1 & -> & -> & d & u2 & -> & [Hne Hall] & sl & proto & -> & (c & -> & Hc) & Hp).
    apply Ascii.eqb_eq in Hc. subst c.
    exists d, proto, rest. rewrite all_in_digit in Hall. split; [| split].
    + simpl. rewrite ?str_app_assoc. simpl. reflexivity.
    + unfold Str.isdecimal. apply eqb_neq in Hne. now rewrite Hne, Hall.
    + destruct Hp as [Hp | Hp]; apply denotes_lit in Hp; auto.
  - intros (d & proto & rest & -> & Hd & Hp).
    destruct (isdecimal_inv d Hd) as [Hne Hall].
    assert (Hden : denotes (Re.Seq (Re.Many1 Re.AnyDigit)
                   (Re.Seq (Re.One (Re.Exactly "/"))
                      (Re.Group (Re.Alt (Re.lit "tcp") (Re.lit "udp")))))
                   (d +:+ "/" +:+ proto)).
    { exists d, ("/" +:+ proto). repeat split; [assumption | now rewrite all_in_digit |].
      exists "/", proto. repeat split.
      - exists "/"%char. auto.
      - destruct Hp as [-> | ->]; [left | right]; now apply denotes_lit. }
    pose proof (λ H, matches_complete _ H _ 0%nat rest Hden) as Hc.
    destruct (Hc eq_refl) as [gs Hin]. clear Hc.
    rewrite !str_app_assoc in Hin.
    pose proof (matches_at_start _ _ _ Hin) as Hne'.
    unfold port_re.
    match type of Hne' with
    | ?l ≠ [] => destruct l; [congruence | reflexivity]
    end.
Qed.

Lemma no_port_prefix (s : string) :
  ¬ port_prefix s → Re.found (Re.match_ port_re s) = false.
Proof.
  intros H. destruct (Re.found (Re.match_ port_re s)) eqn:E; [| reflexivity].
  now apply port_match_iff in E.
Qed.

Lemma no_occurrence (sub s : string) :
  ¬ occurs_in sub s → Str.contains sub s = false.
Proof.
  intros H. destruct (Str.contains sub s) eqn:E; [| reflexivity].
  now apply contains_occurs in E.
Qed.

Lemma startswith_bar (s : string) :
  Str.startswith s "|" = true ↔ ∃ rest, s = "|" +:+ rest.
Proof. apply prefix_occurs. Qed.

End Classification.


(** * Stripping *)

Section Strip.

Lemma rstrip_unfold (c : ascii) (s : string) :
  Str.rstrip (String c s) =
    match Str.rstrip s with
    | EmptyString => if Str.isspace c then EmptyString else String c EmptyString
    | r => String c r
    end.
Proof. reflexivity. Qed.

Lemma rstrip_cons (c : ascii) (s : string) :
  Str.isspace c = false → Str.rstrip (String c s) = String c (Str.rstrip s).
Proof.
  intros Hc. rewrite rstrip_unfold. destruct (Str.rstrip s); [now rewrite Hc | reflexivity].
Qed.

Lemma rstrip_idem (s : string) : Str.rstrip (Str.rstrip s) = Str.rstrip s.
Proof.
  induction s as [|c s IH]; [reflexivity |].
  rewrite rstrip_unfold. destruct (Str.rstrip s) as [|c' r] eqn:Hr.
  - destruct (Str.isspace c) eqn:Hc; [reflexivity |].
    rewrite rstrip_unfold. cbn [Str.rstrip]. now rewrite Hc.
  - rewrite rstrip_unfold, IH. reflexivity.
Qed.

Lemma lstrip_head (s : string) :
  Str.lstrip s = "" ∨ ∃ c t, Str.lstrip s = String c t ∧ Str.isspace c = false.
Proof.
  induction s as [|c s IH]; [now left |].
  cbn [Str.lstrip]. destruct (Str.isspace c) eqn:Hc; [exact IH | right; eauto].
Qed.

Lemma strip_head (s : string) :
  Str.strip s = "" ∨ ∃ c t, Str.strip s = String c t ∧ Str.isspace c = false.
Proof.
  unfold Str.strip. destruct (lstrip_head s) as [-> | (c & t & -> & Hc)]; [now left |].
  right. rewrite (rstrip_cons c t Hc). eauto.
Qed.

Lemma strip_idem (s : string) : Str.strip (Str.strip s) = Str.strip s.
Proof.
  destruct (strip_head s) as [-> | (c & t & Heq & Hc)]; [reflexivity |].
  unfold Str.strip at 1. rewrite Heq. cbn [Str.lstrip]. rewrite Hc, <- Heq.
  unfold Str.strip. apply rstrip_idem.
Qed.

(** The last character of a right-stripped string is not a space. *)
Lemma rstrip_last (s u : string) (c : ascii) :
  Str.rstrip s = u +:+ String c "" → Str.isspace c = false.
Proof.
  revert u. induction s as [|a s IH]; intros u H.
  - destruct u; discriminate H.
  - rewrite rstrip_unfold in H. destruct (Str.rstrip s) as [|c' r] eqn:Hr.
    + destruct (Str.isspace a) eqn:Ha; [destruct u; discriminate H |].
      destruct u as [|b u]; simpl in H; inversion H; subst; [assumption |].
      destruct u; discriminate.
    + destruct u as [|b u]; simpl in H; inversion H as [[Ha Ht]]; subst.
      eapply IH. exact Ht.
Qed.

End Strip.

(** * The read loop *)

Section ReadLoop.

Lemma process_line_blank (st : Live) (line : string) :
  Str.strip line = "" → process_line st line = Ok st.
Proof. unfold process_line. now intros ->. Qed.

Lemma process_line_marker (st : Live) (line : string) (m : Re.Match) :
  Re.search progress_re (Str.strip line) = Some m →
  ∃ i f,
    Re.group m 1 = i +:+ "." +:+ f
    ∧ Str.isdecimal i = true ∧ Str.isdecimal f = true
    ∧ process_line st line =
        Ok {| completed := Float (nearest_binary64 i f);
              log_file := log_file st +:+ Str.strip line +:+ Str.LF;
              console := console st |}.
Proof.
  intros Hs.
  destruct (progress_search _ _ Hs) as (pre & g & post & (i & f & -> & Hi & Hf) & Heq & Hg & _).
  exists i, f. repeat split; try assumption.
  unfold process_line. rewrite Hs, Hg, (float_decimal i f Hi Hf).
  destruct (String.eqb (Str.strip line) "") eqn:Hb; [| reflexivity].
  apply eqb_empty in Hb. rewrite Hb in Heq.
  destruct pre; [destruct (isdecimal_inv i Hi) as [Hne _]; destruct i |]; discriminate || congruence.
Qed.

(** A marker line, through the float of what the pattern captured. *)
Lemma process_line_float (st : Live) (line : string) (m : Re.Match) :
  Re.search progress_re (Str.strip line) = Some m →
  ∃ x,
    float (Re.group m 1) = Ok x
    ∧ is_nonneg (Float x) = true
    ∧ process_line st line =
        Ok {| completed := Float x;
              log_file := log_file st +:+ Str.strip line +:+ Str.LF;
              console := console st |}.
Proof.
  intros Hs.
  destruct (process_line_marker st line m Hs) as (i & f & Hg & Hi & Hf & Hrun).
  exists (nearest_binary64 i f). rewrite Hg.
  split; [now apply float_decimal |]. split; [now apply nearest_nonneg | exact Hrun].
Qed.

(** A line that is not blank and holds no marker: it is written to the
    log, then printed in the way [shown_for] tells, if [rich] takes it. *)
Lemma process_line_unmarked (st : Live) (line : string) :
  Str.strip line ≠ "" →
  Re.search progress_re (Str.strip line) = None →
  process_line st line =
    match shown_for (Str.strip line) with
    | Some e =>
        if accepted e then
          Ok {| completed := completed st;
                log_file := log_file st +:+ Str.strip line +:+ Str.LF;
                console := console st ++ [e] |}
        else Raise MarkupError
    | None =>
        Ok {| completed := completed st;
              log_file := log_file st +:+ Str.strip line +:+ Str.LF;
              console := console st |}
    end.
Proof.
  intros Hne Hs. apply eqb_neq in Hne.
  unfold process_line, shown_for. rewrite Hne, Hs.
  repeat match goal with
         | |- context [if ?b then _ else _] =>
             lazymatch b with
             | accepts _ => fail
             | accepted _ => fail
             | _ => destruct b
             end
         end; reflexivity.
Qed.

Lemma shown_for_cases (clean : string) (e : shown) :
  shown_for clean = Some e →
  e = as_port clean ∨ e = as_detail clean ∨ e = as_script clean ∨ e = as_plain clean.
Proof.
  unfold shown_for.
  repeat match goal with
         | |- context [if ?b then _ else _] => destruct b
         end; intros H; inversion H; auto.
Qed.

Lemma line_shown_accepted (line : string) (e : shown) :
  line_shown line = true → shown_for (Str.strip line) = Some e → accepted e = true.
Proof.
  unfold line_shown. cbn [forallb]. rewrite !andb_true_iff.
  intros (Hp & Hd & Hs & Hl & _) He.
  destruct (shown_for_cases _ _ He) as [-> | [-> | [-> | ->]]]; assumption.
Qed.

Lemma written_spec (st : Live) (line : string) :
  log_file (written st line) =
    log_file st +:+ (if String.eqb (Str.strip line) "" then ""
                     else Str.strip line +:+ Str.LF)
  ∧ completed (written st line) = completed st
  ∧ console (written st line) = console st.
Proof.
  unfold written. destruct (String.eqb (Str.strip line) "").
  - now rewrite str_app_nil_r.
  - repeat split.
Qed.

(** What one pass of the body does, by its outcome. *)
Lemma process_line_spec (st : Live) (line : string) :
  match process_line st line with
  | Ok st' =>
      log_file st' =
        log_file st +:+ (if String.eqb (Str.strip line) "" then ""
                         else Str.strip line +:+ Str.LF)
      ∧ (is_nonneg (completed st) = true → is_nonneg (completed st') = true)
      ∧ (Re.search progress_re (Str.strip line) = None → completed st' = completed st)
      ∧ (console st' = console st
         ∨ (Str.strip line ≠ "" ∧ Re.search progress_re (Str.strip line) = None
            ∧ ∃ e, console st' = console st ++ [e]
                   ∧ shown_for (Str.strip line) = Some e ∧ accepted e = true))
  | Raise x =>
      x = MarkupError
      ∧ Str.strip line ≠ ""
      ∧ Re.search progress_re (Str.strip line) = None
      ∧ ∃ e, shown_for (Str.strip line) = Some e ∧ accepted e = false
  end.
Proof.
  destruct (String.eqb (Str.strip line) "") eqn:Hb.
  - apply eqb_empty in Hb. rewrite (process_line_blank st line Hb).
    rewrite str_app_nil_r. auto.
  - apply eqb_neq in Hb.
    destruct (Re.search progress_re (Str.strip line)) as [m|] eqn:Hs.
    + destruct (process_line_marker st line m Hs) as (i & f & _ & Hi & Hf & ->).
      cbn [log_file completed console]. repeat split; [| discriminate | now left].
      intros _. now apply nearest_nonneg.
    + rewrite (process_line_unmarked st line Hb Hs).
      destruct (shown_for (Str.strip line)) as [e|] eqn:He.
      * destruct (accepted e) eqn:Ha.
        -- cbn [log_file completed console]. repeat split; auto.
           right. repeat split; try assumption. now exists e.
        -- repeat split; try assumption. now exists e.
      * cbn [log_file completed console]. repeat split; auto.
Qed.

Lemma read_loop_app (l1 l2 : list string) (d : bool) :
  ∀ st,
    read_loop st (l1 ++ l2) d =
      match snd (read_loop st l1 true) with
      | None => read_loop (fst (read_loop st l1 true)) l2 d
      | Some e => read_loop st l1 true
      end.
Proof.
  induction l1 as [|line l1 IH]; intros st; cbn [app read_loop]; [reflexivity |].
  destruct (process_line st line); [apply IH | reflexivity].
Qed.

(** The loop, by its outcome: the lines read so far are in the log, the
    last of them is the one whose print raised, if one did. *)
Lemma read_loop_spec (lines : list string) (d : bool) :
  ∀ st,
    ∃ read rest,
      lines = read ++ rest
      ∧ log_file (fst (read_loop st lines d)) = log_file st +:+ logged read
      ∧ (is_nonneg (completed st) = true →
         is_nonneg (completed (fst (read_loop st lines d))) = true)
      ∧ match snd (read_loop st lines d) with
        | None => rest = [] ∧ d = true
        | Some x =>
            (x = UnicodeDecodeError ∧ rest = [] ∧ d = false)
            ∨ (x = MarkupError
               ∧ ∃ before line e,
                   read = before ++ [line] ∧ Str.strip line ≠ ""
                   ∧ Re.search progress_re (Str.strip line) = None
                   ∧ shown_for (Str.strip line) = Some e ∧ accepted e = false)
        end.
Proof.
  induction lines as [|line lines IH]; intros st; cbn [read_loop].
  - exists [], []. cbn [fst snd logged]. rewrite str_app_nil_r.
    repeat split; auto. destruct d; auto.
  - pose proof (process_line_spec st line) as Hline.
    destruct (process_line st line) as [st1 | x].
    + destruct Hline as (Hlog1 & Hpos1 & _).
      destruct (IH st1) as (read & rest & -> & Hlog & Hpos & Hout).
      exists (line :: read), rest. split; [reflexivity |].
      split; [| split; [auto |]].
      * rewrite Hlog, Hlog1. cbn [logged]. apply str_app_assoc.
      * destruct (snd (read_loop st1 (read ++ rest) d)) as [x|]; [| exact Hout].
        destruct Hout as [Hout | (-> & before & l & e & -> & H)]; [now left |].
        right. split; [reflexivity |]. now exists (line :: before), l, e.
    + destruct Hline as (-> & Hne & Hs & e & He & Ha).
      exists [line], lines. cbn [fst snd logged].
      destruct (written_spec st line) as (Hlog & Hc & _).
      split; [reflexivity |]. split; [| split; [now rewrite Hc |]].
      * now rewrite Hlog, str_app_nil_r.
      * right. split; [reflexivity |]. now exists [], line, e.
Qed.

(** When [rich] renders every line, the loop reads the whole stream. *)
Lemma read_loop_shown (lines : list string) (d : bool) :
  forallb line_shown lines = true →
  ∀ st,
    snd (read_loop st lines d) = (if d then None else Some UnicodeDecodeError)
    ∧ log_file (fst (read_loop st lines d)) = log_file st +:+ logged lines.
Proof.
  induction lines as [|line lines IH]; intros Hall st; cbn [read_loop].
  - cbn [fst snd logged]. now rewrite str_app_nil_r.
  - cbn [forallb] in Hall. apply andb_true_iff in Hall as [Hline Hall].
    pose proof (process_line_spec st line) as Hspec.
    destruct (process_line st line) as [st1 | x].
    + destruct Hspec as (Hlog1 & _).
      destruct (IH Hall st1) as [Hout Hlog]. split; [exact Hout |].
      rewrite Hlog, Hlog1. cbn [logged]. apply str_app_assoc.
    + destruct Hspec as (_ & _ & _ & e & He & Ha).
      rewrite (line_shown_accepted line e Hline He) in Ha. discriminate Ha.
Qed.

(** Only a marker changes the count. *)
Lemma read_loop_count (lines : list string) (d : bool) :
  Forall (λ line, Re.search progress_re (Str.strip line) = None) lines →
  ∀ st, completed (fst (read_loop st lines d)) = completed st.
Proof.
  induction 1 as [|line lines Hline _ IH]; intros st; cbn [read_loop]; [reflexivity |].
  pose proof (process_line_spec st line) as Hspec.
  destruct (process_line st line) as [st1 | x].
  - destruct Hspec as (_ & _ & Hkeep & _). rewrite IH. now apply Hkeep.
  - cbn [fst]. apply written_spec.
Qed.

End ReadLoop.

(** * run_scan as a whole *)

Ltac world_simpl :=
  cbn [bind fst snd w_path w_fs w_console w_task w_clock w_ticks w_spawned w_stdin
       set_task set_fs set_console set_spawned set_stdin set_ticks show].


Section LogName.

Lemma contains_char_app (a : ascii) (s t : string) :
  Str.contains (String a "") (s +:+ t)
  = Str.contains (String a "") s || Str.contains (String a "") t.
Proof.
  induction s as [|c s IH].
  - simpl. now destruct t.
  - change (String c s +:+ t) with (String c (s +:+ t)).
    rewrite !contains_char, IH. now rewrite orb_assoc.
Qed.

Lemma replace_removes (a b : ascii) (s : string) :
  a ≠ b → Str.contains (String a "") (Str.replace a b s) = false.
Proof.
  intros Hab. induction s as [|c s IH]; [reflexivity |].
  cbn [Str.replace]. rewrite contains_char, IH, orb_false_r.
  destruct (Ascii.eqb c a) eqn:Hc.
  - apply Ascii.eqb_neq. congruence.
  - exact Hc.
Qed.

Lemma replace_keeps_out (x a b : ascii) (s : string) :
  x ≠ b → Str.contains (String x "") s = false →
  Str.contains (String x "") (Str.replace a b s) = false.
Proof.
  intros Hxb. induction s as [|c s IH]; [reflexivity |].
  cbn [Str.replace]. rewrite !contains_char. intros H.
  apply orb_false_iff in H as [Hc Hs]. rewrite (IH Hs), orb_false_r.
  destruct (Ascii.eqb c a); [| exact Hc].
  apply Ascii.eqb_neq. congruence.
Qed.

(** [str(n)] is made of digits and a sign. *)
Lemma uint_without (x : ascii) (d : Decimal.uint) :
  Str.isdigit x = false →
  Str.contains (String x "") (DecimalString.NilEmpty.string_of_uint d) = false.
Proof.
  intros Hx.
  induction d; cbn [DecimalString.NilEmpty.string_of_uint]; [reflexivity | ..];
    rewrite contains_char, IHd, orb_false_r;
    (destruct (Ascii.eqb _ x) eqn:E; [| reflexivity]);
    apply Ascii.eqb_eq in E; subst x; discriminate Hx.
Qed.

Lemma of_Z_without (x : ascii) (n : Z) :
  Str.isdigit x = false → x ≠ "-"%char →
  Str.contains (String x "") (Str.of_Z n) = false.
Proof.
  intros Hx Hm.
  assert (H0 : Ascii.eqb "0" x = false).
  { destruct (Ascii.eqb "0" x) eqn:E; [| reflexivity].
    apply Ascii.eqb_eq in E. subst x. discriminate Hx. }
  assert (Hs : Ascii.eqb "-" x = false) by (apply Ascii.eqb_neq; congruence).
  unfold Str.of_Z, DecimalString.NilZero.string_of_int, DecimalString.NilZero.string_of_uint.
  destruct (Z.to_int n) as [d | d]; destruct d;
    rewrite ?contains_char, ?Hs, ?H0; cbn [orb];
    try reflexivity;
    match goal with
    | |- Str.contains _ (DecimalString.NilEmpty.string_of_uint ?u) = false =>
        apply (uint_without x u Hx)
    end.
Qed.

Lemma of_Z_without_slash (n : Z) : Str.contains "/" (Str.of_Z n) = false.
Proof. apply of_Z_without; [reflexivity | discriminate]. Qed.

Lemma of_Z_inj (a b : Z) : Str.of_Z a = Str.of_Z b → a = b.
Proof.
  unfold Str.of_Z. intros H.
  assert (Hnn : ∀ z, Z.to_int z ≠ Decimal.Pos Decimal.Nil
                     ∧ Z.to_int z ≠ Decimal.Neg Decimal.Nil).
  { intros [|p|p]; simpl; split; try discriminate;
      intros E; inversion E as [E']; now apply DecimalPos.Unsigned.to_uint_nonnil in E'. }
  apply to_int_inj.
  apply (f_equal DecimalString.NilZero.int_of_string) in H.
  rewrite !DecimalString.NilZero.isi in H by apply Hnn. now inversion H.
Qed.

Lemma str_app_inv_tail (t s1 s2 : string) : s1 +:+ t = s2 +:+ t → s1 = s2.
Proof.
  revert s2. induction s1 as [|c s1 IH]; intros s2 H.
  - apply (f_equal String.length) in H. rewrite !str_length_app in H.
    destruct s2; [reflexivity | simpl in H; lia].
  - destruct s2 as [|c2 s2].
    + apply (f_equal String.length) in H. rewrite !str_length_app in H. simpl in H. lia.
    + simpl in H. inversion H. f_equal. now apply IH.
Qed.

(** A target without NUL gives a log name without NUL. *)
Lemma log_name_nul (target : string) (seconds : Z) :
  has_nul target = false → has_nul (log_name target seconds) = false.
Proof.
  intros H. unfold has_nul, log_name in *.
  rewrite !contains_char_app, of_Z_without, replace_keeps_out;
    try reflexivity; try discriminate; assumption.
Qed.

Lemma argv_nul (scan_command : list string) (target : string) :
  existsb has_nul (scan_argv scan_command target) = false → has_nul target = false.
Proof.
  unfold scan_argv. rewrite existsb_app. cbn [existsb].
  intros H. apply orb_false_iff in H as [_ H].
  destruct (has_nul target); [discriminate H | reflexivity].
Qed.


End LogName.

Section RunScan.

Lemma world_ext (w w' : World) :
  w_fs w = w_fs w' → w_console w = w_console w' → w_stdin w = w_stdin w' →
  w_clock w = w_clock w' → w_ticks w = w_ticks w' → w_path w = w_path w' →
  w_spawned w = w_spawned w' → w_task w = w_task w' → w = w'.
Proof. destruct w, w'; simpl; intros; subst; reflexivity. Qed.

Lemma accepts_plain (s : string) : plain_markup s = true → accepts s = true.
Proof. unfold accepts. now intros ->. Qed.

Lemma print_accepted (s : string) (w : World) :
  accepts s = true → print s w = Ok (show (Print s) w).
Proof. unfold print. now intros ->. Qed.

Lemma print_plain (s : string) (w : World) :
  plain_markup s = true → print s w = Ok (show (Print s) w).
Proof. intros H. apply print_accepted, accepts_plain, H. Qed.

Lemma print_refused (s : string) (w : World) :
  accepts s = false → print s w = Raise MarkupError.
Proof. unfold print. now intros ->. Qed.

(** [run_scan], by what can stop it, in the order in which it is tried. *)
Lemma run_scan_cases (scan_command : list string) (target : string) (w : World) :
  run_scan scan_command target w =
    let argv := scan_argv scan_command target in
    let log_filename := log_name target (now w) in
    if negb (forallb accepted (scan_header scan_command target)) then Raise MarkupError
    else if existsb has_nul argv then Raise ValueError
    else
      match w_path w !! hd "" argv with
      | None => Raise OSError
      | Some prog =>
          match w_fs w !! log_filename with
          | Some Locked => Raise OSError
          | _ =>
              let loop :=
                read_loop {| completed := Int 0; log_file := "";
                             console := w_console w ++ scan_header scan_command target |}
                          (stdout_lines (prog (tl argv))) (decodes (prog (tl argv))) in
              match snd loop with
              | Some e => Raise e
              | None =>
                  if forallb accepted (scan_report log_filename (returncode (prog (tl argv))))
                  then
                    Ok {| w_fs := <[log_filename := File (log_file (fst loop))]> (w_fs w);
                          w_console :=
                            console (fst loop)
                            ++ scan_report log_filename (returncode (prog (tl argv)));
                          w_stdin := w_stdin w;
                          w_clock := w_clock w;
                          w_ticks := S (w_ticks w);
                          w_path := w_path w;
                          w_spawned := w_spawned w ++ [argv];
                          w_task := Int 100 |}
                  else Raise MarkupError
              end
          end
      end.
Proof.
  cbn zeta. unfold run_scan, time_time, scan_header. cbn [forallb accepted]. world_simpl.
  rewrite (accepts_plain (Str.LF +:+ "[bold yellow]--- Live Scan Results ---[/bold yellow]")
             eq_refl).
  rewrite !andb_true_r.
  unfold print at 1.
  destruct (accepts (Str.LF +:+ "[bold cyan]Targeting:[/bold cyan] [white]" +:+ target
                     +:+ "[/white]")); cbn [andb negb bind]; [| reflexivity].
  unfold print at 1.
  destruct (accepts ("[bold cyan]Command:[/bold cyan] [dim]"
                     +:+ Str.join " " (scan_argv scan_command target) +:+ "[/dim]" +:+ Str.LF));
    cbn [andb negb bind]; [| reflexivity].
  unfold Popen.
  destruct (existsb has_nul (scan_argv scan_command target)) eqn:Hnul;
    cbn [bind]; [reflexivity |].
  world_simpl.
  destruct (w_path w !! hd "" (scan_argv scan_command target)) as [prog|];
    cbn [bind]; [| reflexivity].
  world_simpl.
  rewrite print_plain by reflexivity. cbn [bind].
  unfold write_file. rewrite (log_name_nul _ _ (argv_nul _ _ Hnul)). world_simpl.
  assert (Hstart :
    (((w_console w
       ++ [Print (Str.LF +:+ "[bold cyan]Targeting:[/bold cyan] [white]" +:+ target
                  +:+ "[/white]")])
      ++ [Print ("[bold cyan]Command:[/bold cyan] [dim]"
                 +:+ Str.join " " (scan_argv scan_command target) +:+ "[/dim]" +:+ Str.LF)])
     ++ [Print (Str.LF +:+ "[bold yellow]--- Live Scan Results ---[/bold yellow]")])
    = w_console w
      ++ [Print (Str.LF +:+ "[bold cyan]Targeting:[/bold cyan] [white]" +:+ target
                 +:+ "[/white]");
          Print ("[bold cyan]Command:[/bold cyan] [dim]"
                 +:+ Str.join " " (scan_argv scan_command target) +:+ "[/dim]" +:+ Str.LF);
          Print (Str.LF +:+ "[bold yellow]--- Live Scan Results ---[/bold yellow]")]).
  { rewrite <- !app_assoc. reflexivity. }
  destruct (w_fs w !! log_name target (now w)) as [[c| |]|]; cbn [bind]; try reflexivity;
    world_simpl; rewrite Hstart;
    (destruct (read_loop _ (stdout_lines (prog (tl (scan_argv scan_command target))))
                         (decodes (prog (tl (scan_argv scan_command target)))))
       as [st [e|]]; cbn [fst snd]; [reflexivity |]);
    rewrite insert_insert_eq; unfold scan_report;
    (destruct (returncode (prog (tl (scan_argv scan_command target))) =? 0)%Z;
     cbn [negb forallb accepted]; rewrite ?andb_true_r;
     [ rewrite (print_plain scan_complete) by reflexivity; cbn [bind];
       rewrite (accepts_plain scan_complete eq_refl); cbn [andb];
       unfold print;
       (destruct (accepts (report_saved (log_name target (now w)))); [| reflexivity])
     | rewrite (print_plain scan_failed) by reflexivity;
       rewrite (accepts_plain scan_failed eq_refl) ]);
    f_equal; apply world_ext; world_simpl; rewrite <- ?app_assoc; reflexivity.
Qed.

(** Nothing in the way: [run_scan] returns, and this is the world it
    leaves. *)
Lemma run_scan_ok (scan_command : list string) (target : string) (w : World)
      (prog : program) :
  scan_runs scan_command target w prog →
  ∃ st,
    read_loop {| completed := Int 0; log_file := "";
                 console := w_console w ++ scan_header scan_command target |}
              (stdout_lines (prog (tl (scan_argv scan_command target)))) true
    = (st, None)
    ∧ log_file st = logged (stdout_lines (prog (tl (scan_argv scan_command target))))
    ∧ run_scan scan_command target w =
        Ok {| w_fs := <[log_name target (now w) := File (log_file st)]> (w_fs w);
              w_console :=
                console st
                ++ scan_report (log_name target (now w))
                     (returncode (prog (tl (scan_argv scan_command target))));
              w_stdin := w_stdin w;
              w_clock := w_clock w;
              w_ticks := S (w_ticks w);
              w_path := w_path w;
              w_spawned := w_spawned w ++ [scan_argv scan_command target];
              w_task := Int 100 |}.
Proof.
  intros (Hnul & Hpath & Hlog & Hdec & Hhead & Hlines & Hrep).
  destruct (read_loop_shown _ true Hlines
              {| completed := Int 0; log_file := "";
                 console := w_console w ++ scan_header scan_command target |})
    as [Hout Hlogged].
  cbn [log_file] in Hlogged.
  destruct (read_loop _ (stdout_lines (prog (tl (scan_argv scan_command target)))) true)
    as [st out] eqn:Hloop.
  cbn [fst snd] in Hout, Hlogged. subst out.
  exists st. split; [reflexivity |]. split; [exact Hlogged |].
  rewrite run_scan_cases. cbn zeta.
  rewrite Hhead, Hnul, Hpath, Hdec, Hloop, Hrep. cbn [negb fst snd].
  destruct (w_fs w !! log_name target (now w)) as [[c| |]|]; congruence.
Qed.

(** When [run_scan] returns, nothing was in the way, and this is the
    world it leaves. *)
Lemma run_scan_inv (scan_command : list string) (target : string) (w w' : World) :
  run_scan scan_command target w = Ok w' →
  ∃ prog st,
    existsb has_nul (scan_argv scan_command target) = false
    ∧ w_path w !! hd "" (scan_argv scan_command target) = Some prog
    ∧ w_fs w !! log_name target (now w) ≠ Some Locked
    ∧ forallb accepted (scan_header scan_command target) = true
    ∧ read_loop {| completed := Int 0; log_file := "";
                   console := w_console w ++ scan_header scan_command target |}
                (stdout_lines (prog (tl (scan_argv scan_command target))))
                (decodes (prog (tl (scan_argv scan_command target))))
      = (st, None)
    ∧ forallb accepted
        (scan_report (log_name target (now w))
           (returncode (prog (tl (scan_argv scan_command target))))) = true
    ∧ w' =
        {| w_fs := <[log_name target (now w) := File (log_file st)]> (w_fs w);
           w_console :=
             console st
             ++ scan_report (log_name target (now w))
                  (returncode (prog (tl (scan_argv scan_command target))));
           w_stdin := w_stdin w;
           w_clock := w_clock w;
           w_ticks := S (w_ticks w);
           w_path := w_path w;
           w_spawned := w_spawned w ++ [scan_argv scan_command target];
           w_task := Int 100 |}.
Proof.
  intros H. rewrite run_scan_cases in H. cbn zeta in H.
  destruct (forallb accepted (scan_header scan_command target)) eqn:Hhead;
    [| discriminate H].
  destruct (existsb has_nul (scan_argv scan_command target)) eqn:Hnul; [discriminate H |].
  destruct (w_path w !! hd "" (scan_argv scan_command target)) as [prog|] eqn:Hpath;
    [| discriminate H].
  cbn [negb] in H.
  destruct (w_fs w !! log_name target (now w)) as [[c| |]|] eqn:Hl;
    [ | | discriminate H | ];
    (destruct (read_loop _ (stdout_lines (prog (tl (scan_argv scan_command target))))
                (decodes (prog (tl (scan_argv scan_command target))))) as [st out] eqn:Hloop;
     cbn [fst snd] in H;
     destruct out as [e|]; [discriminate H |];
     destruct (forallb accepted
                 (scan_report (log_name target (now w))
                    (returncode (prog (tl (scan_argv scan_command target)))))) eqn:Hrep;
     [| discriminate H];
     inversion H; exists prog, st; repeat split; try assumption; discriminate).
Qed.

End RunScan.

(** * The last-target store *)

Section Store.


Lemma save_last_ip_spec (t : string) (w : World) :
  w_fs w !! LAST_IP_FILE ≠ Some Locked →
  save_last_ip t w = Ok (set_fs (<[LAST_IP_FILE := File t]> (w_fs w)) w).
Proof.
  intros H. unfold save_last_ip, write_file.
  change (has_nul LAST_IP_FILE) with false. cbn iota.
  destruct (w_fs w !! LAST_IP_FILE) as [[c| |]|]; congruence.
Qed.

Lemma load_last_ip_cases (w : World) :
  load_last_ip w =
    match w_fs w !! LAST_IP_FILE with
    | None => Ok None
    | Some (File content) => Ok (Some (Str.strip (universal_newlines content)))
    | Some Garbled => Raise UnicodeDecodeError
    | Some Locked => Raise OSError
    end.
Proof.
  unfold load_last_ip, path_exists, read_file.
  destruct (w_fs w !! LAST_IP_FILE) as [[c| |]|]; reflexivity.
Qed.

Lemma load_last_ip_fs (w w' : World) :
  w_fs w = w_fs w' → load_last_ip w = load_last_ip w'.
Proof.
  unfold load_last_ip, path_exists, read_file. now intros ->.
Qed.

Lemma load_last_ip_ok (w : World) (last_ip : option string) :
  load_last_ip w = Ok last_ip → w_fs w !! LAST_IP_FILE ≠ Some Locked.
Proof.
  rewrite load_last_ip_cases.
  destruct (w_fs w !! LAST_IP_FILE) as [[c| |]|]; simpl; congruence.
Qed.

End Store.

(** * The menu *)

Section Menu.

Lemma scans_get_inv (key : string) (scan : Scan) :
  scans_get key SCANS = Some scan →
  String.eqb key "x" = false ∧ String.eqb key "e" = false
  ∧ In (key, scan) SCANS
  ∧ ∃ args, command scan = "nmap" :: args.
Proof.
  unfold SCANS. cbn [scans_get]. intros H.
  repeat match type of H with
         | (if String.eqb ?k key then _ else _) = _ =>
             let E := fresh "E" in
             destruct (String.eqb k key) eqn:E;
             [apply String.eqb_eq in E; subst key; inversion H; subst scan;
              repeat split; [cbn [In]; tauto | eexists; reflexivity] |]
         end.
  discriminate H.
Qed.

Lemma explain_scans_spec (w : World) :
  explain_scans w =
    match w_stdin w with
    | [] => Raise EOFError
    | ack :: rest => Ok (set_stdin rest (set_console (w_console w ++ explanations) w))
    end.
Proof.
  unfold explain_scans, SCANS. cbn [for_each fst snd name command description].
  repeat (rewrite print_plain by reflexivity; cbn [bind]).
  unfold input. world_simpl.
  destruct (w_stdin w) as [|ack rest]; [reflexivity |].
  cbn [bind snd]. f_equal. apply world_ext; world_simpl; try reflexivity.
  rewrite <- !app_assoc. reflexivity.
Qed.

(** One round: the menu is shown, the choice is read, the rest follows. *)
Lemma menu_round (w : World) :
  menu w =
    match w_stdin w with
    | [] => Raise EOFError
    | l :: rest => menu_body (Str.lower (Str.strip l)) (at_choice w rest)
    end.
Proof.
  change (menu w) with
    (let w := show Clear w in
     let* w := print_banner w in
     let* w :=
       for_each
         (fun kv w => print ("[yellow]" +:+ fst kv +:+ ".[/yellow] " +:+ name (snd kv)) w)
         SCANS w in
     let* w := print "[cyan]E.[/cyan] Explain Scan Types" w in
     let* w := print "[red]X.[/red] Exit" w in
     let* rw := ask (Str.LF +:+ "Select a scan option") w in
     menu_body (Str.lower (Str.strip (fst rw))) (snd rw)).
  cbn zeta. unfold print_banner. rewrite (accepts_plain banner eq_refl). cbn [bind].
  unfold SCANS. cbn [for_each fst snd name].
  repeat (rewrite print_plain by reflexivity; cbn [bind]).
  unfold ask. rewrite (accepts_plain (Str.LF +:+ "Select a scan option") eq_refl).
  world_simpl.
  destruct (w_stdin w) as [|l rest]; [reflexivity |].
  cbn [bind fst snd]. rewrite strip_idem. f_equal. unfold at_choice.
  apply world_ext; world_simpl; try reflexivity.
  rewrite <- !app_assoc. reflexivity.
Qed.



Lemma menu_explain (w : World) (l : string) (rest : list string) :
  w_stdin w = l :: rest → Str.lower (Str.strip l) = "e" →
  menu w = explain_scans (at_choice w rest).
Proof.
  intros Hstdin He. rewrite menu_round, Hstdin, He. reflexivity.
Qed.

Lemma menu_unknown (w : World) (l : string) (rest : list string) :
  w_stdin w = l :: rest →
  Str.lower (Str.strip l) ≠ "x" → Str.lower (Str.strip l) ≠ "e" →
  scans_get (Str.lower (Str.strip l)) SCANS = None →
  menu w = Ok (show (Print "[bold red]Invalid selection.[/bold red]") (at_choice w rest)).
Proof.
  intros Hstdin Hx He Hscan. rewrite menu_round, Hstdin. unfold menu_body.
  apply eqb_neq in Hx, He. rewrite Hx, He, Hscan.
  now rewrite print_plain by reflexivity.
Qed.

(** A round whose choice names [scan], up to the target: the store is
    read, the target asked for. *)
Lemma menu_scan_choice (w : World) (l : string) (rest : list string) (scan : Scan) :
  w_stdin w = l :: rest →
  scans_get (Str.lower (Str.strip l)) SCANS = Some scan →
  menu w =
    match load_last_ip w with
    | Raise e => Raise e
    | Ok last_ip =>
        if accepts (target_prompt last_ip) then
          match rest with
          | [] => Raise EOFError
          | t :: rest' =>
              match validate_ip (chosen_target last_ip t) with
              | Raise e => Raise e
              | Ok false =>
                  Ok (show (Print "[bold red]Invalid IP format.[/bold red]")
                        (at_target w last_ip rest'))
              | Ok true =>
                  match w_path w !! "nmap" with
                  | None =>
                      Ok (show (Print "[bold red]Error:[/bold red] nmap is not installed.")
                            (at_scan w last_ip (chosen_target last_ip t) rest'))
                  | Some _ =>
                      let* w' :=
                        run_scan (command scan) (chosen_target last_ip t)
                                 (at_scan w last_ip (chosen_target last_ip t) rest') in
                      let* rw := input (Str.LF +:+ "Press Enter to return to menu...") w' in
                      Ok (snd rw)
                  end
              end
          end
        else Raise MarkupError
    end.
Proof.
  intros Hstdin Hscan. rewrite menu_round, Hstdin. unfold menu_body.
  destruct (scans_get_inv _ _ Hscan) as (Hx & He & _).
  rewrite Hx, He, Hscan.
  rewrite (load_last_ip_fs (at_choice w rest) w) by reflexivity.
  destruct (load_last_ip w) as [last_ip | e] eqn:Hload; cbn [bind]; [| reflexivity].
  fold (target_prompt last_ip). unfold ask.
  destruct (accepts (target_prompt last_ip)); [| reflexivity].
  unfold at_choice at 1. world_simpl.
  destruct rest as [|t rest']; [reflexivity |].
  cbn [bind fst snd]. rewrite strip_idem. fold (chosen_target last_ip t).
  assert (Hw1 : set_stdin rest' (show (PromptAsk (target_prompt last_ip))
                                   (at_choice w (t :: rest')))
                = at_target w last_ip rest').
  { unfold at_target, at_choice. apply world_ext; world_simpl; try reflexivity.
    now rewrite <- app_assoc. }
  rewrite Hw1.
  destruct (validate_ip (chosen_target last_ip t)) as [[|] | e]; cbn [bind negb];
    [| now rewrite print_plain by reflexivity | reflexivity].
  rewrite save_last_ip_spec
    by (unfold at_target; world_simpl; exact (load_last_ip_ok _ _ Hload)).
  cbn [bind].
  change (set_fs (<[LAST_IP_FILE := File (chosen_target last_ip t)]>
                    (w_fs (at_target w last_ip rest'))) (at_target w last_ip rest'))
    with (at_scan w last_ip (chosen_target last_ip t) rest').
  unfold check_nmap.
  assert (Hp : w_path (at_scan w last_ip (chosen_target last_ip t) rest') = w_path w)
    by reflexivity.
  rewrite Hp.
  destruct (w_path w !! "nmap") as [prog|]; cbn [bind fst snd].
  - reflexivity.
  - now rewrite print_plain by reflexivity.
Qed.



End Menu.

(** * The claims *)

(** C4.  [validate_ip] never raises, and it answers [True] exactly for the
    strings that [ipaddress] parses as a single IPv4 or IPv6 address or as a
    network [address/prefix] (parsed without [strict], as the code asks);
    hostnames, octets out of range and so on are answered [False].  It is a
    function of its argument alone. *)
Theorem validate_ip_parses :
  (∀ s : string,
     ∃ b : bool,
       validate_ip s = Ok b
       ∧ (b = true ↔
          (∃ a, Ipaddress.ip_address s = Ok a) ∨ (∃ n, Ipaddress.ip_network s false = Ok n)))
  ∧ validate_ip "192.168.1.1" = Ok true
  ∧ validate_ip "10.0.0.0/24" = Ok true
  ∧ validate_ip "not-an-ip" = Ok false
  ∧ validate_ip "999.1.1.1" = Ok false
  ∧ validate_ip "10.0.0.0/33" = Ok false.
Proof.
  split; [| repeat split; vm_compute; reflexivity].
  intros s. eexists. split; [apply validate_ip_cases |].
  destruct (Str.contains "/" s) eqn:Hs.
  - destruct (Ipaddress.ip_network s false) as [n | e] eqn:Hn.
    + split; [eauto | reflexivity].
    + split; [discriminate |].
      intros [[a Ha] | [n Hn']]; [| discriminate].
      apply ip_address_no_slash in Ha. congruence.
  - destruct (Ipaddress.ip_address s) as [a | e] eqn:Ha.
    + split; [eauto | reflexivity].
    + split; [discriminate |].
      intros [[a Ha'] | [n Hn]]; [discriminate |].
      destruct (ip_network_no_slash s n Hs Hn) as [a Ha']. congruence.
Qed.

(** Without [strict], a valid IPv4 address followed by a slash and a valid
    prefix length is a network, whatever bits the address has beyond the
    prefix: they are masked off. *)
Lemma v4_network_lax (addr p : string) (ip n : Z) :
  Ipaddress.v4_address addr = Ok ip →
  Ipaddress.prefix_from_prefix_string 32 p = Ok n →
  Ipaddress.ip_network (addr +:+ "/" +:+ p) false
  = Ok (Ipaddress.IPv4Network (Z.land ip (Ipaddress.ip_int_from_prefix 32 n)) n).
Proof.
  intros Haddr Hp.
  assert (Hna : Str.contains "/" addr = false).
  { unfold Ipaddress.v4_address in Haddr. destruct (Str.contains "/" addr); congruence. }
  assert (Hnp : Str.contains "/" p = false).
  { apply digits_without_slash.
    unfold Ipaddress.prefix_from_prefix_string in Hp.
    destruct (Str.isdecimal p) eqn:Hd; [| discriminate].
    now destruct (isdecimal_inv p Hd). }
  unfold Ipaddress.ip_network, Ipaddress.v4_network, Ipaddress.split_addr_prefix.
  change (addr +:+ "/" +:+ p) with (addr +:+ String "/" p).
  rewrite (split_at_sep "/" addr p Hna), (split_without "/" p Hnp).
  cbn [bind fst snd]. rewrite Haddr. cbn [bind].
  unfold Ipaddress.v4_make_netmask. rewrite Hp. cbn [bind fst snd].
  destruct (Z.land ip (Ipaddress.ip_int_from_prefix 32 n) =? ip)%Z eqn:Hmask; cbn [negb].
  - apply Z.eqb_eq in Hmask. now rewrite Hmask.
  - reflexivity.
Qed.

(** C10.  A network whose address has host bits set beyond the prefix is
    accepted: [validate_ip "192.168.1.5/24"] is [True], the network parsed
    is 192.168.1.0/24 although the address written is 192.168.1.5, and the
    same string is refused by the strict parsing that the code turns off.
    More generally every valid IPv4 address followed by a slash and a prefix
    length from 0 to 32 is accepted, whatever its host bits. *)
Theorem validate_ip_host_bits :
  validate_ip "192.168.1.5/24" = Ok true
  ∧ Ipaddress.ip_network "192.168.1.5/24" false = Ok (Ipaddress.IPv4Network 3232235776 24)
  ∧ Ipaddress.ip_address "192.168.1.5" = Ok (Ipaddress.IPv4Address 3232235781)
  ∧ Ipaddress.ip_address "192.168.1.0" = Ok (Ipaddress.IPv4Address 3232235776)
  ∧ Ipaddress.ip_network "192.168.1.5/24" true = Raise ValueError
  ∧ (∀ (addr p : string) (ip n : Z),
       Ipaddress.v4_address addr = Ok ip →
       Ipaddress.prefix_from_prefix_string 32 p = Ok n →
       validate_ip (addr +:+ "/" +:+ p) = Ok true).
Proof.
  do 5 (split; [vm_compute; reflexivity |]).
  intros addr p ip n Haddr Hp.
  rewrite validate_ip_cases, (v4_network_lax addr p ip n Haddr Hp).
  assert (Hs : Str.contains "/" (addr +:+ "/" +:+ p) = true).
  { apply contains_occurs. now exists addr, p. }
  now rewrite Hs.
Qed.

(** C1.  A line in whose trimmed form the progress pattern finds a match
    sets the progress count to the float of what the pattern captured, is
    written trimmed to the log, and adds nothing to the console.  The
    pattern finds a match in every text that holds digits, a dot and digits
    directly followed by [% done]; when the text begins with them, the count
    is set to the binary64 number nearest to that decimal.  So after the
    line ["45.00% done"], wherever it stands in a stream read so far without
    an exception, the count is the float 45.0, the log ends with the line
    and the console is as it was before the line. *)
Theorem progress_marker_consumed :
  (∀ (st : Live) (line : string) (m : Re.Match),
     Re.search progress_re (Str.strip line) = Some m →
     ∃ x,
       float (Re.group m 1) = Ok x
       ∧ process_line st line =
           Ok {| completed := Float x;
                 log_file := log_file st +:+ Str.strip line +:+ Str.LF;
                 console := console st |})
  ∧ (∀ (pre num post : string),
       decimal_literal num →
       Re.search progress_re (pre +:+ num +:+ "% done" +:+ post) ≠ None)
  ∧ (∀ (st : Live) (line i f post : string),
       Str.strip line = i +:+ "." +:+ f +:+ "% done" +:+ post →
       Str.isdecimal i = true → Str.isdecimal f = true →
       process_line st line =
         Ok {| completed := Float (nearest_binary64 i f);
               log_file := log_file st +:+ Str.strip line +:+ Str.LF;
               console := console st |})
  ∧ (∀ (st st1 : Live) (before : list string) (decodes : bool),
       read_loop st before true = (st1, None) →
       read_loop st (before ++ ["45.00% done" +:+ Str.LF]) decodes =
         ({| completed := Float (nearest_binary64 "45" "00");
             log_file := log_file st1 +:+ "45.00% done" +:+ Str.LF;
             console := console st1 |},
          if decodes then None else Some UnicodeDecodeError))
  ∧ value (Float (nearest_binary64 "45" "00")) = Some 45%Q.
Proof.
  split; [| split; [| split; [| split; [| vm_compute; reflexivity]]]].
  - intros st line m Hm.
    destruct (process_line_float st line m Hm) as (x & Hx & _ & Hrun). eauto.
  - intros pre num post Hnum.
    destruct (progress_search_complete pre num post Hnum) as [m ->]. discriminate.
  - intros st line i f post Heq Hi Hf.
    destruct (marker_at_start i f post Hi Hf) as (m & Hm & Hg).
    rewrite <- Heq in Hm.
    destruct (process_line_float st line m Hm) as (x & Hx & _ & Hrun).
    rewrite Hg, (float_decimal i f Hi Hf) in Hx. injection Hx as <-. exact Hrun.
  - intros st st1 before d Hrun.
    rewrite read_loop_app, Hrun. cbn [fst snd]. reflexivity.
Qed.

(** C2.  A line that is empty once trimmed changes nothing.  A line that is
    not is appended trimmed to the log whatever branch classifies it: the
    write comes first, so the line is in the log also when the print that
    follows raises.  After any stream the log holds, in order, the trimmed
    non-blank lines read, up to and including the line whose print raised,
    if one did; a stream whose every line [rich] renders is logged whole. *)
Theorem every_line_logged :
  (∀ (st : Live) (line : string), Str.strip line = "" → process_line st line = Ok st)
  ∧ (∀ (st : Live) (line : string),
       Str.strip line ≠ "" →
       (∃ st', process_line st line = Ok st'
               ∧ log_file st' = log_file st +:+ Str.strip line +:+ Str.LF)
       ∨ (process_line st line = Raise MarkupError
          ∧ log_file (written st line) = log_file st +:+ Str.strip line +:+ Str.LF))
  ∧ (∀ (st : Live) (lines : list string) (decodes : bool),
       ∃ read rest,
         lines = read ++ rest
         ∧ log_file (fst (read_loop st lines decodes)) = log_file st +:+ logged read
         ∧ (snd (read_loop st lines decodes) = None → rest = [])
         ∧ (rest ≠ [] → snd (read_loop st lines decodes) = Some MarkupError)
         ∧ (snd (read_loop st lines decodes) = Some MarkupError →
            ∃ before line e,
              read = before ++ [line] ∧ Str.strip line ≠ ""
              ∧ shown_for (Str.strip line) = Some e ∧ accepted e = false))
  ∧ (∀ (st : Live) (lines : list string),
       forallb line_shown lines = true →
       snd (read_loop st lines true) = None
       ∧ log_file (fst (read_loop st lines true)) = log_file st +:+ logged lines).
Proof.
  split; [exact process_line_blank |]. split; [| split].
  - intros st line Hne.
    pose proof (process_line_spec st line) as Hspec.
    pose proof (proj1 (written_spec st line)) as Hw.
    apply eqb_neq in Hne. rewrite Hne in Hw.
    destruct (process_line st line) as [st' | x].
    + left. exists st'. destruct Hspec as (Hlog & _). rewrite Hne in Hlog. auto.
    + right. destruct Hspec as (-> & _). auto.
  - intros st lines d.
    destruct (read_loop_spec lines d st) as (read & rest & Heq & Hlog & _ & Hout).
    exists read, rest. split; [exact Heq |]. split; [exact Hlog |].
    destruct (snd (read_loop st lines d)) as [x|].
    + split; [discriminate |]. split.
      * intros Hrest.
        destruct Hout as [(_ & Hnil & _) | (-> & _)]; [contradiction | reflexivity].
      * intros Hx.
        destruct Hout as [(-> & _) | (_ & before & line & e & Hread & Hne & _ & He & Ha)];
          [discriminate Hx |].
        exists before, line, e. auto.
    + destruct Hout as [Hnil _]. split; [auto |]. split; [contradiction | discriminate].
  - intros st lines Hall. exact (read_loop_shown lines true Hall st).
Qed.

(** C7.  A line that holds [Stats:] and that none of the earlier tests
    takes (no progress marker, no port prefix, no OS or service detail, no
    leading bar) is written trimmed to the log and is not printed; the line
    ["Stats: 10 hosts"] is such a line. *)
Theorem stats_line_suppressed :
  (∀ (st : Live) (line : string),
     occurs_in "Stats:" (Str.strip line) →
     Re.search progress_re (Str.strip line) = None →
     Re.match_ port_re (Str.strip line) = None →
     Str.contains "OS details:" (Str.strip line) = false →
     Str.contains "Service Info:" (Str.strip line) = false →
     Str.startswith (Str.strip line) "|" = false →
     process_line st line =
       Ok {| completed := completed st;
             log_file := log_file st +:+ Str.strip line +:+ Str.LF;
             console := console st |})
  ∧ (∀ st : Live,
       process_line st ("Stats: 10 hosts" +:+ Str.LF) =
         Ok {| completed := completed st;
               log_file := log_file st +:+ "Stats: 10 hosts" +:+ Str.LF;
               console := console st |}).
Proof.
  assert (Hgen : ∀ (st : Live) (line : string),
     occurs_in "Stats:" (Str.strip line) →
     Re.search progress_re (Str.strip line) = None →
     Re.match_ port_re (Str.strip line) = None →
     Str.contains "OS details:" (Str.strip line) = false →
     Str.contains "Service Info:" (Str.strip line) = false →
     Str.startswith (Str.strip line) "|" = false →
     process_line st line =
       Ok {| completed := completed st;
             log_file := log_file st +:+ Str.strip line +:+ Str.LF;
             console := console st |}).
  { intros st line Hstats Hprog Hport Hos Hsvc Hbar.
    apply contains_occurs in Hstats.
    unfold process_line. rewrite Hprog, Hport, Hos, Hsvc, Hbar, Hstats. simpl.
    destruct (String.eqb (Str.strip line) "") eqn:Hb; [| reflexivity].
    apply eqb_empty in Hb. rewrite Hb in Hstats. discriminate Hstats. }
  split; [exact Hgen |].
  intros st. apply (Hgen st ("Stats: 10 hosts" +:+ Str.LF)); try reflexivity.
  now exists "", " 10 hosts".
Qed.


(** C9, as the code has it.  [load_last_ip] returns the absent value when
    [.last_target] does not exist, and only then; when the file exists and
    holds text it returns the text, stripped; when the file exists and its
    bytes are not text, [UnicodeDecodeError] leaves [load_last_ip]; when the
    file exists and cannot be opened, [OSError] does. *)
Theorem load_last_ip_outcomes :
  ∀ w : World,
    (load_last_ip w = Ok None ↔ w_fs w !! LAST_IP_FILE = None)
    ∧ (∀ content,
         w_fs w !! LAST_IP_FILE = Some (File content) →
         load_last_ip w = Ok (Some (Str.strip (universal_newlines content))))
    ∧ (w_fs w !! LAST_IP_FILE = Some Garbled → load_last_ip w = Raise UnicodeDecodeError)
    ∧ (w_fs w !! LAST_IP_FILE = Some Locked → load_last_ip w = Raise OSError).
Proof.
  intros w. rewrite load_last_ip_cases.
  destruct (w_fs w !! LAST_IP_FILE) as [[c| |]|]; repeat split; congruence.
Qed.




(** * Further properties of the read loop *)

Section LoopInvariants.


Lemma rendered_from_cons (l : string) (lines : list string) (e : shown) :
  rendered_from lines e → rendered_from (l :: lines) e.
Proof.
  intros (line & Hin & H). exists line. split; [now right | exact H].
Qed.

Lemma logged_occurs (lines : list string) (line : string) :
  In line lines → Str.strip line ≠ "" →
  occurs_in (Str.strip line +:+ Str.LF) (logged lines).
Proof.
  induction lines as [|l lines IH]; intros Hin Hne; [contradiction |].
  cbn [logged]. destruct Hin as [-> | Hin].
  - apply eqb_neq in Hne. rewrite Hne.
    exists "", (logged lines). reflexivity.
  - destruct (IH Hin Hne) as (pre & post & Heq).
    eexists (_ +:+ pre), post. rewrite Heq. apply eq_sym, str_app_assoc.
Qed.

(** A loop that reaches the end of its stream has logged all of it. *)
Lemma read_loop_whole (lines : list string) (d : bool) (st st' : Live) :
  read_loop st lines d = (st', None) → log_file st' = log_file st +:+ logged lines.
Proof.
  intros Hrun.
  destruct (read_loop_spec lines d st) as (read & rest & Heq & Hlog & _ & Hout).
  rewrite Hrun in Hlog, Hout. cbn [fst snd] in Hlog, Hout.
  destruct Hout as [-> _]. rewrite app_nil_r in Heq. now subst read.
Qed.

End LoopInvariants.


(** X2.  A trimmed line in which the progress pattern finds nothing, that
    the port pattern does not match and that contains [OS details:] or
    [Service Info:] is written to the log and printed once, with the arrow,
    even if it also begins with a bar or contains [Stats:]; when [rich]
    refuses the print, [MarkupError] leaves the body. *)
Theorem detail_line_highlighted :
  ∀ (st : Live) (line : string),
    Re.search progress_re (Str.strip line) = None →
    Re.match_ port_re (Str.strip line) = None →
    occurs_in "OS details:" (Str.strip line) ∨ occurs_in "Service Info:" (Str.strip line) →
    process_line st line =
      if accepted (as_detail (Str.strip line)) then
        Ok {| completed := completed st;
              log_file := log_file st +:+ Str.strip line +:+ Str.LF;
              console := console st ++ [as_detail (Str.strip line)] |}
      else Raise MarkupError.
Proof.
  intros st line Hm Hp Ho.
  assert (Hc : Str.contains "OS details:" (Str.strip line)
               || Str.contains "Service Info:" (Str.strip line) = true).
  { apply orb_true_iff. destruct Ho as [Ho | Ho]; [left | right]; now apply contains_occurs. }
  assert (Hne : Str.strip line ≠ "").
  { intros E. rewrite E in Hc. discriminate Hc. }
  rewrite (process_line_unmarked st line Hne Hm).
  unfold shown_for. now rewrite Hp, Hc.
Qed.

(** X3.  A trimmed line that begins with a bar, in which the progress
    pattern finds nothing and that contains neither [OS details:] nor
    [Service Info:], is written to the log and printed once as a script
    result (the port pattern cannot match it); the [Stats:] filter is not
    applied to it.  When [rich] refuses the print, [MarkupError] leaves the
    body. *)
Theorem script_line_shown :
  ∀ (st : Live) (line rest : string),
    Str.strip line = "|" +:+ rest →
    Re.search progress_re (Str.strip line) = None →
    ¬ occurs_in "OS details:" (Str.strip line) →
    ¬ occurs_in "Service Info:" (Str.strip line) →
    process_line st line =
      if accepted (as_script (Str.strip line)) then
        Ok {| completed := completed st;
              log_file := log_file st +:+ Str.strip line +:+ Str.LF;
              console := console st ++ [as_script (Str.strip line)] |}
      else Raise MarkupError.
Proof.
  intros st line rest Hbar Hm Hos Hsvc.
  assert (Hp : ¬ port_prefix (Str.strip line)).
  { intros (d & proto & r & Heq & Hd & _). rewrite Hbar in Heq.
    destruct (isdecimal_inv d Hd) as [Hne Hall].
    destruct d as [|c d]; [congruence |].
    simpl in Heq. inversion Heq; subst c. discriminate Hall. }
  assert (Hne : Str.strip line ≠ "") by (rewrite Hbar; discriminate).
  rewrite (process_line_unmarked st line Hne Hm).
  unfold shown_for.
  now rewrite (no_port_prefix _ Hp), (no_occurrence _ _ Hos), (no_occurrence _ _ Hsvc),
    (proj2 (startswith_bar _) (ex_intro _ rest Hbar)).
Qed.

(** X4.  A trimmed line that is not empty and that no test takes (the
    progress pattern finds nothing, the port pattern does not match, no OS
    or service detail, no leading bar, no [Stats:]) is written to the log
    and printed once, dimmed; when [rich] refuses the print, [MarkupError]
    leaves the body. *)
Theorem plain_line_dimmed :
  ∀ (st : Live) (line : string),
    Str.strip line ≠ "" →
    Re.search progress_re (Str.strip line) = None →
    Re.match_ port_re (Str.strip line) = None →
    ¬ occurs_in "OS details:" (Str.strip line) →
    ¬ occurs_in "Service Info:" (Str.strip line) →
    (∀ rest, Str.strip line ≠ "|" +:+ rest) →
    ¬ occurs_in "Stats:" (Str.strip line) →
    process_line st line =
      if accepted (as_plain (Str.strip line)) then
        Ok {| completed := completed st;
              log_file := log_file st +:+ Str.strip line +:+ Str.LF;
              console := console st ++ [as_plain (Str.strip line)] |}
      else Raise MarkupError.
Proof.
  intros st line Hne Hm Hp Hos Hsvc Hbar Hstats.
  assert (Hb : Str.startswith (Str.strip line) "|" = false).
  { destruct (Str.startswith (Str.strip line) "|") eqn:E; [| reflexivity].
    apply startswith_bar in E as [rest E]. now destruct (Hbar rest). }
  rewrite (process_line_unmarked st line Hne Hm).
  unfold shown_for.
  now rewrite Hp, (no_occurrence _ _ Hos), (no_occurrence _ _ Hsvc),
    Hb, (no_occurrence _ _ Hstats).
Qed.

(** X5.  The loop only ever adds to the console, at most one entry per line
    read, and each entry added is one of the four renderings of a line of
    the stream that is not blank and in which the progress pattern finds
    nothing, and one that [rich] rendered: a marker line is never printed,
    nothing already on the console is changed.  When the loop reaches the end of the stream, every
    line that is not blank is in the log, so nothing is shown that is not
    logged. *)
Theorem read_loop_console :
  ∀ (st : Live) (lines : list string) (decodes : bool),
    ∃ added,
      console (fst (read_loop st lines decodes)) = console st ++ added
      ∧ (length added <= length lines)%nat
      ∧ Forall (rendered_from lines) added
      ∧ Forall (λ e, accepted e = true) added
      ∧ (snd (read_loop st lines decodes) = None →
         ∀ line, In line lines → Str.strip line ≠ "" →
                 occurs_in (Str.strip line +:+ Str.LF)
                           (log_file (fst (read_loop st lines decodes)))).
Proof.
  intros st lines d.
  assert (Hmain : ∃ added,
      console (fst (read_loop st lines d)) = console st ++ added
      ∧ (length added <= length lines)%nat
      ∧ Forall (rendered_from lines) added
      ∧ Forall (λ e, accepted e = true) added).
  { revert st. induction lines as [|line lines IH]; intros st; cbn [read_loop].
    - exists []. cbn [fst]. rewrite app_nil_r. repeat split; [simpl; lia | constructor | constructor].
    - pose proof (process_line_spec st line) as Hspec.
      destruct (process_line st line) as [st1 | x].
      + destruct Hspec as (_ & _ & _ & Hcon).
        destruct (IH st1) as (added & Hadd & Hlen & Hall & Hacc).
        assert (Hall' : Forall (rendered_from (line :: lines)) added).
        { eapply Forall_impl; [exact Hall |]. intros e. apply rendered_from_cons. }
        destruct Hcon as [Hsame | (Hne & Hs & e & Hcon & He & Ha)].
        * exists added. rewrite Hadd, Hsame. repeat split; [simpl; lia | exact Hall' | exact Hacc].
        * exists (e :: added). rewrite Hadd, Hcon, <- app_assoc.
          repeat split; [simpl; lia | | now constructor].
          constructor; [| exact Hall'].
          exists line. repeat split; [now left | exact Hne | exact Hs |].
          now apply shown_for_cases.
      + exists []. cbn [fst]. rewrite app_nil_r.
        repeat split; [apply written_spec | simpl; lia | constructor | constructor]. }
  destruct Hmain as (added & Hadd & Hlen & Hall & Hacc).
  exists added. repeat split; try assumption.
  intros Hend line Hin Hne.
  destruct (read_loop st lines d) as [st' out] eqn:Hrun. cbn [fst snd] in *. subst out.
  rewrite (read_loop_whole lines d st st' Hrun).
  destruct (logged_occurs lines line Hin Hne) as (pre & post & Heq).
  exists (log_file st +:+ pre), post. rewrite Heq. apply eq_sym, str_app_assoc.
Qed.

(** X6.  Lines in which the progress pattern finds nothing never change the
    count: after any stream, and whether or not the loop was stopped by an
    exception, the count is what it was after the last line that held a
    marker (or at the start when none did). *)
Theorem count_kept_without_marker :
  ∀ (st : Live) (before after : list string) (decodes : bool),
    Forall (λ line, Re.search progress_re (Str.strip line) = None) after →
    completed (fst (read_loop st (before ++ after) decodes))
    = completed (fst (read_loop st before true)).
Proof.
  intros st before after d Hno.
  rewrite read_loop_app.
  destruct (snd (read_loop st before true)); [reflexivity |].
  now apply read_loop_count.
Qed.

(** * Further properties of run_scan *)

(** X7.  The name of the log file never contains a slash, whatever the
    target, and for one target two different seconds give two different
    names. *)
Theorem log_name_safe :
  (∀ (target : string) (now : Z), Str.contains "/" (log_name target now) = false)
  ∧ (∀ (target : string) (a b : Z), a ≠ b → log_name target a ≠ log_name target b).
Proof.
  split.
  - intros target seconds. unfold log_name.
    rewrite !contains_char_app, of_Z_without_slash, replace_removes by discriminate.
    reflexivity.
  - intros target a b Hab H. apply Hab. unfold log_name in H.
    apply String.app_inj in H. apply String.app_inj in H. apply String.app_inj in H.
    apply str_app_inv_tail in H. now apply of_Z_inj.
Qed.

(** X8.  When [run_scan] returns, the log file holds exactly the trimmed
    non-blank lines the stream delivered, in order, each ended by a line
    feed, whatever the file held before (it is created empty when the child
    wrote nothing); no other file is touched, no input is read.  The lines
    are those of text mode: a carriage return ends a line as a line feed
    does. *)
Theorem run_scan_log_file :
  (∀ (scan_command : list string) (target : string) (w w' : World),
     run_scan scan_command target w = Ok w' →
     ∃ prog : program,
       w_path w !! hd "" (scan_argv scan_command target) = Some prog
       ∧ w_fs w' !! log_name target (now w)
         = Some (File (logged (stdout_lines (prog (tl (scan_argv scan_command target))))))
       ∧ (∀ name, name ≠ log_name target (now w) → w_fs w' !! name = w_fs w !! name)
       ∧ w_stdin w' = w_stdin w)
  ∧ (∀ (status : Z),
       stdout_lines {| stdout := "About 10.00% done" +:+ String "013" "About 20.00% done"
                                 +:+ String "013" (String "010" "");
                       decodes := true; returncode := status |}
       = ["About 10.00% done" +:+ Str.LF; "About 20.00% done" +:+ Str.LF]).
Proof.
  split; [| reflexivity].
  intros scan_command target w w' Hrun.
  destruct (run_scan_inv _ _ _ _ Hrun) as (prog & st & _ & Hpath & _ & _ & Hloop & _ & ->).
  exists prog. cbn [w_fs w_stdin]. split; [exact Hpath |].
  split; [| split; [| reflexivity]].
  - rewrite lookup_insert_eq, (read_loop_whole _ _ _ _ Hloop). reflexivity.
  - intros name Hne. now rewrite lookup_insert_ne.
Qed.



(** * Further properties of the last-target store *)

Section StoredText.

Lemma load_last_ip_strip (w : World) (s : string) :
  load_last_ip w = Ok (Some s) → ∃ content, s = Str.strip content.
Proof.
  rewrite load_last_ip_cases.
  destruct (w_fs w !! LAST_IP_FILE) as [[content| |]|]; try discriminate.
  intros H. inversion H. eauto.
Qed.

End StoredText.

(** X10.  What [load_last_ip] returns never has whitespace at either end:
    it is unchanged by a further [strip], its first character is not a
    space, and neither is its last. *)
Theorem load_last_ip_stripped :
  ∀ (w : World) (s : string),
    load_last_ip w = Ok (Some s) →
    Str.strip s = s
    ∧ (∀ c t, s = String c t → Str.isspace c = false)
    ∧ (∀ u c, s = u +:+ String c "" → Str.isspace c = false).
Proof.
  intros w s Hload.
  destruct (load_last_ip_strip w s Hload) as [content ->].
  split; [apply strip_idem |]. split.
  - intros c t Heq.
    destruct (strip_head content) as [He | (c' & t' & He & Hc)];
      rewrite He in Heq; [discriminate | inversion Heq; now subst].
  - intros u c Heq. unfold Str.strip in Heq. now apply rstrip_last in Heq.
Qed.

(** * Further properties of the menu *)

Section MenuRounds.

Lemma menu_invalid_target (w : World) (l t : string) (rest : list string)
      (scan : Scan) (last_ip : option string) :
  w_stdin w = l :: t :: rest →
  scans_get (Str.lower (Str.strip l)) SCANS = Some scan →
  load_last_ip w = Ok last_ip →
  accepts (target_prompt last_ip) = true →
  validate_ip (chosen_target last_ip t) = Ok false →
  menu w = Ok (show (Print "[bold red]Invalid IP format.[/bold red]")
                 (at_target w last_ip rest)).
Proof.
  intros Hstdin Hscan Hload Hprompt Hvalid.
  rewrite (menu_scan_choice w l (t :: rest) scan Hstdin Hscan).
  now rewrite Hload, Hprompt, Hvalid.
Qed.





End MenuRounds.


(** X12.  A reply that, trimmed and lowercased, is none of [x], [e] and
    [1] to [6] (the empty reply included) makes the round print
    [Invalid selection.] and return: one reply is consumed, no file is
    touched and nothing is started. *)
Theorem menu_invalid_selection :
  ∀ (w : World) (l : string) (rest : list string),
    w_stdin w = l :: rest →
    ¬ In (Str.lower (Str.strip l)) ["x"; "e"; "1"; "2"; "3"; "4"; "5"; "6"] →
    ∃ w',
      menu w = Ok w'
      ∧ w_stdin w' = rest ∧ w_fs w' = w_fs w ∧ w_spawned w' = w_spawned w
      ∧ List.last (w_console w') Clear = Print "[bold red]Invalid selection.[/bold red]".
Proof.
  intros w l rest Hstdin Hnot.
  assert (Hx : Str.lower (Str.strip l) ≠ "x") by (intros E; apply Hnot; rewrite E; simpl; tauto).
  assert (He : Str.lower (Str.strip l) ≠ "e") by (intros E; apply Hnot; rewrite E; simpl; tauto).
  eexists. split.
  - apply (menu_unknown w l rest Hstdin Hx He).
    unfold SCANS. cbn [scans_get].
    repeat match goal with
           | |- (if String.eqb ?k ?key then _ else _) = None =>
               let E := fresh "E" in
               destruct (String.eqb k key) eqn:E;
               [apply String.eqb_eq in E; exfalso; apply Hnot; rewrite <- E; simpl; tauto |]
           end.
    reflexivity.
  - unfold at_choice. world_simpl. repeat split. apply last_last.
Qed.

(** X13.  When the target typed (anything but the letter [r]) does not
    validate, the round prints [Invalid IP format.] and returns, provided
    [rich] renders the prompt for the target: the last-target file keeps
    what it had, nothing is started, and the line that would have
    acknowledged the scan is left unread. *)
Theorem menu_rejects_target :
  ∀ (w : World) (l t : string) (rest : list string) (scan : Scan) (last_ip : option string),
    w_stdin w = l :: t :: rest →
    scans_get (Str.lower (Str.strip l)) SCANS = Some scan →
    load_last_ip w = Ok last_ip →
    accepts (target_prompt last_ip) = true →
    Str.lower (Str.strip t) ≠ "r" →
    validate_ip (Str.strip t) = Ok false →
    ∃ w',
      menu w = Ok w'
      ∧ w_stdin w' = rest ∧ w_fs w' = w_fs w ∧ w_spawned w' = w_spawned w
      ∧ List.last (w_console w') Clear = Print "[bold red]Invalid IP format.[/bold red]".
Proof.
  intros w l t rest scan last_ip Hstdin Hscan Hload Hprompt Hr Hvalid.
  eexists. split.
  - apply (menu_invalid_target w l t rest scan last_ip Hstdin Hscan Hload Hprompt).
    unfold chosen_target. apply eqb_neq in Hr. rewrite Hr. exact Hvalid.
  - unfold at_target. world_simpl. repeat split. apply last_last.
Qed.




(** X17.  The choice [e] shows, for every entry of [SCANS], its key and
    name, its command joined by blanks and its description, waits for one
    line of acknowledgement and returns; no file is touched and nothing is
    started. *)
Theorem menu_explains :
  ∀ (w : World) (l ack : string) (rest : list string),
    w_stdin w = l :: ack :: rest →
    Str.lower (Str.strip l) = "e" →
    ∃ w',
      menu w = Ok w'
      ∧ w_stdin w' = rest ∧ w_fs w' = w_fs w ∧ w_spawned w' = w_spawned w
      ∧ List.last (w_console w') Clear = Ask "Press Enter to return to menu..."
      ∧ ∀ key scan,
          In (key, scan) SCANS →
          In (Print ("[yellow]" +:+ key +:+ ". " +:+ name scan +:+ "[/yellow]")) (w_console w')
          ∧ In (Print ("   Command: " +:+ Str.join " " (command scan))) (w_console w')
          ∧ In (Print ("   What it does: " +:+ description scan +:+ Str.LF)) (w_console w').
Proof.
  intros w l ack rest Hstdin He.
  eexists. split.
  - rewrite (menu_explain w l (ack :: rest) Hstdin He), explain_scans_spec.
    unfold at_choice. world_simpl. reflexivity.
  - unfold at_choice. world_simpl. repeat split.
    + unfold explanations. rewrite !app_assoc. apply last_last.
    + apply in_or_app. right. apply in_or_app. right. apply in_or_app. left.
      apply in_flat_map. exists (key, scan). split; [assumption | simpl; tauto].
    + apply in_or_app. right. apply in_or_app. right. apply in_or_app. left.
      apply in_flat_map. exists (key, scan). split; [assumption | simpl; tauto].
    + apply in_or_app. right. apply in_or_app. right. apply in_or_app. left.
      apply in_flat_map. exists (key, scan). split; [assumption | simpl; tauto].
Qed.

End Recon.

(** * Instances *)

Example ex_tagged_line :
  process_line plain_console live0 ("80/tcp open  http  [/bold]" +:+ Str.LF)
  = Raise MarkupError
  ∧ read_loop plain_console live0
      ["Starting Nmap 7.94" +:+ Str.LF;
       "80/tcp open  http  [/bold]" +:+ Str.LF;
       "Nmap done: 1 IP address (1 host up)" +:+ Str.LF] true
    = ({| completed := Int 0;
          log_file := "Starting Nmap 7.94" +:+ Str.LF
                      +:+ "80/tcp open  http  [/bold]" +:+ Str.LF;
          console := [Print "  [dim]Starting Nmap 7.94[/dim]"] |},
       Some MarkupError)
  ∧ run_scan plain_console ["nmap"] "10.0.0.1" (world_with nmap_tagged []) = Raise MarkupError
  ∧ run_scan plain_console ["nmap"] "10.0.0.1" (world_with nmap_garbled [])
    = Raise UnicodeDecodeError
  ∧ run_scan plain_console ["nmap"] ("fe80::1%" +:+ String "000" "") (world_with nmap_ok [])
    = Raise ValueError.
Proof. repeat split; vm_compute; reflexivity. Qed.

Lemma validate_ip_host_bits_witness :
  validate_ip ("10.1.2.3" +:+ "/" +:+ "8") = Ok true.
Proof.
  apply (proj2 (proj2 (proj2 (proj2 (proj2 validate_ip_host_bits))))
           "10.1.2.3" "8" 167838211%Z 8%Z).
  - vm_compute. reflexivity.
  - vm_compute. reflexivity.
Defined.

Lemma progress_marker_consumed_witness :
  (∃ x,
     float (Re.group {| Re.m_end := 17; Re.groups := ["45.00"] |} 1) = Ok x
     ∧ process_line plain_console live0 ("  About 45.00% done; ETC: 12:00" +:+ Str.LF) =
         Ok {| completed := Float x;
               log_file := log_file live0
                           +:+ Str.strip ("  About 45.00% done; ETC: 12:00" +:+ Str.LF)
                           +:+ Str.LF;
               console := console live0 |})
  ∧ Re.search progress_re ("About " +:+ "45.00" +:+ "% done" +:+ "; ETC: 12:00") ≠ None
  ∧ process_line plain_console live0 (" 0.10% done; ETC: 12:00" +:+ Str.LF) =
      Ok {| completed := Float (nearest_binary64 "0" "10");
            log_file := log_file live0
                        +:+ Str.strip (" 0.10% done; ETC: 12:00" +:+ Str.LF) +:+ Str.LF;
            console := console live0 |}
  ∧ read_loop plain_console live0
      (["Starting Nmap 7.94" +:+ Str.LF; "80/tcp open  http" +:+ Str.LF]
       ++ ["45.00% done" +:+ Str.LF]) true
    = ({| completed := Float (nearest_binary64 "45" "00");
          log_file := ("Starting Nmap 7.94" +:+ Str.LF +:+ "80/tcp open  http" +:+ Str.LF)
                      +:+ "45.00% done" +:+ Str.LF;
          console := [Print "  [dim]Starting Nmap 7.94[/dim]";
                      Print "[bold green]PORT FOUND: 80/tcp open  http[/bold green]"] |},
       None).
Proof.
  split; [| split; [| split]].
  - apply (proj1 (progress_marker_consumed plain_console) live0
             ("  About 45.00% done; ETC: 12:00" +:+ Str.LF)
             {| Re.m_end := 17; Re.groups := ["45.00"] |}).
    vm_compute. reflexivity.
  - apply (proj1 (proj2 (progress_marker_consumed plain_console))
             "About " "45.00" "; ETC: 12:00").
    exists "45", "00". repeat split; reflexivity.
  - apply (proj1 (proj2 (proj2 (progress_marker_consumed plain_console))) live0
             (" 0.10% done; ETC: 12:00" +:+ Str.LF) "0" "10" "; ETC: 12:00").
    + reflexivity.
    + reflexivity.
    + reflexivity.
  - apply (proj1 (proj2 (proj2 (proj2 (progress_marker_consumed plain_console)))) live0
             {| completed := Int 0;
                log_file := "Starting Nmap 7.94" +:+ Str.LF +:+ "80/tcp open  http" +:+ Str.LF;
                console := [Print "  [dim]Starting Nmap 7.94[/dim]";
                            Print "[bold green]PORT FOUND: 80/tcp open  http[/bold green]"] |}
             ["Starting Nmap 7.94" +:+ Str.LF; "80/tcp open  http" +:+ Str.LF] true).
    vm_compute. reflexivity.
Defined.

Lemma every_line_logged_witness :
  process_line plain_console live0 ("   " +:+ Str.LF) = Ok live0
  ∧ ((∃ st',
      process_line plain_console live0 ("  80/tcp open  http " +:+ Str.LF) = Ok st'
      ∧ log_file st'
        = log_file live0 +:+ Str.strip ("  80/tcp open  http " +:+ Str.LF) +:+ Str.LF)
   ∨ (process_line plain_console live0 ("  80/tcp open  http " +:+ Str.LF) = Raise MarkupError
      ∧ log_file (written live0 ("  80/tcp open  http " +:+ Str.LF))
        = log_file live0 +:+ Str.strip ("  80/tcp open  http " +:+ Str.LF) +:+ Str.LF))
  ∧ ((∃ st',
        process_line plain_console live0 ("80/tcp open  http  [/bold]" +:+ Str.LF) = Ok st'
        ∧ log_file st'
          = log_file live0 +:+ Str.strip ("80/tcp open  http  [/bold]" +:+ Str.LF) +:+ Str.LF)
     ∨ (process_line plain_console live0 ("80/tcp open  http  [/bold]" +:+ Str.LF)
        = Raise MarkupError
        ∧ log_file (written live0 ("80/tcp open  http  [/bold]" +:+ Str.LF))
          = log_file live0 +:+ Str.strip ("80/tcp open  http  [/bold]" +:+ Str.LF)
            +:+ Str.LF))
  ∧ snd (read_loop plain_console live0 (stdout_lines (nmap_ok [])) true) = None
  ∧ log_file (fst (read_loop plain_console live0 (stdout_lines (nmap_ok [])) true))
    = log_file live0 +:+ logged (stdout_lines (nmap_ok [])).
Proof.
  split; [| split; [| split]].
  - apply (proj1 (every_line_logged plain_console) live0 ("   " +:+ Str.LF)).
    reflexivity.
  - apply (proj1 (proj2 (every_line_logged plain_console)) live0
             ("  80/tcp open  http " +:+ Str.LF)).
    vm_compute. discriminate.
  - apply (proj1 (proj2 (every_line_logged plain_console)) live0
             ("80/tcp open  http  [/bold]" +:+ Str.LF)).
    vm_compute. discriminate.
  - apply (proj2 (proj2 (proj2 (every_line_logged plain_console))) live0
             (stdout_lines (nmap_ok []))).
    vm_compute. reflexivity.
Defined.

Lemma stats_line_suppressed_witness :
  process_line plain_console live0
    ("Stats: 0:00:03 elapsed; 0 hosts completed (1 up), 1 undergoing SYN Stealth Scan" +:+ Str.LF)
  = Ok {| completed := Int 0;
          log_file := "Stats: 0:00:03 elapsed; 0 hosts completed (1 up), 1 undergoing SYN Stealth Scan"
                      +:+ Str.LF;
          console := [] |}.
Proof.
  apply (proj1 (stats_line_suppressed plain_console) live0
           ("Stats: 0:00:03 elapsed; 0 hosts completed (1 up), 1 undergoing SYN Stealth Scan"
            +:+ Str.LF)); try reflexivity.
  now exists "", " 0:00:03 elapsed; 0 hosts completed (1 up), 1 undergoing SYN Stealth Scan".
Defined.



Lemma load_last_ip_outcomes_witness :
  load_last_ip (world_with nmap_ok []) = Ok None
  ∧ load_last_ip
      (set_fs {[ LAST_IP_FILE := File (" 10.0.0.7" +:+ String "013" (String "010" "")) ]}
         (world_with nmap_ok []))
    = Ok (Some (Str.strip
                  (universal_newlines (" 10.0.0.7" +:+ String "013" (String "010" "")))))
  ∧ load_last_ip world_garbled = Raise UnicodeDecodeError
  ∧ load_last_ip world_locked = Raise OSError.
Proof.
  split; [| split; [| split]].
  - apply (proj2 (proj1 (load_last_ip_outcomes (world_with nmap_ok [])))).
    vm_compute. reflexivity.
  - apply (proj1 (proj2 (load_last_ip_outcomes
                           (set_fs {[ LAST_IP_FILE :=
                                        File (" 10.0.0.7"
                                              +:+ String "013" (String "010" "")) ]}
                              (world_with nmap_ok []))))).
    vm_compute. reflexivity.
  - apply (proj1 (proj2 (proj2 (load_last_ip_outcomes world_garbled)))).
    vm_compute. reflexivity.
  - apply (proj2 (proj2 (proj2 (load_last_ip_outcomes world_locked)))).
    vm_compute. reflexivity.
Defined.

(** C9 as stated fails: with a [.last_target] that cannot be opened, or one
    that is not text, [load_last_ip] raises instead of returning the absent
    value. *)
Lemma load_last_ip_raises :
  load_last_ip world_locked = Raise OSError
  ∧ load_last_ip world_locked ≠ Ok None
  ∧ load_last_ip world_garbled = Raise UnicodeDecodeError.
Proof. repeat split; vm_compute; reflexivity || discriminate. Qed.






Lemma detail_line_highlighted_witness :
  process_line plain_console live0 ("| Stats: Service Info: OS: Linux" +:+ Str.LF) =
    if accepted plain_console
         (as_detail (Str.strip ("| Stats: Service Info: OS: Linux" +:+ Str.LF))) then
      Ok {| completed := completed live0;
            log_file := log_file live0
                        +:+ Str.strip ("| Stats: Service Info: OS: Linux" +:+ Str.LF) +:+ Str.LF;
            console := console live0
                       ++ [as_detail (Str.strip ("| Stats: Service Info: OS: Linux" +:+ Str.LF))] |}
    else Raise MarkupError.
Proof.
  apply (detail_line_highlighted plain_console live0
           ("| Stats: Service Info: OS: Linux" +:+ Str.LF)).
  - vm_compute. reflexivity.
  - vm_compute. reflexivity.
  - right. apply contains_occurs. vm_compute. reflexivity.
Defined.

Lemma script_line_shown_witness :
  process_line plain_console live0 ("| Stats: 3 scripts run" +:+ Str.LF) =
    if accepted plain_console (as_script (Str.strip ("| Stats: 3 scripts run" +:+ Str.LF))) then
      Ok {| completed := completed live0;
            log_file := log_file live0
                        +:+ Str.strip ("| Stats: 3 scripts run" +:+ Str.LF) +:+ Str.LF;
            console := console live0
                       ++ [as_script (Str.strip ("| Stats: 3 scripts run" +:+ Str.LF))] |}
    else Raise MarkupError.
Proof.
  apply (script_line_shown plain_console live0 ("| Stats: 3 scripts run" +:+ Str.LF)
           " Stats: 3 scripts run").
  - reflexivity.
  - vm_compute. reflexivity.
  - intros H. apply contains_occurs in H. vm_compute in H. discriminate H.
  - intros H. apply contains_occurs in H. vm_compute in H. discriminate H.
Defined.

Lemma plain_line_dimmed_witness :
  process_line plain_console live0 ("Nmap scan report for 10.0.0.1" +:+ Str.LF) =
    if accepted plain_console
         (as_plain (Str.strip ("Nmap scan report for 10.0.0.1" +:+ Str.LF))) then
      Ok {| completed := completed live0;
            log_file := log_file live0
                        +:+ Str.strip ("Nmap scan report for 10.0.0.1" +:+ Str.LF) +:+ Str.LF;
            console := console live0
                       ++ [as_plain (Str.strip ("Nmap scan report for 10.0.0.1" +:+ Str.LF))] |}
    else Raise MarkupError.
Proof.
  apply (plain_line_dimmed plain_console live0 ("Nmap scan report for 10.0.0.1" +:+ Str.LF)).
  - vm_compute. discriminate.
  - vm_compute. reflexivity.
  - vm_compute. reflexivity.
  - intros H. apply contains_occurs in H. vm_compute in H. discriminate H.
  - intros H. apply contains_occurs in H. vm_compute in H. discriminate H.
  - intros rest H. vm_compute in H. discriminate H.
  - intros H. apply contains_occurs in H. vm_compute in H. discriminate H.
Defined.

Lemma count_kept_without_marker_witness :
  completed (fst (read_loop plain_console live0
                    (["12.50% done" +:+ Str.LF]
                     ++ ["80/tcp open http" +:+ Str.LF; "Stats: 1 host [/x]" +:+ Str.LF;
                         "| [/x]" +:+ Str.LF]) false))
  = completed (fst (read_loop plain_console live0 ["12.50% done" +:+ Str.LF] true)).
Proof.
  apply (count_kept_without_marker plain_console live0 ["12.50% done" +:+ Str.LF]
           ["80/tcp open http" +:+ Str.LF; "Stats: 1 host [/x]" +:+ Str.LF;
            "| [/x]" +:+ Str.LF] false).
  repeat constructor.
Defined.

Lemma log_name_safe_witness :
  log_name "10.0.0.0/24" 1700000000 ≠ log_name "10.0.0.0/24" 1700000001.
Proof.
  apply (proj2 log_name_safe "10.0.0.0/24" 1700000000%Z 1700000001%Z). lia.
Defined.

Lemma run_scan_log_file_witness :
  ∃ w',
    run_scan plain_console ["nmap"] "10.0.0.1" (world_with nmap_ok []) = Ok w'
    ∧ ∃ prog : list string → child,
        w_path (world_with nmap_ok []) !! hd "" (scan_argv ["nmap"] "10.0.0.1") = Some prog
        ∧ w_fs w' !! log_name "10.0.0.1" (now (world_with nmap_ok []))
          = Some (File (logged (stdout_lines (prog (tl (scan_argv ["nmap"] "10.0.0.1"))))))
        ∧ (∀ name, name ≠ log_name "10.0.0.1" (now (world_with nmap_ok [])) →
                   w_fs w' !! name = w_fs (world_with nmap_ok []) !! name)
        ∧ w_stdin w' = w_stdin (world_with nmap_ok []).
Proof.
  destruct (run_scan_ok plain_console ["nmap"] "10.0.0.1" (world_with nmap_ok []) nmap_ok)
    as (st & _ & _ & Hrun).
  { repeat split; vm_compute; reflexivity || discriminate. }
  eexists. split; [exact Hrun |].
  apply (proj1 (run_scan_log_file plain_console) ["nmap"] "10.0.0.1" (world_with nmap_ok []) _
           Hrun).
Defined.


Lemma load_last_ip_stripped_witness :
  Str.strip "10.0.0.7" = "10.0.0.7"
  ∧ (∀ c t, "10.0.0.7" = String c t → Str.isspace c = false)
  ∧ (∀ u c, "10.0.0.7" = u +:+ String c "" → Str.isspace c = false).
Proof.
  apply (load_last_ip_stripped
           (set_fs {[ LAST_IP_FILE := File ("  10.0.0.7 " +:+ Str.LF) ]} world_locked)).
  vm_compute. reflexivity.
Defined.


Lemma menu_invalid_selection_witness :
  ∃ w',
    menu plain_console (world_with nmap_ok [""; "x"]) = Ok w'
    ∧ w_stdin w' = ["x"]
    ∧ w_fs w' = w_fs (world_with nmap_ok [""; "x"])
    ∧ w_spawned w' = w_spawned (world_with nmap_ok [""; "x"])
    ∧ List.last (w_console w') Clear = Print "[bold red]Invalid selection.[/bold red]".
Proof.
  apply (menu_invalid_selection plain_console (world_with nmap_ok [""; "x"]) "" ["x"]).
  - reflexivity.
  - vm_compute. intros H. repeat (destruct H as [H | H]; [discriminate H |]). exact H.
Defined.

Lemma menu_rejects_target_witness :
  ∃ w',
    menu plain_console (world_with nmap_ok ["3"; "scanme.nmap.org"; "2"]) = Ok w'
    ∧ w_stdin w' = ["2"]
    ∧ w_fs w' = w_fs (world_with nmap_ok ["3"; "scanme.nmap.org"; "2"])
    ∧ w_spawned w' = w_spawned (world_with nmap_ok ["3"; "scanme.nmap.org"; "2"])
    ∧ List.last (w_console w') Clear = Print "[bold red]Invalid IP format.[/bold red]".
Proof.
  apply (menu_rejects_target plain_console
           (world_with nmap_ok ["3"; "scanme.nmap.org"; "2"])
           "3" "scanme.nmap.org" ["2"]
           {| name := "Full Port Scan";
              command := ["nmap"; "-p-"];
              description := "Scans all 65535 TCP ports." |}
           None).
  - reflexivity.
  - vm_compute. reflexivity.
  - vm_compute. reflexivity.
  - vm_compute. reflexivity.
  - vm_compute. discriminate.
  - vm_compute. reflexivity.
Defined.




Lemma menu_explains_witness :
  ∃ w',
    menu plain_console (world_with nmap_ok [" E"; ""; "x"]) = Ok w'
    ∧ w_stdin w' = ["x"]
    ∧ w_fs w' = w_fs (world_with nmap_ok [" E"; ""; "x"])
    ∧ w_spawned w' = w_spawned (world_with nmap_ok [" E"; ""; "x"])
    ∧ List.last (w_console w') Clear = Ask "Press Enter to return to menu..."
    ∧ ∀ key scan,
        In (key, scan) SCANS →
        In (Print ("[yellow]" +:+ key +:+ ". " +:+ name scan +:+ "[/yellow]")) (w_console w')
        ∧ In (Print ("   Command: " +:+ Str.join " " (command scan))) (w_console w')
        ∧ In (Print ("   What it does: " +:+ description scan +:+ Str.LF)) (w_console w').
Proof.
  apply (menu_explains plain_console (world_with nmap_ok [" E"; ""; "x"]) " E" "" ["x"]).
  - reflexivity.
  - vm_compute. reflexivity.
Defined.
